(** * Inheritance vault ("dead man's switch"): the off-chain lifecycle engine

    A shallow embedding of the vault bookkeeping of the repository:
    - [vault/utils/delegation-storage.ts]  (persistence, JSON with BigInt)
    - [vault/utils/time-helpers.ts]        (periods and deadlines)
    - [vault/utils/validation.ts]          (pure validators)
    - [vault/core/setup-beneficiaries.ts]  (beneficiary setup)
    - [vault/core/check-in.ts]             (owner check-in)
    - [vault/core/claim.ts]                (beneficiary claim)
    - [vault/core/status.ts]               (status read path)

    Conventions.  A JS [bigint] and an integral JS [number] are both [Z];
    strings are [string] (the bytes of their UTF-8 encoding); an optional
    property is an [option]; arrays are lists.  Asynchronous calls to the
    chain and to the delegation toolkit are answers of an explicit
    [Framework] record.  An operation that reads the clock is handed its
    readings.  An operation that can throw returns a [Result]; an
    operation that writes storage threads the store explicitly and hands
    back the store as it stands when the operation returns or throws. *)

From Stdlib Require Import ZArith String Ascii List Lia Bool.
From Stdlib Require Import DecimalString DecimalPos DecimalZ.
From stdpp Require Import base option list gmap strings fin_maps.

Set Warnings "-register-all".
Local Open Scope string_scope.
Local Open Scope Z_scope.

(* ===================================================================== *)
(** ** JavaScript values as they pass through [JSON.stringify]/[JSON.parse] *)
(* ===================================================================== *)

Module JS.

(** A JS value tree.  [JNum] holds an integral [number]; [JBigInt] a
    [bigint].  An [undefined] property is an absent property. *)
Inductive JSValue : Type :=
| JNull
| JBool (b : bool)
| JNum (n : Z)
| JBigInt (n : Z)
| JStr (s : string)
| JArr (items : list JSValue)
| JObj (props : list (string * JSValue)).

(** [value.toString()] on a bigint: shortest decimal, ["-"] for negatives. *)
Definition BigInt_toString (n : Z) : string :=
  NilEmpty.string_of_int (Z.to_int n).

(** *** Strings as sequences of UTF-16 code units

    A JS string is a sequence of UTF-16 code units; a [string] here holds
    the bytes of its UTF-8 encoding.  [codeUnits] gives the code units
    back.  ([toLowerCase] below is applied to addresses and hashes only,
    which are ASCII.) *)

(** The code points of UTF-8 text.  [pending] continuation bytes are
    still to come for the code point of which [acc] holds the bits read
    so far.  A byte that cannot start a code point, and a code point cut
    short by the end of the text, are read as U+FFFD. *)
Fixpoint codePointsFrom (pending : nat) (acc : N) (s : string) : list N :=
  match s with
  | EmptyString => match pending with O => [] | S _ => [65533%N] end
  | String c rest =>
      let b := N_of_ascii c in
      match pending with
      | O =>
          if (b <? 128)%N then b :: codePointsFrom 0 0 rest
          else if (b <? 192)%N then 65533%N :: codePointsFrom 0 0 rest
          else if (b <? 224)%N then codePointsFrom 1 (b - 192) rest
          else if (b <? 240)%N then codePointsFrom 2 (b - 224) rest
          else codePointsFrom 3 (b - 240) rest
      | S O => (acc * 64 + b mod 64)%N :: codePointsFrom 0 0 rest
      | S more => codePointsFrom more (acc * 64 + b mod 64) rest
      end
  end.

Definition codePoints (s : string) : list N := codePointsFrom 0 0 s.

(** One code unit below U+10000, a surrogate pair from there on. *)
Definition unitsOfCodePoint (cp : N) : list N :=
  if (cp <? 65536)%N then [cp]
  else [(55296 + (cp - 65536) / 1024)%N; (56320 + (cp - 65536) mod 1024)%N].

Definition codeUnits (s : string) : list N :=
  flat_map unitsOfCodePoint (codePoints s).

(** [s.length] *)
Definition String_length (s : string) : nat := List.length (codeUnits s).

(** The code units [String.prototype.trim] strips: WhiteSpace (TAB, VT,
    FF, SP, NBSP, the other space separators, ZWNBSP) and LineTerminator
    (LF, CR, LS, PS). *)
Definition isWhiteSpace (u : N) : bool :=
  ((u =? 9) || (u =? 10) || (u =? 11) || (u =? 12) || (u =? 13) || (u =? 32)
   || (u =? 160) || (u =? 5760) || ((8192 <=? u) && (u <=? 8202))
   || (u =? 8232) || (u =? 8233) || (u =? 8239) || (u =? 8287)
   || (u =? 12288) || (u =? 65279))%N.

Fixpoint trimStart (units : list N) : list N :=
  match units with
  | [] => []
  | u :: rest => if isWhiteSpace u then trimStart rest else units
  end.

(** The code units of [s.trim()], given those of [s]. *)
Definition trim (units : list N) : list N :=
  rev (trimStart (rev (trimStart units))).

(** *** [BigInt(s)] on a string

    The text is trimmed; empty, it is [0n]; otherwise it is decimal
    digits with an optional sign, or hexadecimal, octal or binary digits
    after [0x], [0o] or [0b] (in either case, without a sign).  Anything
    else is a [SyntaxError]. *)

(** The text of code units that are all ASCII. *)
Fixpoint asciiText (units : list N) : option string :=
  match units with
  | [] => Some EmptyString
  | u :: rest =>
      if (u <? 128)%N
      then option_map (String (ascii_of_N u)) (asciiText rest)
      else None
  end.

Definition digitValue (c : ascii) : option Z :=
  let n := Z.of_N (N_of_ascii c) in
  if (48 <=? n) && (n <=? 57) then Some (n - 48)
  else if (97 <=? n) && (n <=? 102) then Some (n - 87)
  else if (65 <=? n) && (n <=? 70) then Some (n - 55)
  else None.

Fixpoint digitsFrom (radix acc : Z) (s : string) : option Z :=
  match s with
  | EmptyString => Some acc
  | String c rest =>
      match digitValue c with
      | Some d => if d <? radix then digitsFrom radix (acc * radix + d) rest else None
      | None => None
      end
  end.

(** One digit at least, each below [radix]. *)
Definition digits (radix : Z) (s : string) : option Z :=
  match s with
  | EmptyString => None
  | String _ _ => digitsFrom radix 0 s
  end.

(** One decimal digit at least. *)
Definition decimalDigits (s : string) : option Z :=
  match s with
  | EmptyString => None
  | String _ _ => option_map Z.of_uint (NilEmpty.uint_of_string s)
  end.

(** The radix a prefix letter stands for. *)
Definition radixOfPrefix (c : ascii) : option Z :=
  if (Ascii.eqb c "x" || Ascii.eqb c "X")%bool then Some 16
  else if (Ascii.eqb c "o" || Ascii.eqb c "O")%bool then Some 8
  else if (Ascii.eqb c "b" || Ascii.eqb c "B")%bool then Some 2
  else None.

Definition nonDecimal (text : string) : option (Z * string) :=
  match text with
  | String zero (String letter rest) =>
      if Ascii.eqb zero "0"
      then option_map (fun radix => (radix, rest)) (radixOfPrefix letter)
      else None
  | _ => None
  end.

Definition BigInt_of_string (s : string) : option Z :=
  match asciiText (trim (codeUnits s)) with
  | None => None
  | Some text =>
      match text with
      | EmptyString => Some 0
      | String c rest =>
          if Ascii.eqb c "+" then decimalDigits rest
          else if Ascii.eqb c "-" then option_map Z.opp (decimalDigits rest)
          else match nonDecimal text with
               | Some (radix, rest') => digits radix rest'
               | None => decimalDigits text
               end
      end
  end.

(** [BigInt(value)]; [None] is a thrown [TypeError]/[SyntaxError].  Arrays
    and objects (converted through [toString] in JS) are read as errors. *)
Definition BigInt (v : JSValue) : option Z :=
  match v with
  | JBigInt n => Some n
  | JNum n => Some n
  | JBool b => Some (if b then 1 else 0)
  | JStr s => BigInt_of_string s
  | JNull | JArr _ | JObj _ => None
  end.

(** Property lookup [o[key]] on an object literal (first binding). *)
Fixpoint prop (key : string) (props : list (string * JSValue)) : option JSValue :=
  match props with
  | [] => None
  | (k, v) :: rest => if String.eqb k key then Some v else prop key rest
  end.

(** [String.prototype.toLowerCase] on ASCII text. *)
Definition lower_ascii (c : ascii) : ascii :=
  let n := nat_of_ascii c in
  if ((65 <=? n) && (n <=? 90))%nat then ascii_of_nat (n + 32) else c.

Fixpoint toLowerCase (s : string) : string :=
  match s with
  | EmptyString => EmptyString
  | String c rest => String (lower_ascii c) (toLowerCase rest)
  end.

(** *** Numbers that may not be finite

    A JS [number] at the places where the source multiplies it by a
    constant and compares it with a constant: an integral value, an
    infinity or [NaN].  Every comparison with [NaN] is false.  (Numbers
    with a fractional part are left out: their products are rounded.) *)
Inductive JSNumber : Type :=
| NaN
| PlusInfinity
| MinusInfinity
| Num (n : Z).

(** [a * k] for an integral constant [k]. *)
Definition Number_mul (a : JSNumber) (k : Z) : JSNumber :=
  match a with
  | NaN => NaN
  | PlusInfinity =>
      if k =? 0 then NaN else if 0 <? k then PlusInfinity else MinusInfinity
  | MinusInfinity =>
      if k =? 0 then NaN else if 0 <? k then MinusInfinity else PlusInfinity
  | Num n => Num (n * k)
  end.

(** [a < k] *)
Definition Number_ltb (a : JSNumber) (k : Z) : bool :=
  match a with
  | NaN | PlusInfinity => false
  | MinusInfinity => true
  | Num n => n <? k
  end.

(** [a > k] *)
Definition Number_gtb (a : JSNumber) (k : Z) : bool :=
  match a with
  | NaN | MinusInfinity => false
  | PlusInfinity => true
  | Num n => n >? k
  end.

End JS.
Import JS.

(* ===================================================================== *)
(** ** Data model ([vault/types/index.ts]) *)
(* ===================================================================== *)

(** [enum PeriodUnit] of [time-helpers.ts]. *)
Inductive PeriodUnit : Type := MINUTES | HOURS | DAYS | WEEKS | MONTHS.

(** [enum VaultStatus]. *)
Inductive VaultStatus : Type := CREATED | ACTIVE | CLAIMABLE | EMPTY | DISABLED.

(** The caveats handed to the caveat builder in [setupBeneficiaries]. *)
Inductive Caveat : Type :=
| timestamp (afterThreshold beforeThreshold : Z)
| limitedCalls (limit : Z)
| nativeTokenTransferAmount (maxAmount : Z)
| erc20TransferAmount (maxAmount : Z).

(** The [scope] argument of [createDelegation]. *)
Inductive Scope : Type :=
| ScopeNative (maxAmount : Z)
| ScopeErc20 (tokenAddress : string) (maxAmount : Z).

(** A delegation of the toolkit.  Its encoding is the toolkit's business;
    the vault code only ever builds one from these four arguments of
    [createDelegation] and reads back the vault it was issued [from]. *)
Module Delegation.
Record t : Type := mk {
  from : string;
  to : string;
  scope : Scope;
  caveats : list Caveat }.
End Delegation.

Module VaultConfig.
Record t : Type := mk {
  vaultAddress : string;
  ownerAddress : string;
  checkInPeriod : Z;
  checkInPeriodUnit : PeriodUnit;
  lastCheckIn : Z;
  nextDeadline : Z;
  totalValue : Z;
  tokens : list string;
  createdAt : Z }.
End VaultConfig.

(** [percentage] is kept as the exact integer
    [allocation * 10000 / vaultBalance] (hundredths of a percent); the
    source divides it by 100 into a floating-point display value. *)
Module Beneficiary.
Record t : Type := mk {
  address : string;
  name : string;
  allocation : Z;
  percentage : Z;
  tokenAddress : string;
  delegation : option Delegation.t;
  delegationHash : option string;
  hasClaimed : bool;
  claimTxHash : option string;
  claimTimestamp : option Z }.
End Beneficiary.

Module CheckInRecord.
Record t : Type := mk {
  timestamp : Z;
  txHash : string;
  newDeadline : Z;
  disabledDelegationCount : Z;
  createdDelegationCount : Z;
  gasUsed : Z }.
End CheckInRecord.

Module StoredDelegation.
Record t : Type := mk {
  beneficiaryAddress : string;
  delegation : Delegation.t;
  signature : string;
  hash : string;
  createdAt : Z;
  deadline : Z;
  isDisabled : bool }.
End StoredDelegation.

Module VaultStorage.
Record t : Type := mk {
  config : VaultConfig.t;
  beneficiaries : list Beneficiary.t;
  delegations : list StoredDelegation.t;
  checkIns : list CheckInRecord.t;
  lastUpdated : Z }.
End VaultStorage.

Module VaultState.
Record t : Type := mk {
  config : VaultConfig.t;
  beneficiaries : list Beneficiary.t;
  checkIns : list CheckInRecord.t;
  status : VaultStatus;
  timeRemaining : Z;
  canCheckIn : bool }.
End VaultState.

(** [TimeCalculation] without its display string [humanReadable]. *)
Module TimeCalculation.
Record t : Type := mk {
  secondsRemaining : Z;
  isPast : bool;
  deadline : Z }.
End TimeCalculation.

(** The entries of [SetupBeneficiariesParams.beneficiaries]. *)
Module BeneficiaryInput.
Record t : Type := mk {
  address : string;
  name : string;
  allocation : Z;
  tokenAddress : option string }.
End BeneficiaryInput.

(* ===================================================================== *)
(** ** The persisted record format ([delegation-storage.ts]) *)
(* ===================================================================== *)

Module Json.

(** *** [JSON.stringify(data, replacer)] and [JSON.parse(data, reviver)]

    The text between the two is the printed tree; printing and reading a
    tree of strings, integral numbers, booleans, arrays and objects is the
    identity, so the stored item is kept as that tree. *)

(** The replacer of [saveVaultData]: a bigint becomes its decimal string. *)
Fixpoint stringify (v : JSValue) : JSValue :=
  match v with
  | JBigInt n => JStr (BigInt_toString n)
  | JArr items => JArr (map stringify items)
  | JObj props => JObj (map (fun kv => (fst kv, stringify (snd kv))) props)
  | _ => v
  end.

(** A bigint is left in the tree ([JSON.stringify] throws on one). *)
Fixpoint hasBigInt (v : JSValue) : bool :=
  match v with
  | JBigInt _ => true
  | JArr items => existsb hasBigInt items
  | JObj props => existsb (fun kv => hasBigInt (snd kv)) props
  | _ => false
  end.

Definition isBigIntKey (key : string) : bool :=
  String.eqb key "allocation" || String.eqb key "totalValue" ||
  String.eqb key "gasUsed" || String.eqb key "maxAmount".

(** The reviver of [loadVaultData]: under one of the four keys the value
    goes through [BigInt]; a throw ([None]) makes the whole parse fail. *)
Definition reviver (key : string) (value : JSValue) : option JSValue :=
  if isBigIntKey key then option_map JBigInt (BigInt value) else Some value.

(** [JSON.parse] calls the reviver bottom-up, children before their
    holder; array elements are keyed by their index, which is never one of
    the four names, and the root by the empty string. *)
Fixpoint revive (key : string) (v : JSValue) : option JSValue :=
  match v with
  | JArr items =>
      items' ← mapM (revive "") items; reviver key (JArr items')
  | JObj props =>
      props' ← mapM (fun kv => v' ← revive (fst kv) (snd kv); Some (fst kv, v')) props;
      reviver key (JObj props')
  | _ => reviver key v
  end.

(** *** Records as JS objects *)

Definition optional (key : string) (v : option JSValue) : list (string * JSValue) :=
  match v with Some x => [(key, x)] | None => [] end.

Definition ofPeriodUnit (u : PeriodUnit) : JSValue :=
  JStr match u with
       | MINUTES => "minutes" | HOURS => "hours" | DAYS => "days"
       | WEEKS => "weeks" | MONTHS => "months"
       end.

Definition ofCaveat (c : Caveat) : JSValue :=
  match c with
  | timestamp a b =>
      JObj [("type", JStr "timestamp"); ("afterThreshold", JNum a); ("beforeThreshold", JNum b)]
  | limitedCalls l => JObj [("type", JStr "limitedCalls"); ("limit", JNum l)]
  | nativeTokenTransferAmount m =>
      JObj [("type", JStr "nativeTokenTransferAmount"); ("maxAmount", JBigInt m)]
  | erc20TransferAmount m =>
      JObj [("type", JStr "erc20TransferAmount"); ("maxAmount", JBigInt m)]
  end.

Definition ofScope (s : Scope) : JSValue :=
  match s with
  | ScopeNative m => JObj [("type", JStr "nativeTokenTransferAmount"); ("maxAmount", JBigInt m)]
  | ScopeErc20 t m =>
      JObj [("type", JStr "erc20TransferAmount"); ("tokenAddress", JStr t); ("maxAmount", JBigInt m)]
  end.

Definition ofDelegation (d : Delegation.t) : JSValue :=
  JObj [("from", JStr (Delegation.from d));
        ("to", JStr (Delegation.to d));
        ("scope", ofScope (Delegation.scope d));
        ("caveats", JArr (map ofCaveat (Delegation.caveats d)))].

Definition ofConfig (c : VaultConfig.t) : JSValue :=
  JObj [("vaultAddress", JStr (VaultConfig.vaultAddress c));
        ("ownerAddress", JStr (VaultConfig.ownerAddress c));
        ("checkInPeriod", JNum (VaultConfig.checkInPeriod c));
        ("checkInPeriodUnit", ofPeriodUnit (VaultConfig.checkInPeriodUnit c));
        ("lastCheckIn", JNum (VaultConfig.lastCheckIn c));
        ("nextDeadline", JNum (VaultConfig.nextDeadline c));
        ("totalValue", JBigInt (VaultConfig.totalValue c));
        ("tokens", JArr (map JStr (VaultConfig.tokens c)));
        ("createdAt", JNum (VaultConfig.createdAt c))].

Definition ofBeneficiary (b : Beneficiary.t) : JSValue :=
  JObj ([("address", JStr (Beneficiary.address b));
         ("name", JStr (Beneficiary.name b));
         ("allocation", JBigInt (Beneficiary.allocation b));
         ("percentage", JNum (Beneficiary.percentage b));
         ("tokenAddress", JStr (Beneficiary.tokenAddress b))]
        ++ optional "delegation" (option_map ofDelegation (Beneficiary.delegation b))
        ++ optional "delegationHash" (option_map JStr (Beneficiary.delegationHash b))
        ++ [("hasClaimed", JBool (Beneficiary.hasClaimed b))]
        ++ optional "claimTxHash" (option_map JStr (Beneficiary.claimTxHash b))
        ++ optional "claimTimestamp" (option_map JNum (Beneficiary.claimTimestamp b))).

Definition ofCheckInRecord (r : CheckInRecord.t) : JSValue :=
  JObj [("timestamp", JNum (CheckInRecord.timestamp r));
        ("txHash", JStr (CheckInRecord.txHash r));
        ("newDeadline", JNum (CheckInRecord.newDeadline r));
        ("disabledDelegationCount", JNum (CheckInRecord.disabledDelegationCount r));
        ("createdDelegationCount", JNum (CheckInRecord.createdDelegationCount r));
        ("gasUsed", JBigInt (CheckInRecord.gasUsed r))].

Definition ofStoredDelegation (d : StoredDelegation.t) : JSValue :=
  JObj [("beneficiaryAddress", JStr (StoredDelegation.beneficiaryAddress d));
        ("delegation", ofDelegation (StoredDelegation.delegation d));
        ("signature", JStr (StoredDelegation.signature d));
        ("hash", JStr (StoredDelegation.hash d));
        ("createdAt", JNum (StoredDelegation.createdAt d));
        ("deadline", JNum (StoredDelegation.deadline d));
        ("isDisabled", JBool (StoredDelegation.isDisabled d))].

(** The in-memory [VaultStorage] object. *)
Definition ofVaultStorage (s : VaultStorage.t) : JSValue :=
  JObj [("config", ofConfig (VaultStorage.config s));
        ("beneficiaries", JArr (map ofBeneficiary (VaultStorage.beneficiaries s)));
        ("delegations", JArr (map ofStoredDelegation (VaultStorage.delegations s)));
        ("checkIns", JArr (map ofCheckInRecord (VaultStorage.checkIns s)));
        ("lastUpdated", JNum (VaultStorage.lastUpdated s))].

(** *** Reading the parsed tree back ([parsed as VaultStorage])

    The source casts without looking; here a field of the wrong shape
    makes the read fail, which [loadVaultData] reports as "no record". *)

Definition str (v : option JSValue) : option string :=
  match v with Some (JStr s) => Some s | _ => None end.
Definition num (v : option JSValue) : option Z :=
  match v with Some (JNum n) => Some n | _ => None end.
Definition big (v : option JSValue) : option Z :=
  match v with Some (JBigInt n) => Some n | _ => None end.
Definition boolean (v : option JSValue) : option bool :=
  match v with Some (JBool b) => Some b | _ => None end.
Definition obj (v : option JSValue) : option (list (string * JSValue)) :=
  match v with Some (JObj props) => Some props | _ => None end.
Definition arr {A} (f : JSValue -> option A) (v : option JSValue) : option (list A) :=
  match v with Some (JArr items) => mapM f items | _ => None end.
Definition opt {A} (f : option JSValue -> option A) (v : option JSValue)
  : option (option A) :=
  match v with None => Some None | Some _ => option_map Some (f v) end.

Definition toPeriodUnit (v : option JSValue) : option PeriodUnit :=
  s ← str v;
  if String.eqb s "minutes" then Some MINUTES
  else if String.eqb s "hours" then Some HOURS
  else if String.eqb s "days" then Some DAYS
  else if String.eqb s "weeks" then Some WEEKS
  else if String.eqb s "months" then Some MONTHS
  else None.

Definition toCaveat (v : JSValue) : option Caveat :=
  o ← obj (Some v);
  ty ← str (prop "type" o);
  if String.eqb ty "timestamp" then
    a ← num (prop "afterThreshold" o); b ← num (prop "beforeThreshold" o);
    Some (timestamp a b)
  else if String.eqb ty "limitedCalls" then
    l ← num (prop "limit" o); Some (limitedCalls l)
  else if String.eqb ty "nativeTokenTransferAmount" then
    m ← big (prop "maxAmount" o); Some (nativeTokenTransferAmount m)
  else if String.eqb ty "erc20TransferAmount" then
    m ← big (prop "maxAmount" o); Some (erc20TransferAmount m)
  else None.

Definition toScope (v : option JSValue) : option Scope :=
  o ← obj v;
  ty ← str (prop "type" o);
  if String.eqb ty "nativeTokenTransferAmount" then
    m ← big (prop "maxAmount" o); Some (ScopeNative m)
  else if String.eqb ty "erc20TransferAmount" then
    t ← str (prop "tokenAddress" o); m ← big (prop "maxAmount" o);
    Some (ScopeErc20 t m)
  else None.

Definition toDelegation (v : option JSValue) : option Delegation.t :=
  o ← obj v;
  f ← str (prop "from" o);
  t ← str (prop "to" o);
  sc ← toScope (prop "scope" o);
  cs ← arr toCaveat (prop "caveats" o);
  Some (Delegation.mk f t sc cs).

Definition toConfig (v : option JSValue) : option VaultConfig.t :=
  o ← obj v;
  va ← str (prop "vaultAddress" o);
  oa ← str (prop "ownerAddress" o);
  p ← num (prop "checkInPeriod" o);
  u ← toPeriodUnit (prop "checkInPeriodUnit" o);
  lc ← num (prop "lastCheckIn" o);
  nd ← num (prop "nextDeadline" o);
  tv ← big (prop "totalValue" o);
  tk ← arr (fun x => str (Some x)) (prop "tokens" o);
  ca ← num (prop "createdAt" o);
  Some (VaultConfig.mk va oa p u lc nd tv tk ca).

Definition toBeneficiary (v : JSValue) : option Beneficiary.t :=
  o ← obj (Some v);
  a ← str (prop "address" o);
  n ← str (prop "name" o);
  al ← big (prop "allocation" o);
  pc ← num (prop "percentage" o);
  ta ← str (prop "tokenAddress" o);
  d ← opt toDelegation (prop "delegation" o);
  dh ← opt str (prop "delegationHash" o);
  hc ← boolean (prop "hasClaimed" o);
  tx ← opt str (prop "claimTxHash" o);
  ts ← opt num (prop "claimTimestamp" o);
  Some (Beneficiary.mk a n al pc ta d dh hc tx ts).

Definition toCheckInRecord (v : JSValue) : option CheckInRecord.t :=
  o ← obj (Some v);
  ts ← num (prop "timestamp" o);
  tx ← str (prop "txHash" o);
  nd ← num (prop "newDeadline" o);
  dc ← num (prop "disabledDelegationCount" o);
  cc ← num (prop "createdDelegationCount" o);
  g ← big (prop "gasUsed" o);
  Some (CheckInRecord.mk ts tx nd dc cc g).

Definition toStoredDelegation (v : JSValue) : option StoredDelegation.t :=
  o ← obj (Some v);
  ba ← str (prop "beneficiaryAddress" o);
  d ← toDelegation (prop "delegation" o);
  sg ← str (prop "signature" o);
  h ← str (prop "hash" o);
  ca ← num (prop "createdAt" o);
  dl ← num (prop "deadline" o);
  dis ← boolean (prop "isDisabled" o);
  Some (StoredDelegation.mk ba d sg h ca dl dis).

Definition toVaultStorage (v : JSValue) : option VaultStorage.t :=
  o ← obj (Some v);
  c ← toConfig (prop "config" o);
  bs ← arr toBeneficiary (prop "beneficiaries" o);
  ds ← arr toStoredDelegation (prop "delegations" o);
  cs ← arr toCheckInRecord (prop "checkIns" o);
  lu ← num (prop "lastUpdated" o);
  Some (VaultStorage.mk c bs ds cs lu).

End Json.

(** *** The store and its four accessors *)

(** Both back ends (a [localStorage] item named
    [monad_vault_<address>], a file [<address>.json]) index a vault by
    its lower-cased address; the store maps that key to the saved text.
    Writing the item or file is taken to succeed. *)
Abbreviation Store := (gmap string JSValue).

Definition storageKey (vaultAddress : string) : string := toLowerCase vaultAddress.

Definition saveVaultData (vaultAddress : string) (data : VaultStorage.t)
    (st : Store) : Store :=
  <[storageKey vaultAddress := Json.stringify (Json.ofVaultStorage data)]> st.

Definition loadVaultData (vaultAddress : string) (st : Store)
  : option VaultStorage.t :=
  data ← st !! storageKey vaultAddress;
  parsed ← Json.revive "" data;
  Json.toVaultStorage parsed.

Definition eqIgnoreCase (a b : string) : bool :=
  String.eqb (toLowerCase a) (toLowerCase b).

(** [getBeneficiaryDelegation]: the first stored delegation issued to the
    beneficiary, addresses compared case-insensitively. *)
Definition getBeneficiaryDelegation (vaultAddress beneficiaryAddress : string)
    (st : Store) : option StoredDelegation.t :=
  vaultData ← loadVaultData vaultAddress st;
  List.find (fun d => eqIgnoreCase (StoredDelegation.beneficiaryAddress d) beneficiaryAddress)
            (VaultStorage.delegations vaultData).

Definition setIsDisabled (isDisabled : bool) (d : StoredDelegation.t) : StoredDelegation.t :=
  StoredDelegation.mk (StoredDelegation.beneficiaryAddress d) (StoredDelegation.delegation d)
    (StoredDelegation.signature d) (StoredDelegation.hash d) (StoredDelegation.createdAt d)
    (StoredDelegation.deadline d) isDisabled.

(** [delegations.find(...)] followed by an assignment to the element found:
    the first delegation with that hash is rewritten in place. *)
Fixpoint markFirst (delegationHash : string) (isDisabled : bool)
    (ds : list StoredDelegation.t) : option (list StoredDelegation.t) :=
  match ds with
  | [] => None
  | d :: rest =>
      if eqIgnoreCase (StoredDelegation.hash d) delegationHash
      then Some (setIsDisabled isDisabled d :: rest)
      else option_map (cons d) (markFirst delegationHash isDisabled rest)
  end.

Definition setDelegations (ds : list StoredDelegation.t) (lastUpdated : Z)
    (s : VaultStorage.t) : VaultStorage.t :=
  VaultStorage.mk (VaultStorage.config s) (VaultStorage.beneficiaries s) ds
    (VaultStorage.checkIns s) lastUpdated.

(** [updateDelegationStatus]: reload, flip the flag, save; [false] and no
    write when the vault or the hash is unknown. *)
Definition updateDelegationStatus (now : Z) (vaultAddress delegationHash : string)
    (isDisabled : bool) (st : Store) : bool * Store :=
  match loadVaultData vaultAddress st with
  | None => (false, st)
  | Some vaultData =>
      match markFirst delegationHash isDisabled (VaultStorage.delegations vaultData) with
      | None => (false, st)
      | Some ds => (true, saveVaultData vaultAddress (setDelegations ds now vaultData) st)
      end
  end.

(** [getActiveDelegations]: the stored delegations not flagged disabled. *)
Definition getActiveDelegations (vaultAddress : string) (st : Store)
  : list StoredDelegation.t :=
  match loadVaultData vaultAddress st with
  | None => []
  | Some vaultData =>
      List.filter (fun d => negb (StoredDelegation.isDisabled d))
                  (VaultStorage.delegations vaultData)
  end.

(* ===================================================================== *)
(** ** Time helpers ([time-helpers.ts]) *)
(* ===================================================================== *)

(** Every function that reads the clock takes the reading [now]
    ([Math.floor(Date.now() / 1000)]) as an argument; the readings of one
    operation are taken to fall in the same second. *)

Definition calculateTimeRemaining (now deadlineTimestamp : Z) : TimeCalculation.t :=
  let secondsRemaining := deadlineTimestamp - now in
  let isPast := secondsRemaining <=? 0 in
  TimeCalculation.mk (Z.max 0 secondsRemaining) isPast deadlineTimestamp.

Definition getDeadlineFromPeriod (now period : Z) (unit : PeriodUnit) : Z :=
  let seconds :=
    match unit with
    | MINUTES => period * 60
    | HOURS => period * 60 * 60
    | DAYS => period * 24 * 60 * 60
    | WEEKS => period * 7 * 24 * 60 * 60
    | MONTHS => period * 30 * 24 * 60 * 60
    end in
  now + seconds.

Definition isDeadlinePassed (now deadline : Z) : bool := now >=? deadline.

(* ===================================================================== *)
(** ** Validation ([validation.ts]) *)
(* ===================================================================== *)

(** The texts of [ValidationResult.error], one constructor per message. *)
Inductive ValidationMessage : Type :=
| InvalidAddress (address : string)
    (** "Invalid Ethereum address: ..." *)
| NoBeneficiaries
    (** "At least one beneficiary is required" *)
| TooManyBeneficiaries
    (** "Maximum 10 beneficiaries allowed" *)
| AllocationExceedsBalance (totalAllocation vaultBalance : Z)
    (** "Total allocation (..) exceeds vault balance (..)" *)
| NonPositiveAllocation (name : string)
    (** "Beneficiary .. has zero or negative allocation" *)
| ZeroAllocation (name : string)
    (** "Beneficiary .. has zero allocation" ([setupBeneficiaries]) *)
| PeriodTooShort
    (** "Check-in period must be at least 5 minutes" *)
| PeriodTooLong
    (** "Check-in period cannot exceed 1 year" *)
| BalanceTooLow
    (** "Vault balance too low. Minimum: ..." *)
| NameEmpty
    (** "Beneficiary name cannot be empty" *)
| NameTooLong
    (** "Beneficiary name too long (max 50 characters)" *)
| DuplicateAddress (address : string)
    (** "Duplicate beneficiary address: ..." *)
| NoMessage.
    (** an invalid result without an [error] text *)

Inductive ValidationWarning : Type :=
| ManyBeneficiaries
    (** "Large number of beneficiaries will increase gas costs significantly" *)
| Unallocated (amount : Z)
    (** ".. wei unallocated. Remaining funds will stay in vault." *)
| VeryShortPeriod
    (** "Very short check-in period - suitable for testing only" *)
| LongPeriod.
    (** "Long check-in period - consider a shorter interval" *)

Module ValidationResult.
Record t : Type := mk {
  isValid : bool;
  error : option ValidationMessage;
  warnings : option (list ValidationWarning) }.
End ValidationResult.

Definition valid : ValidationResult.t := ValidationResult.mk true None None.
Definition invalid (e : ValidationMessage) : ValidationResult.t :=
  ValidationResult.mk false (Some e) None.

(** [if (!v.isValid) throw new Error(v.error)]: the message thrown. *)
Definition thrownBy (v : ValidationResult.t) : option ValidationMessage :=
  if ValidationResult.isValid v then None
  else Some match ValidationResult.error v with Some e => e | None => NoMessage end.

(** [warnings.length > 0 ? warnings : undefined] *)
Definition someWarnings (ws : list ValidationWarning) : option (list ValidationWarning) :=
  match ws with [] => None | _ => Some ws end.

(** [warnings || []] *)
Definition warningsOrEmpty (ws : option (list ValidationWarning)) : list ValidationWarning :=
  match ws with Some l => l | None => [] end.

Section Validation.
(** [isAddress] of viem. *)
Variable isAddress : string -> bool.

Definition validateAddress (address : string) : ValidationResult.t :=
  if negb (isAddress address) then invalid (InvalidAddress address) else valid.

(** [beneficiaries.reduce((sum, b) => sum + b.allocation, 0n)] *)
Definition totalAllocationOf (beneficiaries : list Beneficiary.t) : Z :=
  fold_left (fun sum b => sum + Beneficiary.allocation b) beneficiaries 0.

Definition validateBeneficiaryAllocations (beneficiaries : list Beneficiary.t)
    (vaultBalance : Z) : ValidationResult.t :=
  if (length beneficiaries =? 0)%nat then invalid NoBeneficiaries
  else if (10 <? length beneficiaries)%nat then
    ValidationResult.mk false (Some TooManyBeneficiaries) (Some [ManyBeneficiaries])
  else
    let totalAllocation := totalAllocationOf beneficiaries in
    if totalAllocation >? vaultBalance then
      invalid (AllocationExceedsBalance totalAllocation vaultBalance)
    else
      match List.find (fun b => Beneficiary.allocation b <=? 0) beneficiaries with
      | Some b => invalid (NonPositiveAllocation (Beneficiary.name b))
      | None =>
          let warnings :=
            if totalAllocation <? vaultBalance
            then [Unallocated (vaultBalance - totalAllocation)] else [] in
          ValidationResult.mk true None (someWarnings warnings)
      end.

Definition validateCheckInPeriod (period : JSNumber) (unit : PeriodUnit)
  : ValidationResult.t :=
  let totalMinutes :=
    match unit with
    | MINUTES => period
    | HOURS => Number_mul period 60
    | DAYS => Number_mul (Number_mul period 24) 60
    | WEEKS => Number_mul (Number_mul (Number_mul period 7) 24) 60
    | MONTHS => Number_mul (Number_mul (Number_mul period 30) 24) 60
    end in
  if Number_ltb totalMinutes 5 then invalid PeriodTooShort
  else if Number_gtb totalMinutes (365 * 24 * 60) then invalid PeriodTooLong
  else
    let warnings :=
      ((if Number_ltb totalMinutes 60 then [VeryShortPeriod] else []) ++
       (if Number_gtb totalMinutes (180 * 24 * 60) then [LongPeriod] else []))%list in
    ValidationResult.mk true None (someWarnings warnings).

Definition MIN_BALANCE : Z := 1000000000000000.

Definition validateVaultBalance (balance : Z) : ValidationResult.t :=
  if balance <? MIN_BALANCE then invalid BalanceTooLow else valid.

(** [!name || name.trim().length === 0], then [name.length > 50];
    lengths count UTF-16 code units. *)
Definition validateBeneficiaryName (name : string) : ValidationResult.t :=
  if (String_length name =? 0)%nat || (length (trim (codeUnits name)) =? 0)%nat
  then invalid NameEmpty
  else if (50 <? String_length name)%nat then invalid NameTooLong
  else valid.

(** The loop over [addresses] with its [seen] set. *)
Fixpoint noDuplicatesFrom (seen : gset string) (addresses : list string)
  : ValidationResult.t :=
  match addresses with
  | [] => valid
  | address :: rest =>
      let normalized := toLowerCase address in
      if decide (normalized ∈ seen) then invalid (DuplicateAddress address)
      else noDuplicatesFrom ({[normalized]} ∪ seen) rest
  end.

Definition validateNoDuplicates (addresses : list string) : ValidationResult.t :=
  noDuplicatesFrom ∅ addresses.

Definition validateVaultSetup (ownerAddress : string) (beneficiaries : list Beneficiary.t)
    (vaultBalance : Z) (period : JSNumber) (unit : PeriodUnit) : ValidationResult.t :=
  let ownerValidation := validateAddress ownerAddress in
  if negb (ValidationResult.isValid ownerValidation) then ownerValidation else
  let periodValidation := validateCheckInPeriod period unit in
  if negb (ValidationResult.isValid periodValidation) then periodValidation else
  let balanceValidation := validateVaultBalance vaultBalance in
  if negb (ValidationResult.isValid balanceValidation) then balanceValidation else
  let beneficiaryValidation := validateBeneficiaryAllocations beneficiaries vaultBalance in
  if negb (ValidationResult.isValid beneficiaryValidation) then beneficiaryValidation else
  let duplicateValidation :=
    validateNoDuplicates (map Beneficiary.address beneficiaries) in
  if negb (ValidationResult.isValid duplicateValidation) then duplicateValidation else
  let warnings :=
    (warningsOrEmpty (ValidationResult.warnings periodValidation) ++
     warningsOrEmpty (ValidationResult.warnings beneficiaryValidation))%list in
  ValidationResult.mk true None (someWarnings warnings).
End Validation.

(* ===================================================================== *)
(** ** The outside world and thrown errors *)
(* ===================================================================== *)

(** Answers of the chain, of the delegation toolkit and of the process
    environment during one operation.  [None] is a rejected promise (the
    call throws). *)
Record Framework : Type := {
  isAddress : string -> bool;
  (** [process.env.PRIVATE_KEY] *)
  envPrivateKey : option string;
  (** [toMetaMaskSmartAccount]: the address of the owner's fresh vault *)
  toMetaMaskSmartAccount : string -> string;
  (** [publicClient.getCode] gives code other than ["0x"] *)
  isDeployed : string -> bool;
  (** the deployment transaction, sent and confirmed *)
  deployVault : string -> option string;
  (** the funding transfer, sent and confirmed *)
  fundVault : string -> Z -> option string;
  (** [publicClient.getBalance] *)
  getBalance : string -> Z;
  (** [vault.signDelegation]: the signature *)
  signDelegation : Delegation.t -> option string;
  (** [keccak256(toHex(JSON.stringify(delegation)))] *)
  keccak256 : Delegation.t -> string;
  (** [DelegationManager.execute.disableDelegation]: the transaction hash *)
  disableDelegation : Delegation.t -> string -> option string;
  (** [publicClient.waitForTransactionReceipt]: [gasUsed] of the receipt *)
  waitForTransactionReceipt : string -> option Z;
  (** [publicClient.getTransactionReceipt]: [gasUsed] of the receipt *)
  getTransactionReceipt : string -> option Z;
  (** [walletClient.sendTransaction] of the encoded redemption of a signed
      delegation in favour of a beneficiary: the transaction hash *)
  redeemDelegations : Delegation.t -> string -> Beneficiary.t -> option string }.

Inductive Missing : Type := MissingVault | MissingBeneficiary | MissingDelegation.

(** The source throws [Error] with a message; the messages are sorted
    into the error taxonomy of the design. *)
Inductive VaultError : Type :=
| NotFoundError (what : Missing)
    (** "Vault not found", "Beneficiary not found in vault", "Delegation not found" *)
| ValidationError (message : ValidationMessage)
| SigningError
    (** [signDelegation] rejected *)
| NoActiveDelegationsError
    (** "No active delegations to check in" *)
| AlreadyClaimedError
    (** "Already claimed" *)
| DelegationDisabledError
    (** "Delegation has been disabled" *)
| TooEarlyError (timeRemaining : Z)
    (** "Cannot claim yet. Deadline in .. seconds" *)
| TransactionError
    (** a claim transaction that is rejected or never confirmed *)
| DeploymentError
    (** the deployment transaction of [createVault] rejected *)
| FundingError
    (** the funding transfer of [createVault] rejected *)
| NoPrivateKeyError
    (** "No private key provided. Pass ownerPrivateKey or set PRIVATE_KEY
        environment variable." *)
| TypeError.
    (** not an [Error] of the source: the [TypeError] of the engine on
        reading a property of [undefined] *)

Inductive Result (A : Type) : Type :=
| Ok (value : A)
| Err (error : VaultError).
Arguments Ok {A} value.
Arguments Err {A} error.

Definition isOk {A} (r : Result A) : bool :=
  match r with Ok _ => true | Err _ => false end.

(** [a || b] on an optional number or bigint: [undefined] and [0] are
    falsy. *)
Definition orElse (a : option Z) (b : Z) : Z :=
  match a with
  | Some x => if x =? 0 then b else x
  | None => b
  end.

Definition truthy (a : option Z) : bool :=
  match a with Some x => negb (x =? 0) | None => false end.

(* ===================================================================== *)
(** ** Vault creation ([create-vault.ts]) *)
(* ===================================================================== *)

Module CreateVaultParams.
Record t : Type := mk {
  ownerAddress : string;
  checkInPeriod : option Z;
  checkInPeriodUnit : option PeriodUnit;
  initialFunding : option Z;
  ownerPrivateKey : option string }.
End CreateVaultParams.

(** [a || b] on optional strings: [undefined] and the empty string are
    falsy. *)
Definition orElseString (a b : option string) : option string :=
  match a with
  | Some x => if (String.length x =? 0)%nat then b else a
  | None => b
  end.

(** [createVault(params)]: period check, the private key from the
    parameters or the environment, deployment unless the account is
    already on chain, optional funding, then the first record, without
    beneficiaries or delegations, is saved.  A failed funding leaves the
    vault deployed and nothing stored.  [now] is the reading of
    [getCurrentTimestamp] for the record, [deadlineAt] the one made right
    after it inside [getDeadlineFromPeriod]. *)
Definition createVault (fw : Framework) (now deadlineAt : Z)
    (params : CreateVaultParams.t) (st : Store)
  : Result (string * VaultConfig.t) * Store :=
  let period := orElse (CreateVaultParams.checkInPeriod params) 30 in
  let unit :=
    match CreateVaultParams.checkInPeriodUnit params with Some u => u | None => DAYS end in
  match thrownBy (validateCheckInPeriod (Num period) unit) with
  | Some e => (Err (ValidationError e), st)
  | None =>
  match orElseString (CreateVaultParams.ownerPrivateKey params) (envPrivateKey fw) with
  | None => (Err NoPrivateKeyError, st)
  | Some privateKey =>
  if (String.length privateKey =? 0)%nat then (Err NoPrivateKeyError, st) else
  let vault := toMetaMaskSmartAccount fw (CreateVaultParams.ownerAddress params) in
  match (if isDeployed fw vault then Some "" else deployVault fw vault) with
  | None => (Err DeploymentError, st)
  | Some _ =>
  match (if truthy (CreateVaultParams.initialFunding params) &&
            (orElse (CreateVaultParams.initialFunding params) 0 >? 0)
         then fundVault fw vault (orElse (CreateVaultParams.initialFunding params) 0)
         else Some "") with
  | None => (Err FundingError, st)
  | Some _ =>
      let balance := getBalance fw vault in
      let deadline := getDeadlineFromPeriod deadlineAt period unit in
      let config :=
        VaultConfig.mk vault (CreateVaultParams.ownerAddress params) period unit
          now deadline balance [] now in
      let initialStorage := VaultStorage.mk config [] [] [] now in
      (Ok (vault, config), saveVaultData vault initialStorage st)
  end
  end
  end
  end.

(* ===================================================================== *)
(** ** Beneficiary setup ([setup-beneficiaries.ts]) *)
(* ===================================================================== *)

Definition ZERO_ADDRESS : string := "0x0000000000000000000000000000000000000000".

(** [beneficiaryInput.tokenAddress || "0x00..00"] *)
Definition tokenAddressOf (input : BeneficiaryInput.t) : string :=
  match BeneficiaryInput.tokenAddress input with
  | Some t => if (String.length t =? 0)%nat then ZERO_ADDRESS else t
  | None => ZERO_ADDRESS
  end.

(** The delegation built for one beneficiary: time lock from [deadline]
    up to the year 9999, a single call, the allocation as the cap. *)
Definition buildDelegation (vaultAddress : string) (deadline : Z)
    (input : BeneficiaryInput.t) : Delegation.t :=
  let tokenAddress := tokenAddressOf input in
  let isNativeToken := String.eqb tokenAddress ZERO_ADDRESS in
  let allocation := BeneficiaryInput.allocation input in
  let caveats :=
    [ timestamp deadline 253402300799;
      limitedCalls 1;
      if isNativeToken then nativeTokenTransferAmount allocation
      else erc20TransferAmount allocation ] in
  Delegation.mk vaultAddress (BeneficiaryInput.address input)
    (if isNativeToken then ScopeNative allocation
     else ScopeErc20 tokenAddress allocation)
    caveats.

Section Setup.
Variable fw : Framework.
Variable now : Z.

(** The checks made on each beneficiary, in source order; the first
    failure is the error thrown. *)
Fixpoint validateEach (inputs : list BeneficiaryInput.t) : option ValidationMessage :=
  match inputs with
  | [] => None
  | beneficiary :: rest =>
      match thrownBy (validateAddress (isAddress fw) (BeneficiaryInput.address beneficiary)) with
      | Some e => Some e
      | None =>
      match thrownBy (validateBeneficiaryName (BeneficiaryInput.name beneficiary)) with
      | Some e => Some e
      | None =>
          if BeneficiaryInput.allocation beneficiary <=? 0
          then Some (ZeroAllocation (BeneficiaryInput.name beneficiary))
          else validateEach rest
      end
      end
  end.

(** One turn of the delegation loop: the [Beneficiary] and the
    [StoredDelegation] pushed; [None] when signing throws.  The
    percentage is a BigInt division, rounding toward zero. *)
Definition createOne (vaultAddress : string) (vaultBalance deadline : Z)
    (input : BeneficiaryInput.t) : option (Beneficiary.t * StoredDelegation.t) :=
  let delegation := buildDelegation vaultAddress deadline input in
  signature ← signDelegation fw delegation;
  let delegationHash := keccak256 fw delegation in
  let percentage := Z.quot (BeneficiaryInput.allocation input * 10000) vaultBalance in
  Some (Beneficiary.mk (BeneficiaryInput.address input) (BeneficiaryInput.name input)
          (BeneficiaryInput.allocation input) percentage (tokenAddressOf input)
          (Some delegation) (Some delegationHash) false None None,
        StoredDelegation.mk (BeneficiaryInput.address input) delegation signature
          delegationHash now deadline false).

(** The loop: stops at the first signing failure. *)
Fixpoint createAll (vaultAddress : string) (vaultBalance deadline : Z)
    (inputs : list BeneficiaryInput.t)
  : option (list Beneficiary.t * list StoredDelegation.t) :=
  match inputs with
  | [] => Some ([], [])
  | input :: rest =>
      one ← createOne vaultAddress vaultBalance deadline input;
      more ← createAll vaultAddress vaultBalance deadline rest;
      Some (fst one :: fst more, snd one :: snd more)
  end.

Definition setBeneficiariesAndDelegations (beneficiaries : list Beneficiary.t)
    (delegations : list StoredDelegation.t) (lastUpdated : Z)
    (s : VaultStorage.t) : VaultStorage.t :=
  VaultStorage.mk (VaultStorage.config s) beneficiaries delegations
    (VaultStorage.checkIns s) lastUpdated.

(** [setupBeneficiaries(params)] with [params = { vault, beneficiaries,
    deadline }]; the vault is known by its address.  Returns the
    beneficiaries built, or the error thrown, and the store. *)
Definition setupBeneficiaries (vaultAddress : string)
    (inputs : list BeneficiaryInput.t) (deadline : Z) (st : Store)
  : Result (list Beneficiary.t) * Store :=
  match thrownBy (validateNoDuplicates (map BeneficiaryInput.address inputs)) with
  | Some e => (Err (ValidationError e), st)
  | None =>
  match validateEach inputs with
  | Some e => (Err (ValidationError e), st)
  | None =>
  let vaultBalance := getBalance fw vaultAddress in
  let totalAllocation :=
    fold_left (fun sum b => sum + BeneficiaryInput.allocation b) inputs 0 in
  if totalAllocation >? vaultBalance then
    (Err (ValidationError (AllocationExceedsBalance totalAllocation vaultBalance)), st)
  else
  match createAll vaultAddress vaultBalance deadline inputs with
  | None => (Err SigningError, st)
  | Some (beneficiaries, storedDelegations) =>
      match loadVaultData vaultAddress st with
      | Some vaultData =>
          (Ok beneficiaries,
           saveVaultData vaultAddress
             (setBeneficiariesAndDelegations beneficiaries storedDelegations now vaultData)
             st)
      | None => (Ok beneficiaries, st)
      end
  end
  end
  end.
End Setup.

(* ===================================================================== *)
(** ** Owner check-in ([check-in.ts]) *)
(* ===================================================================== *)

(** [CheckInParams]; the vault is its address, and the fields the body
    never reads ([currentDelegations]) or only hands to the wallet client
    ([ownerPrivateKey]) are left out. *)
Module CheckInParams.
Record t : Type := mk {
  vault : string;
  beneficiaries : list Beneficiary.t;
  newCheckInPeriodDays : option Z }.
End CheckInParams.

(** [txHashes[0] || "0x0"] *)
Definition firstTxHash (txHashes : list string) : string :=
  match txHashes with
  | h :: _ => if (String.length h =? 0)%nat then "0x0" else h
  | [] => "0x0"
  end.

(** State of the disabling loop: the store, [disabledCount], [txHashes]. *)
Module DisableState.
Record t : Type := mk {
  store : Store;
  disabledCount : Z;
  txHashes : list string }.
End DisableState.

Section CheckIn.
Variable fw : Framework.
Variable now : Z.

(** One turn of [for (const storedDelegation of activeDelegations)]:
    the [try] block stops at the first call that throws, the [catch]
    logs and goes on. *)
Definition disableOne (vaultAddress : string) (storedDelegation : StoredDelegation.t)
    (s : DisableState.t) : DisableState.t :=
  match disableDelegation fw (StoredDelegation.delegation storedDelegation)
                             (StoredDelegation.signature storedDelegation) with
  | None => s
  | Some hash =>
      let txHashes := (DisableState.txHashes s ++ [hash])%list in
      match waitForTransactionReceipt fw hash with
      | None => DisableState.mk (DisableState.store s) (DisableState.disabledCount s) txHashes
      | Some _ =>
          let st := snd (updateDelegationStatus now vaultAddress
                           (StoredDelegation.hash storedDelegation) true
                           (DisableState.store s)) in
          DisableState.mk st (DisableState.disabledCount s + 1) txHashes
      end
  end.

Definition disableAll (vaultAddress : string) (activeDelegations : list StoredDelegation.t)
    (s : DisableState.t) : DisableState.t :=
  fold_left (fun acc d => disableOne vaultAddress d acc) activeDelegations s.

(** [totalGasUsed]: receipts that cannot be fetched are skipped. *)
Definition totalGasUsedOf (txHashes : list string) : Z :=
  fold_left (fun total hash =>
               match getTransactionReceipt fw hash with
               | Some gasUsed => total + gasUsed
               | None => total
               end) txHashes 0.

Definition inputOfBeneficiary (b : Beneficiary.t) : BeneficiaryInput.t :=
  BeneficiaryInput.mk (Beneficiary.address b) (Beneficiary.name b)
    (Beneficiary.allocation b) (Some (Beneficiary.tokenAddress b)).

Definition checkedInConfig (config : VaultConfig.t) (lastCheckIn nextDeadline : Z)
    (newCheckInPeriodDays : option Z) : VaultConfig.t :=
  VaultConfig.mk (VaultConfig.vaultAddress config) (VaultConfig.ownerAddress config)
    (match newCheckInPeriodDays with
     | Some p => if truthy (Some p) then p else VaultConfig.checkInPeriod config
     | None => VaultConfig.checkInPeriod config
     end)
    (VaultConfig.checkInPeriodUnit config) lastCheckIn nextDeadline
    (VaultConfig.totalValue config) (VaultConfig.tokens config)
    (VaultConfig.createdAt config).

(** [checkIn(params)].  [vaultData] is read once at the top; the object
    saved at the bottom is that same object with its [config] updated
    and the new record pushed on [checkIns].  [checkIn] itself reads the
    clock three times: [now] is the reading of [getDeadlineFromPeriod]
    (the operations called before the end of the setup are handed the
    same one); [recordedAt] is the reading for the [timestamp] of the
    record, made once the new delegations are signed and the receipts
    fetched; [savedAt] is the reading for [lastUpdated]. *)
Definition checkIn (recordedAt savedAt : Z) (params : CheckInParams.t) (st : Store)
  : Result CheckInRecord.t * Store :=
  let vaultAddress := CheckInParams.vault params in
  match loadVaultData vaultAddress st with
  | None => (Err (NotFoundError MissingVault), st)
  | Some vaultData =>
  let config := VaultStorage.config vaultData in
  let activeDelegations := getActiveDelegations vaultAddress st in
  if (length activeDelegations =? 0)%nat then (Err NoActiveDelegationsError, st) else
  let disabled := disableAll vaultAddress activeDelegations (DisableState.mk st 0 []) in
  let newPeriod :=
    orElse (CheckInParams.newCheckInPeriodDays params) (VaultConfig.checkInPeriod config) in
  let newDeadline :=
    getDeadlineFromPeriod now newPeriod (VaultConfig.checkInPeriodUnit config) in
  match setupBeneficiaries fw now vaultAddress
          (map inputOfBeneficiary (CheckInParams.beneficiaries params))
          newDeadline (DisableState.store disabled) with
  | (Err e, st') => (Err e, st')
  | (Ok newBeneficiaries, st') =>
      let totalGasUsed := totalGasUsedOf (DisableState.txHashes disabled) in
      let checkInRecord :=
        CheckInRecord.mk recordedAt
          (firstTxHash (DisableState.txHashes disabled))
          newDeadline (DisableState.disabledCount disabled)
          (Z.of_nat (length newBeneficiaries)) totalGasUsed in
      let config' :=
        checkedInConfig config (CheckInRecord.timestamp checkInRecord) newDeadline
          (CheckInParams.newCheckInPeriodDays params) in
      let vaultData' :=
        VaultStorage.mk config' (VaultStorage.beneficiaries vaultData)
          (VaultStorage.delegations vaultData)
          (VaultStorage.checkIns vaultData ++ [checkInRecord])%list savedAt in
      (Ok checkInRecord, saveVaultData vaultAddress vaultData' st')
  end
  end.

(** [simpleCheckIn]: the stored beneficiaries are the ones set up again. *)
Definition simpleCheckIn (recordedAt savedAt : Z) (vaultAddress : string)
    (newCheckInPeriodDays : option Z) (st : Store) : Result CheckInRecord.t * Store :=
  match loadVaultData vaultAddress st with
  | None => (Err (NotFoundError MissingVault), st)
  | Some vaultData =>
      checkIn recordedAt savedAt
        (CheckInParams.mk vaultAddress (VaultStorage.beneficiaries vaultData)
           newCheckInPeriodDays) st
  end.
End CheckIn.

(* ===================================================================== *)
(** ** Beneficiary claim ([claim.ts]) *)
(* ===================================================================== *)

(** The object handed over as [signedDelegation].  By its type,
    [Delegation & { signature }], it has the fields of a toolkit
    delegation and a [signature]; [simpleClaim] builds exactly that.
    [claimInheritance] begins by reading [signedDelegation.delegation.from]:
    [delegation] is that property, [None] when the object has none (as
    the typed object), [Some from] for an object with
    [delegation: { from }]. *)
Module SignedDelegation.
Record t : Type := mk {
  body : Delegation.t;
  signature : string;
  delegation : option string }.
End SignedDelegation.

(** [ClaimParams]: the signed delegation and the beneficiary entry; the
    account that sends the transaction is the beneficiary's, the
    delegation manager address is a constant, [vaultAddress] is not
    read. *)
Module ClaimParams.
Record t : Type := mk {
  signedDelegation : SignedDelegation.t;
  beneficiary : Beneficiary.t }.
End ClaimParams.

Module ClaimReceipt.
Record t : Type := mk {
  txHash : string;
  amount : Z;
  gasUsed : Z }.
End ClaimReceipt.

Definition markClaimed (hash : string) (claimTimestamp : Z) (b : Beneficiary.t)
  : Beneficiary.t :=
  Beneficiary.mk (Beneficiary.address b) (Beneficiary.name b) (Beneficiary.allocation b)
    (Beneficiary.percentage b) (Beneficiary.tokenAddress b) (Beneficiary.delegation b)
    (Beneficiary.delegationHash b) true (Some hash) (Some claimTimestamp).

(** [findIndex] on the address, then three assignments to that entry;
    [None] when [findIndex] gives [-1]. *)
Fixpoint markClaimedFirst (address hash : string) (claimTimestamp : Z)
    (bs : list Beneficiary.t) : option (list Beneficiary.t) :=
  match bs with
  | [] => None
  | b :: rest =>
      if eqIgnoreCase (Beneficiary.address b) address
      then Some (markClaimed hash claimTimestamp b :: rest)
      else option_map (cons b) (markClaimedFirst address hash claimTimestamp rest)
  end.

(** The clock readings of one claim, in the order [claimInheritance]
    makes them: inside [isDeadlinePassed], for the message of the refusal,
    and, once the transaction is confirmed, for [claimTimestamp] and for
    [lastUpdated]. *)
Module ClaimClock.
Record t : Type := mk {
  deadlineTest : Z;
  message : Z;
  claimTimestamp : Z;
  lastUpdated : Z }.
End ClaimClock.

Section Claim.
Variable fw : Framework.
Variable clock : ClaimClock.t.

(** [claimInheritance(params)].  The first step reads
    [params.signedDelegation.delegation.from]; on an object without a
    [delegation] property that is a read on [undefined], which throws.
    Otherwise the record is looked up under that [from] and, after the
    transaction is confirmed, saved under its own [config.vaultAddress].
    The deadline is tested before the claimed flag, and the flag tested
    is that of the entry handed over, not of the stored one. *)
Definition claimInheritance (params : ClaimParams.t) (st : Store)
  : Result ClaimReceipt.t * Store :=
  let beneficiary := ClaimParams.beneficiary params in
  let signedDelegation := ClaimParams.signedDelegation params in
  match SignedDelegation.delegation signedDelegation with
  | None => (Err TypeError, st)
  | Some from =>
  match loadVaultData from st with
  | None => (Err (NotFoundError MissingVault), st)
  | Some vaultData =>
  let deadline := VaultConfig.nextDeadline (VaultStorage.config vaultData) in
  let isPast := isDeadlinePassed (ClaimClock.deadlineTest clock) deadline in
  if negb isPast then (Err (TooEarlyError (deadline - ClaimClock.message clock)), st) else
  if Beneficiary.hasClaimed beneficiary then (Err AlreadyClaimedError, st) else
  match redeemDelegations fw (SignedDelegation.body signedDelegation)
          (SignedDelegation.signature signedDelegation) beneficiary with
  | None => (Err TransactionError, st)
  | Some hash =>
  match waitForTransactionReceipt fw hash with
  | None => (Err TransactionError, st)
  | Some gasUsed =>
      let receipt :=
        ClaimReceipt.mk hash (Beneficiary.allocation beneficiary) gasUsed in
      match markClaimedFirst (Beneficiary.address beneficiary) hash
              (ClaimClock.claimTimestamp clock)
              (VaultStorage.beneficiaries vaultData) with
      | Some bs =>
          let vaultData' :=
            VaultStorage.mk (VaultStorage.config vaultData) bs
              (VaultStorage.delegations vaultData) (VaultStorage.checkIns vaultData)
              (ClaimClock.lastUpdated clock) in
          (Ok receipt,
           saveVaultData (VaultConfig.vaultAddress (VaultStorage.config vaultData))
             vaultData' st)
      | None => (Ok receipt, st)
      end
  end
  end
  end
  end.

(** [simpleClaim(vaultAddress, beneficiaryAccount)]; the account is
    known by its address.  The object it hands to [claimInheritance] is
    [{ ...storedDelegation.delegation, signature }]: the fields of the
    stored delegation and the signature, and no [delegation] property. *)
Definition simpleClaim (vaultAddress beneficiaryAccount : string) (st : Store)
  : Result ClaimReceipt.t * Store :=
  match loadVaultData vaultAddress st with
  | None => (Err (NotFoundError MissingVault), st)
  | Some vaultData =>
  match List.find (fun b => eqIgnoreCase (Beneficiary.address b) beneficiaryAccount)
          (VaultStorage.beneficiaries vaultData) with
  | None => (Err (NotFoundError MissingBeneficiary), st)
  | Some beneficiary =>
  match getBeneficiaryDelegation vaultAddress beneficiaryAccount st with
  | None => (Err (NotFoundError MissingDelegation), st)
  | Some storedDelegation =>
      if StoredDelegation.isDisabled storedDelegation
      then (Err DelegationDisabledError, st)
      else
        claimInheritance
          (ClaimParams.mk
             (SignedDelegation.mk (StoredDelegation.delegation storedDelegation)
                (StoredDelegation.signature storedDelegation) None)
             beneficiary) st
  end
  end
  end.
End Claim.

(* ===================================================================== *)
(** ** Status read path ([status.ts]) *)
(* ===================================================================== *)

Definition withTotalValue (totalValue : Z) (c : VaultConfig.t) : VaultConfig.t :=
  VaultConfig.mk (VaultConfig.vaultAddress c) (VaultConfig.ownerAddress c)
    (VaultConfig.checkInPeriod c) (VaultConfig.checkInPeriodUnit c)
    (VaultConfig.lastCheckIn c) (VaultConfig.nextDeadline c) totalValue
    (VaultConfig.tokens c) (VaultConfig.createdAt c).

Section Status.
Variable fw : Framework.
Variable now : Z.

(** [getVaultStatus(vaultAddress)]: nothing is written back. *)
Definition getVaultStatus (vaultAddress : string) (st : Store) : Result VaultState.t :=
  match loadVaultData vaultAddress st with
  | None => Err (NotFoundError MissingVault)
  | Some vaultData =>
      let balance := getBalance fw vaultAddress in
      let config := withTotalValue balance (VaultStorage.config vaultData) in
      let timeCalc := calculateTimeRemaining now (VaultConfig.nextDeadline config) in
      let activeDelegations := getActiveDelegations vaultAddress st in
      let beneficiaries := VaultStorage.beneficiaries vaultData in
      let status :=
        if (length beneficiaries =? 0)%nat then CREATED
        else if balance =? 0 then EMPTY
        else if TimeCalculation.isPast timeCalc then CLAIMABLE
        else if (0 <? length activeDelegations)%nat then ACTIVE
        else DISABLED in
      let allClaimed := forallb Beneficiary.hasClaimed beneficiaries in
      let status :=
        if allClaimed && (0 <? length beneficiaries)%nat then EMPTY else status in
      let canCheckIn := (0 <? length activeDelegations)%nat in
      Ok (VaultState.mk config beneficiaries (VaultStorage.checkIns vaultData)
            status (TimeCalculation.secondsRemaining timeCalc) canCheckIn)
  end.
End Status.

(* ===================================================================== *)
(** ** Reference definitions used to state the properties *)
(* ===================================================================== *)

(** Seconds in one period unit (a month is 30 days). *)
Definition unitSeconds (unit : PeriodUnit) : Z :=
  match unit with
  | MINUTES => 60
  | HOURS => 3600
  | DAYS => 86400
  | WEEKS => 604800
  | MONTHS => 2592000
  end.

(** The status rules of the design, read in order: the first rule whose
    condition holds gives the status.
    - CREATED: no beneficiary;
    - EMPTY: balance 0, or every beneficiary has claimed;
    - CLAIMABLE: deadline passed (balance positive, not all claimed);
    - ACTIVE: deadline not passed and a delegation that is not disabled;
    - DISABLED: deadline not passed and no such delegation. *)
Definition statusByRules (record : VaultStorage.t) (balance now : Z) : VaultStatus :=
  match VaultStorage.beneficiaries record with
  | [] => CREATED
  | _ :: _ =>
      if (balance =? 0) || forallb Beneficiary.hasClaimed (VaultStorage.beneficiaries record)
      then EMPTY
      else if now >=? VaultConfig.nextDeadline (VaultStorage.config record) then CLAIMABLE
      else if existsb (fun d => negb (StoredDelegation.isDisabled d))
                (VaultStorage.delegations record)
      then ACTIVE
      else DISABLED
  end.

(** The disable transaction of a stored delegation is sent and confirmed. *)
Definition disableConfirmed (fw : Framework) (d : StoredDelegation.t) : bool :=
  match disableDelegation fw (StoredDelegation.delegation d) (StoredDelegation.signature d) with
  | Some hash => bool_decide (is_Some (waitForTransactionReceipt fw hash))
  | None => false
  end.

(** The key [updateDelegationStatus] finds a stored delegation by. *)
Definition lowerHash (d : StoredDelegation.t) : string :=
  toLowerCase (StoredDelegation.hash d).

(** Every stored delegation with the given hash marked disabled. *)
Definition markAll (h : string) (ds : list StoredDelegation.t) : list StoredDelegation.t :=
  map (fun x => if eqIgnoreCase (StoredDelegation.hash x) h then setIsDisabled true x else x) ds.

(** A stored delegation after a run of the disabling loop over [todo]:
    marked when the loop met its hash with a confirmed transaction. *)
Definition markedBy (fw : Framework) (todo : list StoredDelegation.t)
    (x : StoredDelegation.t) : StoredDelegation.t :=
  if existsb (fun d => disableConfirmed fw d &&
                       eqIgnoreCase (StoredDelegation.hash x) (StoredDelegation.hash d)) todo
  then setIsDisabled true x else x.

(** The period a check-in uses. *)
Definition periodOf (newCheckInPeriodDays : option Z) (config : VaultConfig.t) : Z :=
  orElse newCheckInPeriodDays (VaultConfig.checkInPeriod config).

(** What a beneficiary entry says about who gets what. *)
Definition shareOfInput (i : BeneficiaryInput.t) : string * string * Z :=
  (BeneficiaryInput.address i, BeneficiaryInput.name i, BeneficiaryInput.allocation i).
Definition shareOf (b : Beneficiary.t) : string * string * Z :=
  (Beneficiary.address b, Beneficiary.name b, Beneficiary.allocation b).

(** A beneficiary entry under another display name. *)
Definition withName (name : string) (b : Beneficiary.t) : Beneficiary.t :=
  Beneficiary.mk (Beneficiary.address b) name (Beneficiary.allocation b)
    (Beneficiary.percentage b) (Beneficiary.tokenAddress b) (Beneficiary.delegation b)
    (Beneficiary.delegationHash b) (Beneficiary.hasClaimed b) (Beneficiary.claimTxHash b)
    (Beneficiary.claimTimestamp b).

(** The [maxAmount] fields of a delegation, in order. *)
Definition maxAmountsOf (d : Delegation.t) : list Z :=
  (match Delegation.scope d with ScopeNative m => m | ScopeErc20 _ m => m end)
  :: flat_map (fun c => match c with
                        | nativeTokenTransferAmount m | erc20TransferAmount m => [m]
                        | _ => []
                        end) (Delegation.caveats d).

(* ===================================================================== *)
(** ** A small world to run the operations in *)
(* ===================================================================== *)

Module Sample.
(** A toolkit that signs, confirms and redeems everything; the vault
    holds 100 wei. *)
Definition fw (balance : Z) : Framework :=
  {| isAddress := fun _ => true;
     envPrivateKey := None;
     toMetaMaskSmartAccount := fun _ => "0xAB";
     isDeployed := fun _ => false;
     deployVault := fun _ => Some "0xdeploy";
     fundVault := fun _ _ => Some "0xfund";
     getBalance := fun _ => balance;
     signDelegation := fun _ => Some "0xsig";
     keccak256 := fun d => String.append "0xhash-" (Delegation.to d);
     disableDelegation := fun d _ => Some (String.append "0xtx-" (Delegation.to d));
     waitForTransactionReceipt := fun _ => Some 21000;
     getTransactionReceipt := fun _ => Some 21000;
     redeemDelegations := fun _ _ _ => Some "0xclaim" |}.

Definition vault : string := "0xAB".

(** Created at second 1000 with a period of 5 minutes. *)
Definition config : VaultConfig.t :=
  VaultConfig.mk vault "0xOwner" 5 MINUTES 1000 1300 100 [] 1000.

Definition created : Store :=
  snd (createVault (fw 100) 1000 1000
         (CreateVaultParams.mk "0xOwner" (Some 5) (Some MINUTES) (Some 100)
            (Some "0xkey")) ∅).

Definition bob : BeneficiaryInput.t := BeneficiaryInput.mk "0xB0B" "Bob" 40 None.
Definition carol : BeneficiaryInput.t := BeneficiaryInput.mk "0xCA701" "Carol" 60 None.
Definition dave : BeneficiaryInput.t := BeneficiaryInput.mk "0xDA7E" "Dave" 100 None.

(** Bob and Carol set up at second 1001 for the deadline 1300. *)
Definition funded : Store :=
  snd (setupBeneficiaries (fw 100) 1001 vault [bob; carol] 1300 created).

Definition fundedRecord : VaultStorage.t :=
  Eval vm_compute in
    match loadVaultData vault funded with
    | Some r => r
    | None => VaultStorage.mk config [] [] [] 0
    end.

Definition bobEntry : Beneficiary.t :=
  Eval vm_compute in
    match VaultStorage.beneficiaries fundedRecord with
    | b :: _ => b
    | [] => Beneficiary.mk "" "" 0 0 "" None None false None None
    end.

Definition bobDelegation : StoredDelegation.t :=
  Eval vm_compute in
    match VaultStorage.delegations fundedRecord with
    | d :: _ => d
    | [] => StoredDelegation.mk "" (Delegation.mk "" "" (ScopeNative 0) []) "" "" 0 0 false
    end.

(** Beneficiary entries with a name no setup would accept. *)
Definition nameless : Beneficiary.t :=
  Beneficiary.mk "0xB0B" "" 1000000000000000000 10000 ZERO_ADDRESS None None false None None.

Definition longName : string :=
  "An heir whose display name runs well past fifty characters".

Definition longNamed : Beneficiary.t :=
  Beneficiary.mk "0xB0B" longName 1000000000000000000 10000 ZERO_ADDRESS
    None None false None None.

(** The owner's check-in, with the stored beneficiaries. *)
Definition checkInWith (newCheckInPeriodDays : option Z) : CheckInParams.t :=
  CheckInParams.mk vault (VaultStorage.beneficiaries fundedRecord) newCheckInPeriodDays.

Definition recordOf (r : Result CheckInRecord.t) : CheckInRecord.t :=
  match r with Ok x => x | Err _ => CheckInRecord.mk 0 "" 0 0 0 0 end.

(** Bob's claim: his entry and his stored delegation, in an object that
    carries the [delegation.from] which [claimInheritance] reads. *)
Definition bobClaim : ClaimParams.t :=
  ClaimParams.mk
    (SignedDelegation.mk (StoredDelegation.delegation bobDelegation)
       (StoredDelegation.signature bobDelegation) (Some vault))
    bobEntry.

(** A claim all of whose clock readings fall in the same second. *)
Definition clockAt (second : Z) : ClaimClock.t :=
  ClaimClock.mk second second second second.

(** Bob claims at second 1400, after the deadline, through
    [claimInheritance] itself. *)
Definition afterBobClaim : Store :=
  snd (claimInheritance (fw 100) (clockAt 1400) bobClaim funded).

Definition afterBobClaimRecord : VaultStorage.t :=
  Eval vm_compute in
    match loadVaultData vault afterBobClaim with
    | Some r => r
    | None => fundedRecord
    end.

(** With Bob's 40 wei gone the vault holds 60; the owner's check-in at
    second 1401 disables both delegations and then fails to set the
    beneficiaries up again. *)
Definition afterFailedCheckIn : Store :=
  snd (simpleCheckIn (fw 60) 1401 1401 1401 vault None afterBobClaim).

(** Names outside ASCII, given by the bytes of their UTF-8 encoding: two
    no-break spaces (U+00A0), 26 times the letter U+00E9, and 26 times the
    character U+1F600, which takes a surrogate pair. *)
Definition utf8 (bytes : list nat) : string :=
  string_of_list_ascii (List.map ascii_of_nat bytes).

Definition noBreakSpaces : string := utf8 [194; 160; 194; 160]%nat.

Definition accentedName : string :=
  utf8 (List.concat (List.repeat [195; 169]%nat 26)).

Definition astralName : string :=
  utf8 (List.concat (List.repeat [240; 159; 152; 128]%nat 26)).
End Sample.


(* ===================================================================== *)
(** ** The rest of the storage interface ([delegation-storage.ts]) *)
(* ===================================================================== *)



(** [exportVaultData]: the loaded record printed again, bigints as
    decimal strings; [None] when nothing loads. *)
Definition exportVaultData (vaultAddress : string) (st : Store) : option JSValue :=
  match loadVaultData vaultAddress st with
  | None => None
  | Some vaultData => Some (Json.stringify (Json.ofVaultStorage vaultData))
  end.

(** [parsed.config?.vaultAddress], a string that is not empty. *)
Definition configVaultAddress (parsed : JSValue) : option string :=
  match parsed with
  | JObj props =>
      match JS.prop "config" props with
      | Some (JObj config) =>
          match JS.prop "vaultAddress" config with
          | Some (JStr a) => if (String.length a =? 0)%nat then None else Some a
          | _ => None
          end
      | _ => None
      end
  | _ => None
  end.

(** [importVaultData]: parse with the reviver, insist on
    [config.vaultAddress] only, and save what was parsed under that
    address.  Any throw gives [null] and no write. *)
Definition importVaultData (jsonData : JSValue) (st : Store) : option string * Store :=
  match Json.revive "" jsonData with
  | None => (None, st)
  | Some parsed =>
      match configVaultAddress parsed with
      | None => (None, st)
      | Some vaultAddress =>
          (Some vaultAddress, <[storageKey vaultAddress := Json.stringify parsed]> st)
      end
  end.

(* ===================================================================== *)
(** ** The countdown of the page ([CountdownTimer.tsx]) *)
(* ===================================================================== *)

(** The four numbers the countdown component cuts a duration into:
    [Math.floor(s / 86400)], [Math.floor((s % 86400) / 3600)],
    [Math.floor((s % 3600) / 60)], [s % 60].  [%] keeps the sign of the
    dividend, [Math.floor] rounds down. *)
Module DurationParts.
Record t : Type := mk {
  days : Z;
  hours : Z;
  minutes : Z;
  secs : Z }.
End DurationParts.

Definition durationParts (seconds : Z) : DurationParts.t :=
  DurationParts.mk (seconds / 86400)
    (Z.rem seconds 86400 / 3600)
    (Z.rem seconds 3600 / 60)
    (Z.rem seconds 60).

(** The state the countdown component computes each second. *)
Module Countdown.
Record t : Type := mk {
  days : Z;
  hours : Z;
  minutes : Z;
  seconds : Z;
  isPast : bool }.
End Countdown.

Definition countdown (now deadline : Z) : Countdown.t :=
  let diff := deadline - now in
  if diff <=? 0 then Countdown.mk 0 0 0 0 true
  else
    let p := durationParts diff in
    Countdown.mk (DurationParts.days p) (DurationParts.hours p)
      (DurationParts.minutes p) (DurationParts.secs p) false.

(* ===================================================================== *)
(** ** The rest of the check-in module ([check-in.ts]) *)
(* ===================================================================== *)

Module TimeUntilCheckIn.
Record t : Type := mk {
  secondsRemaining : Z;
  isPastDeadline : bool;
  deadline : Z }.
End TimeUntilCheckIn.

(** [getTimeUntilCheckIn(vaultAddress)] *)
Definition getTimeUntilCheckIn (now : Z) (vaultAddress : string) (st : Store)
  : Result TimeUntilCheckIn.t :=
  match loadVaultData vaultAddress st with
  | None => Err (NotFoundError MissingVault)
  | Some vaultData =>
      let deadline := VaultConfig.nextDeadline (VaultStorage.config vaultData) in
      let secondsRemaining := Z.max 0 (deadline - now) in
      Ok (TimeUntilCheckIn.mk secondsRemaining (now >=? deadline) deadline)
  end.

(** [canCheckIn(vaultAddress)] *)
Definition canCheckIn (vaultAddress : string) (st : Store) : bool :=
  (0 <? length (getActiveDelegations vaultAddress st))%nat.

(* ===================================================================== *)
(** ** The rest of the claim module ([claim.ts]) *)
(* ===================================================================== *)

(** The [reason] texts of [canClaim]. *)
Inductive ClaimRefusal : Type :=
| VaultNotFound          (** "Vault not found" *)
| NotABeneficiary        (** "Not a beneficiary" *)
| AlreadyClaimed         (** "Already claimed" *)
| DelegationNotFound     (** "Delegation not found" *)
| DelegationDisabled     (** "Delegation disabled" *)
| DeadlineNotReached.    (** "Deadline not reached" *)

(** [canClaim(vaultAddress, beneficiaryAddress)]: [inl reason] is
    [{ canClaim: false, reason }], [inr tt] is [{ canClaim: true }]. *)
Definition canClaim (now : Z) (vaultAddress beneficiaryAddress : string) (st : Store)
  : ClaimRefusal + unit :=
  match loadVaultData vaultAddress st with
  | None => inl VaultNotFound
  | Some vaultData =>
  match List.find (fun b => eqIgnoreCase (Beneficiary.address b) beneficiaryAddress)
          (VaultStorage.beneficiaries vaultData) with
  | None => inl NotABeneficiary
  | Some beneficiary =>
  if Beneficiary.hasClaimed beneficiary then inl AlreadyClaimed else
  match getBeneficiaryDelegation vaultAddress beneficiaryAddress st with
  | None => inl DelegationNotFound
  | Some delegation =>
  if StoredDelegation.isDisabled delegation then inl DelegationDisabled else
  if negb (isDeadlinePassed now (VaultConfig.nextDeadline (VaultStorage.config vaultData)))
  then inl DeadlineNotReached
  else inr tt
  end
  end
  end.

Module ClaimStatus.
Record t : Type := mk {
  hasClaimed : bool;
  claimTxHash : option string;
  claimTimestamp : option Z;
  allocation : Z }.
End ClaimStatus.

(** [getClaimStatus(vaultAddress, beneficiaryAddress)] *)
Definition getClaimStatus (vaultAddress beneficiaryAddress : string) (st : Store)
  : option ClaimStatus.t :=
  match loadVaultData vaultAddress st with
  | None => None
  | Some vaultData =>
      match List.find (fun b => eqIgnoreCase (Beneficiary.address b) beneficiaryAddress)
              (VaultStorage.beneficiaries vaultData) with
      | None => None
      | Some beneficiary =>
          Some (ClaimStatus.mk (Beneficiary.hasClaimed beneficiary)
                  (Beneficiary.claimTxHash beneficiary)
                  (Beneficiary.claimTimestamp beneficiary)
                  (Beneficiary.allocation beneficiary))
      end
  end.

(* ===================================================================== *)
(** ** The rest of the status module ([status.ts]) *)
(* ===================================================================== *)

Module BeneficiaryView.
Record t : Type := mk {
  isEligible : bool;
  allocation : Z;
  percentage : Z;
  hasClaimed : bool;
  canClaimNow : bool;
  timeUntilClaim : Z;
  claimTxHash : option string }.
End BeneficiaryView.

Module OwnerDashboard.
Record t : Type := mk {
  vaultAddress : string;
  balance : Z;
  status : VaultStatus;
  beneficiaryCount : Z;
  totalAllocated : Z;
  unallocated : Z;
  nextDeadline : Z;
  timeRemaining : Z;
  canCheckIn : bool;
  checkInCount : Z;
  claimedCount : Z }.
End OwnerDashboard.

(** The texts pushed on [errors] and [warnings] by [checkVaultHealth]. *)
Inductive HealthError : Type :=
| ZeroBalance
    (** "Vault has zero balance" *)
| OverAllocated (totalAllocated balance : Z).
    (** "Total allocation (..) exceeds balance (..)" *)

Inductive HealthWarning : Type :=
| DeadlineApproaching (timeRemaining : Z)
    (** "Deadline approaching: .. seconds remaining" *)
| DeadlinePassed
    (** "Deadline passed - beneficiaries can claim" *)
| MissingDelegations (active beneficiaries : Z).
    (** "Some beneficiaries missing active delegations (../..)" *)

Module VaultHealth.
Record t : Type := mk {
  isHealthy : bool;
  warnings : list HealthWarning;
  errors : list HealthError }.
End VaultHealth.

Definition VaultStatus_eqb (a b : VaultStatus) : bool :=
  match a, b with
  | CREATED, CREATED | ACTIVE, ACTIVE | CLAIMABLE, CLAIMABLE
  | EMPTY, EMPTY | DISABLED, DISABLED => true
  | _, _ => false
  end.

Section Reports.
Variable fw : Framework.
Variable now : Z.

(** [getBeneficiaryView(vaultAddress, beneficiaryAddress)] *)
Definition getBeneficiaryView (vaultAddress beneficiaryAddress : string) (st : Store)
  : Result BeneficiaryView.t :=
  match getVaultStatus fw now vaultAddress st with
  | Err e => Err e
  | Ok state =>
      match List.find (fun b => eqIgnoreCase (Beneficiary.address b) beneficiaryAddress)
              (VaultState.beneficiaries state) with
      | None => Ok (BeneficiaryView.mk false 0 0 false false 0 None)
      | Some beneficiary =>
          let timeCalc :=
            calculateTimeRemaining now (VaultConfig.nextDeadline (VaultState.config state)) in
          let canClaimNow :=
            TimeCalculation.isPast timeCalc && negb (Beneficiary.hasClaimed beneficiary) in
          Ok (BeneficiaryView.mk true (Beneficiary.allocation beneficiary)
                (Beneficiary.percentage beneficiary) (Beneficiary.hasClaimed beneficiary)
                canClaimNow (TimeCalculation.secondsRemaining timeCalc)
                (Beneficiary.claimTxHash beneficiary))
      end
  end.

(** [getOwnerDashboard(vaultAddress)] *)
Definition getOwnerDashboard (vaultAddress : string) (st : Store)
  : Result OwnerDashboard.t :=
  match getVaultStatus fw now vaultAddress st with
  | Err e => Err e
  | Ok state =>
      let totalAllocated := totalAllocationOf (VaultState.beneficiaries state) in
      let unallocated := VaultConfig.totalValue (VaultState.config state) - totalAllocated in
      let claimedCount :=
        Z.of_nat (length (List.filter Beneficiary.hasClaimed (VaultState.beneficiaries state))) in
      Ok (OwnerDashboard.mk (VaultConfig.vaultAddress (VaultState.config state))
            (VaultConfig.totalValue (VaultState.config state)) (VaultState.status state)
            (Z.of_nat (length (VaultState.beneficiaries state))) totalAllocated unallocated
            (VaultConfig.nextDeadline (VaultState.config state))
            (VaultState.timeRemaining state) (VaultState.canCheckIn state)
            (Z.of_nat (length (VaultState.checkIns state))) claimedCount)
  end.

(** [checkVaultHealth(vaultAddress)] *)
Definition checkVaultHealth (vaultAddress : string) (st : Store) : Result VaultHealth.t :=
  match getVaultStatus fw now vaultAddress st with
  | Err e => Err e
  | Ok state =>
      let totalValue := VaultConfig.totalValue (VaultState.config state) in
      let totalAllocated := totalAllocationOf (VaultState.beneficiaries state) in
      let timeRemaining := VaultState.timeRemaining state in
      let activeDelegations := getActiveDelegations vaultAddress st in
      let errors :=
        ((if totalValue =? 0 then [ZeroBalance] else []) ++
         (if totalAllocated >? totalValue
          then [OverAllocated totalAllocated totalValue] else []))%list in
      let warnings :=
        ((if (timeRemaining <? 3600) && (timeRemaining >? 0)
          then [DeadlineApproaching timeRemaining] else []) ++
         (if (timeRemaining =? 0) && negb (VaultStatus_eqb (VaultState.status state) EMPTY)
          then [DeadlinePassed] else []) ++
         (if (length activeDelegations <? length (VaultState.beneficiaries state))%nat
          then [MissingDelegations (Z.of_nat (length activeDelegations))
                  (Z.of_nat (length (VaultState.beneficiaries state)))]
          else []))%list in
      Ok (VaultHealth.mk (length errors =? 0)%nat warnings errors)
  end.
End Reports.

(* ===================================================================== *)
(** ** Adding one beneficiary ([setup-beneficiaries.ts]) *)
(* ===================================================================== *)

(** How [addBeneficiary] ends: with the entry [result[result.length - 1]],
    with its own "Beneficiary .. already exists", or with an error thrown
    by a check or by [setupBeneficiaries]. *)
Inductive AddOutcome : Type :=
| Added (beneficiary : option Beneficiary.t)
| AlreadyExists (address : string)
| AddFailed (error : VaultError).

(** [addBeneficiary(vault, beneficiary, deadline)]: the stored
    beneficiaries are all set up again, followed by the new one. *)
Definition addBeneficiary (fw : Framework) (now : Z) (vaultAddress : string)
    (beneficiary : BeneficiaryInput.t) (deadline : Z) (st : Store)
  : AddOutcome * Store :=
  match thrownBy (validateAddress (isAddress fw) (BeneficiaryInput.address beneficiary)) with
  | Some e => (AddFailed (ValidationError e), st)
  | None =>
  match thrownBy (validateBeneficiaryName (BeneficiaryInput.name beneficiary)) with
  | Some e => (AddFailed (ValidationError e), st)
  | None =>
  match loadVaultData vaultAddress st with
  | None => (AddFailed (NotFoundError MissingVault), st)
  | Some vaultData =>
  if existsb (fun b => eqIgnoreCase (Beneficiary.address b)
                         (BeneficiaryInput.address beneficiary))
       (VaultStorage.beneficiaries vaultData)
  then (AlreadyExists (BeneficiaryInput.address beneficiary), st)
  else
    match setupBeneficiaries fw now vaultAddress
            (map inputOfBeneficiary (VaultStorage.beneficiaries vaultData) ++ [beneficiary])%list
            deadline st with
    | (Err e, st') => (AddFailed e, st')
    | (Ok result, st') => (Added (last result), st')
    end
  end
  end
  end.

(* ===================================================================== *)
(** ** Further reference definitions *)
(* ===================================================================== *)

(** Minutes in one period unit, as [validateCheckInPeriod] counts them. *)
Definition unitMinutes (unit : PeriodUnit) : Z :=
  match unit with
  | MINUTES => 1
  | HOURS => 60
  | DAYS => 1440
  | WEEKS => 10080
  | MONTHS => 43200
  end.

(** Every code unit of the string is white space. *)
Definition onlyWhiteSpace (s : string) : bool :=
  forallb isWhiteSpace (codeUnits s).

(** A decimal digit. *)
Definition isDigit (c : ascii) : bool :=
  ((48 <=? N_of_ascii c) && (N_of_ascii c <=? 57))%N.

(** An ASCII character that is not white space. *)
Definition plain (c : ascii) : bool :=
  (N_of_ascii c <? 128)%N && negb (isWhiteSpace (N_of_ascii c)).

(* ===================================================================== *)
(** * Properties *)
(* ===================================================================== *)

(** ** Strings and decimal text *)


Lemma isDigit_facts (c : ascii) :
  isDigit c = true ->
  (N_of_ascii c <? 128)%N = true /\ isWhiteSpace (N_of_ascii c) = false /\
  Ascii.eqb c "+" = false /\ Ascii.eqb c "-" = false /\ radixOfPrefix c = None.
Proof.
  destruct c as [[] [] [] [] [] [] [] []]; vm_compute; intros H;
    try discriminate H; repeat split.
Qed.

Lemma string_of_uint_digits (d : Decimal.uint) :
  forallb isDigit (list_ascii_of_string (NilEmpty.string_of_uint d)) = true.
Proof. induction d; cbn [NilEmpty.string_of_uint list_ascii_of_string forallb]; auto. Qed.

Lemma codeUnits_plain (s : string) :
  forallb plain (list_ascii_of_string s) = true ->
  codeUnits s = map N_of_ascii (list_ascii_of_string s).
Proof.
  unfold codeUnits, codePoints.
  induction s as [|c s IH]; cbn [list_ascii_of_string forallb map codePointsFrom flat_map];
    [reflexivity|].
  intros H. apply andb_true_iff in H as [Hc Hs]. apply andb_true_iff in Hc as [Hc _].
  rewrite Hc. cbn [flat_map]. rewrite (IH Hs).
  unfold unitsOfCodePoint.
  assert (Hlt : (N_of_ascii c <? 65536)%N = true)
    by (apply N.ltb_lt; apply N.ltb_lt in Hc; lia).
  rewrite Hlt. reflexivity.
Qed.

Lemma trimStart_plain (units : list N) :
  forallb (fun u => negb (isWhiteSpace u)) units = true -> trimStart units = units.
Proof.
  destruct units as [|u units]; [reflexivity|]. cbn [forallb trimStart].
  intros H. apply andb_true_iff in H as [Hu _]. apply negb_true_iff in Hu.
  rewrite Hu. reflexivity.
Qed.

Lemma forallb_rev {A} (f : A -> bool) (l : list A) :
  forallb f (rev l) = forallb f l.
Proof.
  induction l as [|x l IH]; cbn [rev forallb]; [reflexivity|].
  rewrite forallb_app, IH. cbn [forallb]. rewrite andb_true_r. apply andb_comm.
Qed.

Lemma trim_plain (units : list N) :
  forallb (fun u => negb (isWhiteSpace u)) units = true -> trim units = units.
Proof.
  intros H. unfold trim. rewrite (trimStart_plain _ H).
  rewrite trimStart_plain by (rewrite forallb_rev; exact H).
  apply rev_involutive.
Qed.

Lemma plain_not_white (l : list ascii) :
  forallb plain l = true ->
  forallb (fun u => negb (isWhiteSpace u)) (map N_of_ascii l) = true.
Proof.
  induction l as [|c l IH]; cbn [forallb map]; [reflexivity|].
  intros H. apply andb_true_iff in H as [Hc Hl]. apply andb_true_iff in Hc as [_ Hc].
  rewrite Hc, (IH Hl). reflexivity.
Qed.

Lemma asciiText_plain (s : string) :
  forallb plain (list_ascii_of_string s) = true ->
  asciiText (trim (codeUnits s)) = Some s.
Proof.
  intros H. rewrite (codeUnits_plain _ H), (trim_plain _ (plain_not_white _ H)).
  induction s as [|c s IH]; [reflexivity|].
  cbn [list_ascii_of_string forallb map asciiText] in *.
  apply andb_true_iff in H as [Hc Hs]. apply andb_true_iff in Hc as [Hc _].
  rewrite Hc, (IH Hs), ascii_N_embedding. reflexivity.
Qed.

Lemma digits_plain (l : list ascii) :
  forallb isDigit l = true -> forallb plain l = true.
Proof.
  induction l as [|c l IH]; cbn [forallb]; [reflexivity|].
  intros H. apply andb_true_iff in H as [Hc Hl].
  destruct (isDigit_facts c Hc) as (Hlt & Hws & _).
  rewrite (IH Hl). unfold plain. rewrite Hlt, Hws. reflexivity.
Qed.

(** Unsigned decimal text, one digit at least, is read back. *)
Lemma decimal_text (d : Decimal.uint) (text : string) :
  text = NilEmpty.string_of_uint d -> d <> Decimal.Nil ->
  match nonDecimal text with
  | Some (radix, rest') => digits radix rest'
  | None => decimalDigits text
  end = Some (Z.of_uint d) /\
  decimalDigits text = Some (Z.of_uint d) /\
  exists c rest, text = String c rest /\ isDigit c = true.
Proof.
  intros -> Hnil.
  pose proof (string_of_uint_digits d) as Hdigits.
  pose proof (NilEmpty.usu d) as Hread.
  destruct (NilEmpty.string_of_uint d) as [|c rest] eqn:Htext.
  { destruct d; try discriminate Htext. congruence. }
  cbn [list_ascii_of_string forallb] in Hdigits.
  apply andb_true_iff in Hdigits as [Hc Hrest].
  assert (Hdec : decimalDigits (String c rest) = Some (Z.of_uint d)).
  { unfold decimalDigits. rewrite Hread. reflexivity. }
  split; [|split; [exact Hdec | eauto]].
  assert (Hnon : nonDecimal (String c rest) = None).
  { unfold nonDecimal. destruct rest as [|letter rest']; [reflexivity|].
    cbn [list_ascii_of_string forallb] in Hrest.
    apply andb_true_iff in Hrest as [Hletter _].
    destruct (isDigit_facts letter Hletter) as (_ & _ & _ & _ & ->).
    destruct (Ascii.eqb c "0"); reflexivity. }
  rewrite Hnon. exact Hdec.
Qed.

(** Decimal text is read back exactly: [BigInt(n.toString()) = n]. *)
Lemma BigInt_of_string_toString (n : Z) :
  BigInt_of_string (BigInt_toString n) = Some n.
Proof.
  unfold BigInt_of_string, BigInt_toString.
  destruct n as [|p|p]; [reflexivity|..]; cbn [Z.to_int NilEmpty.string_of_int].
  - pose proof (DecimalPos.Unsigned.to_uint_nonnil p) as Hnil.
    destruct (decimal_text (Pos.to_uint p) _ eq_refl Hnil) as (Hread & _ & c & rest & Ht & Hc).
    rewrite asciiText_plain by (apply digits_plain, string_of_uint_digits).
    rewrite Ht in *.
    destruct (isDigit_facts c Hc) as (_ & _ & -> & -> & _).
    rewrite Hread. f_equal. exact (DecimalZ.of_to (Z.pos p)).
  - pose proof (DecimalPos.Unsigned.to_uint_nonnil p) as Hnil.
    destruct (decimal_text (Pos.to_uint p) _ eq_refl Hnil) as (_ & Hread & _).
    rewrite asciiText_plain.
    + change (Ascii.eqb "-" "+") with false. change (Ascii.eqb "-" "-") with true.
      cbv iota. rewrite Hread. cbn [option_map]. f_equal.
      exact (DecimalZ.of_to (Z.neg p)).
    + cbn [list_ascii_of_string forallb].
      rewrite (digits_plain _ (string_of_uint_digits _)). reflexivity.
Qed.


(** ** The persisted format reads back what was written *)

Module JsonFacts.
Import Json.

#[local] Arguments BigInt_toString : simpl never.
#[local] Arguments BigInt_of_string : simpl never.

Lemma mapM_revive_items {A} (f : A -> JSValue) (l : list A) :
  (forall x, revive "" (stringify (f x)) = Some (f x)) ->
  mapM (revive "") (map stringify (map f l)) = Some (map f l).
Proof.
  intros Hf. induction l as [|x l IH]; [reflexivity|].
  cbn [map mapM]. rewrite Hf. cbn. rewrite IH. reflexivity.
Qed.

Lemma mapM_read_items {A} (enc : A -> JSValue) (dec : JSValue -> option A) (l : list A) :
  (forall x, dec (enc x) = Some x) -> mapM dec (map enc l) = Some l.
Proof.
  intros Hf. induction l as [|x l IH]; [reflexivity|].
  cbn [map mapM]. rewrite Hf. cbn. rewrite IH. reflexivity.
Qed.

(** The replacer leaves no bigint behind: the text can be written. *)
Lemma stringify_plain : forall v, hasBigInt (stringify v) = false.
Proof.
  fix IH 1. intros [| | | | |items|props]; try reflexivity.
  - cbn [stringify hasBigInt]. induction items as [|x items IHl]; [reflexivity|].
    cbn [map existsb]. rewrite (IH x). exact IHl.
  - cbn [stringify hasBigInt]. induction props as [|[k x] props IHl]; [reflexivity|].
    cbn [map existsb fst snd]. rewrite (IH x). exact IHl.
Qed.

Ltac bigint_back := cbn; rewrite ?BigInt_of_string_toString; cbn.

Lemma revive_caveat (c : Caveat) :
  revive "" (stringify (ofCaveat c)) = Some (ofCaveat c).
Proof. destruct c; bigint_back; reflexivity. Qed.

Lemma revive_scope (key : string) (s : Scope) :
  isBigIntKey key = false ->
  revive key (stringify (ofScope s)) = Some (ofScope s).
Proof.
  intros Hk. destruct s; bigint_back; unfold reviver; rewrite Hk; reflexivity.
Qed.

Lemma revive_delegation (key : string) (d : Delegation.t) :
  isBigIntKey key = false ->
  revive key (stringify (ofDelegation d)) = Some (ofDelegation d).
Proof.
  intros Hk. destruct d as [f t sc cs]. unfold ofDelegation. cbn [Delegation.from Delegation.to Delegation.scope Delegation.caveats].
  cbn [stringify map fst snd revive mapM]. cbn [reviver isBigIntKey String.eqb Ascii.eqb Bool.eqb orb mbind option_bind].
  rewrite (revive_scope "scope") by reflexivity. cbn [mbind option_bind].
  rewrite mapM_revive_items by apply revive_caveat.
  cbn. unfold reviver. rewrite Hk. reflexivity.
Qed.

Lemma revive_string_items (l : list string) :
  mapM (revive "") (map stringify (map JStr l)) = Some (map JStr l).
Proof. apply mapM_revive_items. reflexivity. Qed.

Lemma revive_config (c : VaultConfig.t) :
  revive "config" (stringify (ofConfig c)) = Some (ofConfig c).
Proof.
  destruct c. unfold ofConfig. cbn [stringify map fst snd revive mapM VaultConfig.vaultAddress
    VaultConfig.ownerAddress VaultConfig.checkInPeriod VaultConfig.checkInPeriodUnit
    VaultConfig.lastCheckIn VaultConfig.nextDeadline VaultConfig.totalValue
    VaultConfig.tokens VaultConfig.createdAt ofPeriodUnit].
  rewrite revive_string_items. bigint_back. reflexivity.
Qed.

Lemma revive_beneficiary (b : Beneficiary.t) :
  revive "" (stringify (ofBeneficiary b)) = Some (ofBeneficiary b).
Proof.
  destruct b as [a n al pc ta d dh hc tx ts]. unfold ofBeneficiary.
  cbn [Beneficiary.address Beneficiary.name Beneficiary.allocation Beneficiary.percentage
       Beneficiary.tokenAddress Beneficiary.delegation Beneficiary.delegationHash
       Beneficiary.hasClaimed Beneficiary.claimTxHash Beneficiary.claimTimestamp].
  destruct d as [d|], dh as [dh|], tx as [tx|], ts as [ts|];
    cbn [optional option_map app stringify map fst snd revive mapM];
    rewrite ?(revive_delegation "delegation") by reflexivity;
    bigint_back; reflexivity.
Qed.

Lemma revive_checkInRecord (r : CheckInRecord.t) :
  revive "" (stringify (ofCheckInRecord r)) = Some (ofCheckInRecord r).
Proof. destruct r. bigint_back. reflexivity. Qed.

Lemma revive_storedDelegation (d : StoredDelegation.t) :
  revive "" (stringify (ofStoredDelegation d)) = Some (ofStoredDelegation d).
Proof.
  destruct d. unfold ofStoredDelegation.
  cbn [StoredDelegation.beneficiaryAddress StoredDelegation.delegation
       StoredDelegation.signature StoredDelegation.hash StoredDelegation.createdAt
       StoredDelegation.deadline StoredDelegation.isDisabled].
  cbn [stringify map fst snd revive mapM].
  rewrite (revive_delegation "delegation") by reflexivity.
  bigint_back. reflexivity.
Qed.

(** Parsing the saved text with the reviver gives back the in-memory
    object, bigints included. *)
Lemma revive_vaultStorage (s : VaultStorage.t) :
  revive "" (stringify (ofVaultStorage s)) = Some (ofVaultStorage s).
Proof.
  destruct s as [c bs ds cs lu]. unfold ofVaultStorage.
  cbn [VaultStorage.config VaultStorage.beneficiaries VaultStorage.delegations
       VaultStorage.checkIns VaultStorage.lastUpdated].
  cbn [stringify map fst snd revive mapM].
  rewrite revive_config. cbn [mbind option_bind].
  rewrite (mapM_revive_items ofBeneficiary) by apply revive_beneficiary.
  rewrite (mapM_revive_items ofStoredDelegation) by apply revive_storedDelegation.
  rewrite (mapM_revive_items ofCheckInRecord) by apply revive_checkInRecord.
  reflexivity.
Qed.

Lemma read_caveat (c : Caveat) : toCaveat (ofCaveat c) = Some c.
Proof. destruct c; reflexivity. Qed.

Lemma read_scope (s : Scope) : toScope (Some (ofScope s)) = Some s.
Proof. destruct s; reflexivity. Qed.

Lemma read_delegation (d : Delegation.t) : toDelegation (Some (ofDelegation d)) = Some d.
Proof.
  destruct d as [f t sc cs]. unfold toDelegation, ofDelegation.
  cbn -[toScope ofScope toCaveat ofCaveat].
  rewrite read_scope. cbn -[toCaveat ofCaveat].
  rewrite (mapM_read_items ofCaveat toCaveat) by apply read_caveat.
  reflexivity.
Qed.

Lemma read_config (c : VaultConfig.t) : toConfig (Some (ofConfig c)) = Some c.
Proof.
  destruct c as [va oa p u lc nd tv tk ca]. unfold toConfig, ofConfig.
  cbn -[toPeriodUnit ofPeriodUnit].
  replace (toPeriodUnit (Some (ofPeriodUnit u))) with (Some u) by (destruct u; reflexivity).
  cbn. rewrite (mapM_read_items JStr (fun x => str (Some x))) by reflexivity.
  reflexivity.
Qed.

Lemma read_beneficiary (b : Beneficiary.t) : toBeneficiary (ofBeneficiary b) = Some b.
Proof.
  destruct b as [a n al pc ta d dh hc tx ts]. unfold toBeneficiary, ofBeneficiary.
  cbn [Beneficiary.address Beneficiary.name Beneficiary.allocation Beneficiary.percentage
       Beneficiary.tokenAddress Beneficiary.delegation Beneficiary.delegationHash
       Beneficiary.hasClaimed Beneficiary.claimTxHash Beneficiary.claimTimestamp].
  destruct d as [d|], dh as [dh|], tx as [tx|], ts as [ts|];
    cbn -[toDelegation ofDelegation]; rewrite ?read_delegation; reflexivity.
Qed.

Lemma read_checkInRecord (r : CheckInRecord.t) : toCheckInRecord (ofCheckInRecord r) = Some r.
Proof. destruct r; reflexivity. Qed.

Lemma read_storedDelegation (d : StoredDelegation.t) :
  toStoredDelegation (ofStoredDelegation d) = Some d.
Proof.
  destruct d. unfold toStoredDelegation, ofStoredDelegation.
  cbn -[toDelegation ofDelegation]. rewrite read_delegation. reflexivity.
Qed.

Lemma read_vaultStorage (s : VaultStorage.t) : toVaultStorage (ofVaultStorage s) = Some s.
Proof.
  destruct s as [c bs ds cs lu]. unfold toVaultStorage, ofVaultStorage.
  cbn -[toConfig ofConfig toBeneficiary ofBeneficiary toStoredDelegation
       ofStoredDelegation toCheckInRecord ofCheckInRecord].
  rewrite read_config.
  cbn -[toBeneficiary ofBeneficiary toStoredDelegation
       ofStoredDelegation toCheckInRecord ofCheckInRecord].
  rewrite (mapM_read_items ofBeneficiary toBeneficiary) by apply read_beneficiary.
  cbn -[toStoredDelegation ofStoredDelegation toCheckInRecord ofCheckInRecord].
  rewrite (mapM_read_items ofStoredDelegation toStoredDelegation)
    by apply read_storedDelegation.
  cbn -[toCheckInRecord ofCheckInRecord].
  rewrite (mapM_read_items ofCheckInRecord toCheckInRecord) by apply read_checkInRecord.
  reflexivity.
Qed.
End JsonFacts.

(** ** Store laws *)

(** What was saved under an address is what a later load under the same
    address (in any letter case) returns; other vaults are untouched. *)
Lemma load_save (a a' : string) (r : VaultStorage.t) (st : Store) :
  loadVaultData a' (saveVaultData a r st) =
  if decide (storageKey a = storageKey a') then Some r else loadVaultData a' st.
Proof.
  unfold loadVaultData, saveVaultData. rewrite lookup_insert.
  case_decide as E; [|reflexivity].
  cbn [mbind option_bind]. rewrite JsonFacts.revive_vaultStorage.
  apply JsonFacts.read_vaultStorage.
Qed.

Lemma load_save_same (a : string) (r : VaultStorage.t) (st : Store) :
  loadVaultData a (saveVaultData a r st) = Some r.
Proof. rewrite load_save. case_decide; [reflexivity|congruence]. Qed.

(** ** Round trip through storage (C7) *)

(** C7.  Saving a record under a vault identifier and loading it under
    the same identifier returns the very same record: in particular the
    bigint fields [totalValue], every [allocation], every [gasUsed] and
    every [maxAmount] are equal to the originals, and the beneficiaries
    come back in the same order.  What is stored holds the bigints as
    decimal strings. *)
Theorem save_load_roundtrip (vaultId : string) (record : VaultStorage.t) (st : Store) :
  (exists text,
     saveVaultData vaultId record st !! storageKey vaultId = Some text /\
     Json.hasBigInt text = false) /\
  exists loaded,
    loadVaultData vaultId (saveVaultData vaultId record st) = Some loaded /\
    VaultConfig.totalValue (VaultStorage.config loaded)
      = VaultConfig.totalValue (VaultStorage.config record) /\
    map Beneficiary.allocation (VaultStorage.beneficiaries loaded)
      = map Beneficiary.allocation (VaultStorage.beneficiaries record) /\
    map CheckInRecord.gasUsed (VaultStorage.checkIns loaded)
      = map CheckInRecord.gasUsed (VaultStorage.checkIns record) /\
    map (fun d => maxAmountsOf (StoredDelegation.delegation d)) (VaultStorage.delegations loaded)
      = map (fun d => maxAmountsOf (StoredDelegation.delegation d))
            (VaultStorage.delegations record) /\
    map (option_map maxAmountsOf ∘ Beneficiary.delegation) (VaultStorage.beneficiaries loaded)
      = map (option_map maxAmountsOf ∘ Beneficiary.delegation)
            (VaultStorage.beneficiaries record) /\
    VaultStorage.beneficiaries loaded = VaultStorage.beneficiaries record /\
    loaded = record.
Proof.
  split.
  - unfold saveVaultData. rewrite lookup_insert_eq. eexists. split; [reflexivity|].
    apply JsonFacts.stringify_plain.
  - exists record. rewrite load_save_same. repeat split; reflexivity.
Qed.

(** An amount beyond 2^53 survives as written. *)
Example save_load_large_amount :
  let big := 2 ^ 80 + 1 in
  let c := VaultConfig.mk "0xAB" "0xOwner" 30 DAYS 0 2592000 big [] 0 in
  option_map (fun r => VaultConfig.totalValue (VaultStorage.config r))
    (loadVaultData "0xab" (saveVaultData "0xAB" (VaultStorage.mk c [] [] [] 0) ∅))
  = Some 1208925819614629174706177.
Proof. vm_compute. reflexivity. Qed.

(** The stored text holds the amount as a decimal string. *)
Example saved_text_is_decimal :
  Json.stringify (JObj [("totalValue", JBigInt 1208925819614629174706177)])
  = JObj [("totalValue", JStr "1208925819614629174706177")].
Proof. vm_compute. reflexivity. Qed.

(** ** Status (C1) *)

Lemma getDeadlineFromPeriod_unitSeconds (now period : Z) (unit : PeriodUnit) :
  getDeadlineFromPeriod now period unit = now + period * unitSeconds unit.
Proof. destruct unit; unfold getDeadlineFromPeriod; cbn [unitSeconds]; lia. Qed.


Lemma filter_active_length (ds : list StoredDelegation.t) :
  (0 <? length (List.filter (fun d => negb (StoredDelegation.isDisabled d)) ds))%nat
  = existsb (fun d => negb (StoredDelegation.isDisabled d)) ds.
Proof.
  induction ds as [|d ds IH]; [reflexivity|].
  cbn [List.filter existsb]. destruct (negb (StoredDelegation.isDisabled d)); [reflexivity|].
  exact IH.
Qed.

(** The rules of [statusByRules], one by one. *)
Lemma statusByRules_spelled (record : VaultStorage.t) (balance now : Z) :
  let bs := VaultStorage.beneficiaries record in
  let allClaimed := forallb Beneficiary.hasClaimed bs = true in
  let passed := VaultConfig.nextDeadline (VaultStorage.config record) <= now in
  let someActive := Exists (fun d => StoredDelegation.isDisabled d = false)
                      (VaultStorage.delegations record) in
  (bs = [] -> statusByRules record balance now = CREATED) /\
  (bs <> [] -> balance = 0 \/ allClaimed -> statusByRules record balance now = EMPTY) /\
  (bs <> [] -> balance <> 0 -> ~ allClaimed -> passed ->
     statusByRules record balance now = CLAIMABLE) /\
  (bs <> [] -> balance <> 0 -> ~ allClaimed -> ~ passed -> someActive ->
     statusByRules record balance now = ACTIVE) /\
  (bs <> [] -> balance <> 0 -> ~ allClaimed -> ~ passed -> ~ someActive ->
     statusByRules record balance now = DISABLED).
Proof.
  cbn zeta. unfold statusByRules.
  destruct (VaultStorage.beneficiaries record) as [|b bs] eqn:Hbs.
  { repeat split; intros; congruence. }
  assert (Hex : existsb (fun d => negb (StoredDelegation.isDisabled d))
                  (VaultStorage.delegations record) = true <->
                Exists (fun d => StoredDelegation.isDisabled d = false)
                  (VaultStorage.delegations record)).
  { rewrite existsb_exists, List.Exists_exists. split; intros (d & Hin & Hd); exists d;
      (split; [exact Hin|]); destruct (StoredDelegation.isDisabled d); done. }
  destruct (Z.eqb_spec balance 0) as [Hb|Hb];
    destruct (forallb Beneficiary.hasClaimed (b :: bs)) eqn:Hall; cbn [orb];
    repeat split; intros; try done; try (exfalso; intuition congruence).
  all: destruct (Z.geb_spec now (VaultConfig.nextDeadline (VaultStorage.config record)));
    try lia; try reflexivity.
  all: destruct (existsb _ (VaultStorage.delegations record)) eqn:He; try reflexivity.
  all: exfalso; intuition congruence.
Qed.

(** C1.  For every stored record, live balance and clock reading,
    [getVaultStatus] succeeds and the status it reports is the one the
    rules give, read in the order CREATED, EMPTY, CLAIMABLE, ACTIVE,
    DISABLED, the first applicable rule deciding; it depends on the store
    only through the record.  Rule by rule: CREATED with no beneficiary;
    otherwise EMPTY when the balance is 0 or all beneficiaries have
    claimed; otherwise CLAIMABLE when the deadline has passed; otherwise
    ACTIVE when some delegation is not disabled, and DISABLED when none
    is. *)
Theorem getVaultStatus_by_rules (fw : Framework) (now : Z) (vaultAddress : string)
    (st : Store) (record : VaultStorage.t) :
  loadVaultData vaultAddress st = Some record ->
  let balance := getBalance fw vaultAddress in
  let bs := VaultStorage.beneficiaries record in
  let allClaimed := forallb Beneficiary.hasClaimed bs = true in
  let passed := VaultConfig.nextDeadline (VaultStorage.config record) <= now in
  let someActive := Exists (fun d => StoredDelegation.isDisabled d = false)
                      (VaultStorage.delegations record) in
  exists state,
    getVaultStatus fw now vaultAddress st = Ok state /\
    VaultState.status state = statusByRules record balance now /\
    (bs = [] -> VaultState.status state = CREATED) /\
    (bs <> [] -> balance = 0 \/ allClaimed -> VaultState.status state = EMPTY) /\
    (bs <> [] -> balance <> 0 -> ~ allClaimed -> passed ->
       VaultState.status state = CLAIMABLE) /\
    (bs <> [] -> balance <> 0 -> ~ allClaimed -> ~ passed -> someActive ->
       VaultState.status state = ACTIVE) /\
    (bs <> [] -> balance <> 0 -> ~ allClaimed -> ~ passed -> ~ someActive ->
       VaultState.status state = DISABLED) /\
    VaultState.timeRemaining state
      = Z.max 0 (VaultConfig.nextDeadline (VaultStorage.config record) - now).
Proof.
  intros Hload balance bs allClaimed passed someActive.
  assert (Hstatus : exists state,
            getVaultStatus fw now vaultAddress st = Ok state /\
            VaultState.status state = statusByRules record balance now /\
            VaultState.timeRemaining state
              = Z.max 0 (VaultConfig.nextDeadline (VaultStorage.config record) - now)).
  { unfold getVaultStatus, getActiveDelegations. rewrite Hload.
    eexists. split; [reflexivity|].
    cbn [VaultState.status VaultState.beneficiaries VaultState.timeRemaining
         TimeCalculation.secondsRemaining TimeCalculation.isPast calculateTimeRemaining].
    split; [|destruct record as [[] ? ? ? ?]; reflexivity].
    rewrite filter_active_length. unfold statusByRules, balance.
    destruct record as [c bs0 ds cs lu]. destruct c as [va oa p u lc nd tv tk ca].
    cbn [VaultStorage.beneficiaries VaultStorage.config VaultStorage.delegations
         VaultConfig.nextDeadline withTotalValue].
    destruct bs0 as [|b bs0]; [reflexivity|]. cbn [length Nat.eqb Nat.ltb Nat.leb].
    rewrite andb_true_r.
    replace (nd - now <=? 0) with (now >=? nd)
      by (rewrite Z.geb_leb; apply eq_true_iff_eq; rewrite !Z.leb_le; lia).
    destruct (getBalance fw vaultAddress =? 0), (forallb Beneficiary.hasClaimed (b :: bs0));
      try reflexivity.
    all: destruct (now >=? nd); try reflexivity.
    all: destruct (existsb _ ds); reflexivity. }
  destruct Hstatus as (state & Hs & Hst & Htime).
  exists state. split; [exact Hs|]. split; [exact Hst|].
  rewrite Hst.
  destruct (statusByRules_spelled record balance now) as (H1 & H2 & H3 & H4 & H5).
  repeat split; assumption.
Qed.

Lemma sample_funded_load : loadVaultData Sample.vault Sample.funded = Some Sample.fundedRecord.
Proof. vm_compute. reflexivity. Qed.

Lemma getVaultStatus_by_rules_witness :
  exists state,
    getVaultStatus (Sample.fw 100) 1002 Sample.vault Sample.funded = Ok state /\
    VaultState.status state = ACTIVE.
Proof.
  destruct (getVaultStatus_by_rules (Sample.fw 100) 1002 Sample.vault Sample.funded
              Sample.fundedRecord sample_funded_load) as (state & Hs & Hst & _).
  cbv zeta in Hst.
  exists state. split; [exact Hs|]. rewrite Hst. vm_compute. reflexivity.
Defined.

(** A vault that [createVault] has just stored has no beneficiaries, its
    deadline is one period from the clock reading made for it, and its
    status reads CREATED whatever the balance and however late it is. *)
Lemma createVault_status_created (fw fw' : Framework) (now deadlineAt now' : Z)
    (params : CreateVaultParams.t) (st st' : Store) (vault : string)
    (config : VaultConfig.t) :
  createVault fw now deadlineAt params st = (Ok (vault, config), st') ->
  loadVaultData vault st' = Some (VaultStorage.mk config [] [] [] now) /\
  VaultConfig.nextDeadline config
    = deadlineAt + VaultConfig.checkInPeriod config
            * unitSeconds (VaultConfig.checkInPeriodUnit config) /\
  exists state,
    getVaultStatus fw' now' vault st' = Ok state /\ VaultState.status state = CREATED.
Proof.
  unfold createVault. intros H.
  destruct (thrownBy _); [discriminate H|].
  destruct (orElseString _ _) as [privateKey|]; [|discriminate H].
  destruct (String.length privateKey =? 0)%nat; [discriminate H|].
  destruct (if isDeployed fw _ then _ else _); [|discriminate H].
  destruct (if truthy _ && _ then _ else _); [|discriminate H].
  injection H as <- <- <-.
  split; [apply load_save_same|]. split.
  - cbn [VaultConfig.nextDeadline VaultConfig.checkInPeriod VaultConfig.checkInPeriodUnit].
    apply getDeadlineFromPeriod_unitSeconds.
  - unfold getVaultStatus. rewrite load_save_same. eexists. split; reflexivity.
Qed.

(** Scenario A: a vault just created, without beneficiaries, is CREATED,
    whatever its balance and however late it is. *)
Example status_created (balance now : Z) :
  option_map VaultState.status
    (match getVaultStatus (Sample.fw balance) now Sample.vault Sample.created with
     | Ok s => Some s | Err _ => None end) = Some CREATED.
Proof. reflexivity. Qed.


(** ** Beneficiary setup (C5, C8) *)

(** The shape of a successful [createAll]: one beneficiary entry and one
    stored delegation per input, in input order. *)
Lemma createAll_Some (fw : Framework) (now : Z) (vaultAddress : string)
    (vaultBalance deadline : Z) (inputs : list BeneficiaryInput.t)
    (bs : list Beneficiary.t) (sds : list StoredDelegation.t) :
  createAll fw now vaultAddress vaultBalance deadline inputs = Some (bs, sds) ->
  map shareOf bs = map shareOfInput inputs /\
  Forall (fun b => Beneficiary.hasClaimed b = false) bs /\
  map StoredDelegation.beneficiaryAddress sds = map BeneficiaryInput.address inputs /\
  Forall (fun d => StoredDelegation.isDisabled d = false /\
                   StoredDelegation.deadline d = deadline /\
                   StoredDelegation.createdAt d = now /\
                   Delegation.from (StoredDelegation.delegation d) = vaultAddress) sds.
Proof.
  revert bs sds. induction inputs as [|i rest IH]; intros bs sds H; cbn in H.
  - simplify_eq. repeat split; constructor.
  - unfold createOne in H.
    destruct (signDelegation fw _) as [sg|]; [|discriminate]. cbn in H.
    destruct (createAll fw now vaultAddress vaultBalance deadline rest) as [[bs' sds']|];
      [|discriminate].
    cbn in H. simplify_eq. destruct (IH _ _ eq_refl) as (H1 & H2 & H3 & H4).
    cbn [map]. rewrite H1, H3.
    repeat split; try constructor; try done; repeat split; reflexivity.
Qed.

(** What a successful [setupBeneficiaries] went through. *)
Lemma setupBeneficiaries_Ok (fw : Framework) (now : Z) (vaultAddress : string)
    (inputs : list BeneficiaryInput.t) (deadline : Z) (st st' : Store)
    (bs : list Beneficiary.t) :
  setupBeneficiaries fw now vaultAddress inputs deadline st = (Ok bs, st') ->
  fold_left (fun sum b => sum + BeneficiaryInput.allocation b) inputs 0
    <= getBalance fw vaultAddress /\
  exists sds,
    createAll fw now vaultAddress (getBalance fw vaultAddress) deadline inputs
      = Some (bs, sds) /\
    st' = match loadVaultData vaultAddress st with
          | Some vaultData =>
              saveVaultData vaultAddress
                (setBeneficiariesAndDelegations bs sds now vaultData) st
          | None => st
          end.
Proof.
  unfold setupBeneficiaries. intros H.
  destruct (thrownBy _); [discriminate|].
  destruct (validateEach fw inputs); [discriminate|].
  destruct (Z.gtb_spec (fold_left (fun sum b => sum + BeneficiaryInput.allocation b) inputs 0)
              (getBalance fw vaultAddress)) as [Hgt|Hle]; [discriminate|].
  split; [lia|].
  destruct (createAll _ _ _ _ _ _) as [[bs0 sds0]|]; [|discriminate].
  exists sds0.
  destruct (loadVaultData vaultAddress st); simplify_eq; split; reflexivity.
Qed.

(** An over-allocated set is always turned down, with a validation
    message, before anything is written. *)
Lemma setupBeneficiaries_over_allocated (fw : Framework) (now : Z) (vaultAddress : string)
    (inputs : list BeneficiaryInput.t) (deadline : Z) (st : Store) :
  fold_left (fun sum b => sum + BeneficiaryInput.allocation b) inputs 0
    > getBalance fw vaultAddress ->
  exists message,
    setupBeneficiaries fw now vaultAddress inputs deadline st
      = (Err (ValidationError message), st).
Proof.
  intros Hgt. unfold setupBeneficiaries.
  destruct (thrownBy _); [eauto|].
  destruct (validateEach fw inputs) as [e|]; [eauto|].
  destruct (Z.gtb_spec (fold_left (fun sum b => sum + BeneficiaryInput.allocation b) inputs 0)
              (getBalance fw vaultAddress)); [eauto | lia].
Qed.

(** C5.  A beneficiary set whose allocations add up to more than the live
    balance of the vault makes [setupBeneficiaries] fail with a
    [ValidationError]; the store, and with it the stored beneficiary list,
    is what it was before the call.  Conversely a set that gets through,
    either [setupBeneficiaries] or the stand-alone
    [validateBeneficiaryAllocations], adds up to at most the balance. *)
Theorem setupBeneficiaries_allocation_guard (fw : Framework) (now : Z)
    (vaultAddress : string) (inputs : list BeneficiaryInput.t) (deadline : Z) (st : Store) :
  let total := fold_left (fun sum b => sum + BeneficiaryInput.allocation b) inputs 0 in
  let outcome := setupBeneficiaries fw now vaultAddress inputs deadline st in
  (total > getBalance fw vaultAddress ->
     (exists message, fst outcome = Err (ValidationError message)) /\
     snd outcome = st /\
     option_map VaultStorage.beneficiaries (loadVaultData vaultAddress (snd outcome))
       = option_map VaultStorage.beneficiaries (loadVaultData vaultAddress st)) /\
  (isOk (fst outcome) = true -> total <= getBalance fw vaultAddress) /\
  (forall (beneficiaries : list Beneficiary.t) (vaultBalance : Z),
     ValidationResult.isValid (validateBeneficiaryAllocations beneficiaries vaultBalance) = true ->
     totalAllocationOf beneficiaries <= vaultBalance).
Proof.
  cbn zeta. split; [|split].
  - intros Hgt.
    destruct (setupBeneficiaries_over_allocated fw now vaultAddress inputs deadline st Hgt)
      as [message Hm].
    rewrite Hm. cbn. eauto.
  - intros Hok.
    destruct (setupBeneficiaries fw now vaultAddress inputs deadline st) as [[bs|e] st'] eqn:H;
      [|discriminate].
    apply setupBeneficiaries_Ok in H. tauto.
  - intros beneficiaries vaultBalance. unfold validateBeneficiaryAllocations.
    destruct (length beneficiaries =? 0)%nat; [discriminate|].
    destruct (10 <? length beneficiaries)%nat; [discriminate|].
    destruct (Z.gtb_spec (totalAllocationOf beneficiaries) vaultBalance); [discriminate|].
    intros _. lia.
Qed.

Lemma setupBeneficiaries_allocation_guard_witness :
  (exists message,
     fst (setupBeneficiaries (Sample.fw 100) 1200 Sample.vault [Sample.bob; Sample.dave] 1300
            Sample.funded) = Err (ValidationError message)) /\
  option_map VaultStorage.beneficiaries
    (loadVaultData Sample.vault
       (snd (setupBeneficiaries (Sample.fw 100) 1200 Sample.vault [Sample.bob; Sample.dave]
               1300 Sample.funded)))
  = Some (VaultStorage.beneficiaries Sample.fundedRecord) /\
  40 + 60 <= 100.
Proof.
  destruct (setupBeneficiaries_allocation_guard (Sample.fw 100) 1200 Sample.vault
              [Sample.bob; Sample.dave] 1300 Sample.funded) as (Hover & _ & _).
  destruct (setupBeneficiaries_allocation_guard (Sample.fw 100) 1200 Sample.vault
              [Sample.bob; Sample.carol] 1300 Sample.funded) as (_ & Hok & _).
  destruct Hover as (Hmsg & _ & Hsame); [vm_compute; reflexivity|].
  split; [exact Hmsg|]. split.
  - rewrite Hsame, sample_funded_load. reflexivity.
  - apply Hok. vm_compute. reflexivity.
Defined.

Lemma map_address_of_share (bs : list Beneficiary.t) (inputs : list BeneficiaryInput.t) :
  map shareOf bs = map shareOfInput inputs ->
  map Beneficiary.address bs = map BeneficiaryInput.address inputs.
Proof.
  intros H. apply (f_equal (map (fun s : string * string * Z => fst (fst s)))) in H.
  rewrite !map_map in H. exact H.
Qed.

(** A successful setup on a stored vault leaves exactly what it built. *)
Lemma setupBeneficiaries_stored (fw : Framework) (now : Z) (vaultAddress : string)
    (inputs : list BeneficiaryInput.t) (deadline : Z) (st st' : Store)
    (bs : list Beneficiary.t) (record : VaultStorage.t) :
  loadVaultData vaultAddress st = Some record ->
  setupBeneficiaries fw now vaultAddress inputs deadline st = (Ok bs, st') ->
  exists sds,
    createAll fw now vaultAddress (getBalance fw vaultAddress) deadline inputs
      = Some (bs, sds) /\
    st' = saveVaultData vaultAddress
            (setBeneficiariesAndDelegations bs sds now record) st /\
    loadVaultData vaultAddress st'
      = Some (setBeneficiariesAndDelegations bs sds now record).
Proof.
  intros Hload H. apply setupBeneficiaries_Ok in H as (_ & sds & Hc & ->).
  rewrite Hload. exists sds. split; [exact Hc|]. split; [reflexivity|].
  apply load_save_same.
Qed.

(** C8.  A successful [setupBeneficiaries] on a stored vault replaces the
    stored beneficiary list by the beneficiaries of that call (same
    addresses, names and allocations, same order).  After two successful
    calls in a row the stored list is that of the second call: an address
    of the first call that the second does not repeat is gone. *)
Theorem setupBeneficiaries_full_replace (fw1 fw2 : Framework) (now1 now2 : Z)
    (vaultAddress : string) (inputs1 inputs2 : list BeneficiaryInput.t)
    (deadline1 deadline2 : Z) (st st1 st2 : Store) (bs1 bs2 : list Beneficiary.t)
    (record : VaultStorage.t) :
  loadVaultData vaultAddress st = Some record ->
  setupBeneficiaries fw1 now1 vaultAddress inputs1 deadline1 st = (Ok bs1, st1) ->
  setupBeneficiaries fw2 now2 vaultAddress inputs2 deadline2 st1 = (Ok bs2, st2) ->
  exists record1 record2,
    loadVaultData vaultAddress st1 = Some record1 /\
    map shareOf (VaultStorage.beneficiaries record1) = map shareOfInput inputs1 /\
    loadVaultData vaultAddress st2 = Some record2 /\
    VaultStorage.beneficiaries record2 = bs2 /\
    map shareOf (VaultStorage.beneficiaries record2) = map shareOfInput inputs2 /\
    forall address,
      In address (map BeneficiaryInput.address inputs1) ->
      ~ In address (map BeneficiaryInput.address inputs2) ->
      ~ In address (map Beneficiary.address (VaultStorage.beneficiaries record2)).
Proof.
  intros Hload H1 H2.
  destruct (setupBeneficiaries_stored _ _ _ _ _ _ _ _ _ Hload H1) as (sds1 & Hc1 & _ & Hl1).
  destruct (setupBeneficiaries_stored _ _ _ _ _ _ _ _ _ Hl1 H2) as (sds2 & Hc2 & _ & Hl2).
  apply createAll_Some in Hc1 as (Hs1 & _). apply createAll_Some in Hc2 as (Hs2 & _).
  eexists _, _. split; [exact Hl1|]. split; [exact Hs1|].
  split; [exact Hl2|]. split; [reflexivity|]. split; [exact Hs2|].
  intros address _ Hnot. cbn [setBeneficiariesAndDelegations VaultStorage.beneficiaries].
  rewrite (map_address_of_share _ _ Hs2). exact Hnot.
Qed.

Lemma setupBeneficiaries_full_replace_witness :
  exists record2,
    loadVaultData Sample.vault
      (snd (setupBeneficiaries (Sample.fw 100) 1200 Sample.vault [Sample.dave] 1300
              Sample.funded)) = Some record2 /\
    map shareOf (VaultStorage.beneficiaries record2) = [("0xDA7E", "Dave", 100)] /\
    ~ In "0xB0B" (map Beneficiary.address (VaultStorage.beneficiaries record2)).
Proof.
  pose (r1 := setupBeneficiaries (Sample.fw 100) 1001 Sample.vault
                [Sample.bob; Sample.carol] 1300 Sample.created).
  pose (r2 := setupBeneficiaries (Sample.fw 100) 1200 Sample.vault [Sample.dave] 1300
                Sample.funded).
  destruct (setupBeneficiaries_full_replace (Sample.fw 100) (Sample.fw 100) 1001 1200
              Sample.vault [Sample.bob; Sample.carol] [Sample.dave] 1300 1300
              Sample.created Sample.funded (snd r2)
              (match fst r1 with Ok bs => bs | Err _ => [] end)
              (match fst r2 with Ok bs => bs | Err _ => [] end)
              (VaultStorage.mk Sample.config [] [] [] 1000))
    as (record1 & record2 & _ & _ & Hl2 & _ & Hs2 & Hgone);
    [vm_compute; reflexivity ..|].
  exists record2. split; [exact Hl2|]. split; [exact Hs2|].
  apply Hgone; [vm_compute; tauto|].
  vm_compute. intros [H|[]]. discriminate H.
Defined.

(** ** Claims (C3) *)

Lemma eqIgnoreCase_refl (a : string) : eqIgnoreCase a a = true.
Proof. unfold eqIgnoreCase. apply String.eqb_refl. Qed.

Lemma eqIgnoreCase_eq (a b : string) :
  eqIgnoreCase a b = true <-> toLowerCase a = toLowerCase b.
Proof. unfold eqIgnoreCase. apply String.eqb_eq. Qed.

(** The entry [find] returns for an address is the entry [findIndex]
    marks, and it is found again, marked, afterwards. *)
Lemma markClaimedFirst_find (account hash : string) (claimTimestamp : Z)
    (bs : list Beneficiary.t) (b : Beneficiary.t) :
  List.find (fun x => eqIgnoreCase (Beneficiary.address x) account) bs = Some b ->
  exists bs',
    markClaimedFirst account hash claimTimestamp bs = Some bs' /\
    List.find (fun x => eqIgnoreCase (Beneficiary.address x) account) bs'
      = Some (markClaimed hash claimTimestamp b).
Proof.
  intros Hfind.
  assert (Hb : eqIgnoreCase (Beneficiary.address b) account = true)
    by (apply find_some in Hfind; tauto).
  induction bs as [|x bs IH]; cbn in Hfind; [discriminate|].
  cbn [markClaimedFirst].
  destruct (eqIgnoreCase (Beneficiary.address x) account) eqn:Hx.
  - injection Hfind as ->. eexists. split; [reflexivity|].
    cbn [List.find markClaimed Beneficiary.address]. rewrite Hb. reflexivity.
  - destruct (IH Hfind) as (bs' & Hm & Hf).
    rewrite Hm. eexists. split; [reflexivity|].
    cbn [option_map List.find]. rewrite Hx. exact Hf.
Qed.

Lemma getBeneficiaryDelegation_load (vaultAddress account : string) (st : Store)
    (record : VaultStorage.t) :
  loadVaultData vaultAddress st = Some record ->
  getBeneficiaryDelegation vaultAddress account st
  = List.find (fun d => eqIgnoreCase (StoredDelegation.beneficiaryAddress d) account)
      (VaultStorage.delegations record).
Proof. intros H. unfold getBeneficiaryDelegation. rewrite H. reflexivity. Qed.

Lemma load_same_key (a a' : string) (st : Store) :
  storageKey a = storageKey a' -> loadVaultData a st = loadVaultData a' st.
Proof. intros H. unfold loadVaultData. rewrite H. reflexivity. Qed.

Section ClaimChecks.
Variables (fw : Framework) (clock : ClaimClock.t) (vaultAddress account : string) (st : Store).
Variables (record : VaultStorage.t) (b : Beneficiary.t) (d : StoredDelegation.t).
Hypothesis Hload : loadVaultData vaultAddress st = Some record.
Hypothesis Hb :
  List.find (fun x => eqIgnoreCase (Beneficiary.address x) account)
    (VaultStorage.beneficiaries record) = Some b.
Hypothesis Hd :
  List.find (fun x => eqIgnoreCase (StoredDelegation.beneficiaryAddress x) account)
    (VaultStorage.delegations record) = Some d.

Lemma simpleClaim_disabled :
  StoredDelegation.isDisabled d = true ->
  simpleClaim fw clock vaultAddress account st = (Err DelegationDisabledError, st).
Proof.
  intros Hdis. unfold simpleClaim.
  rewrite Hload, Hb, (getBeneficiaryDelegation_load _ _ _ _ Hload), Hd, Hdis. reflexivity.
Qed.

(** With a stored delegation that is not disabled, [simpleClaim] goes on
    to [claimInheritance], which stops at its first step: the object it
    is handed has no [delegation] to read [from] of. *)
Lemma simpleClaim_enabled :
  StoredDelegation.isDisabled d = false ->
  simpleClaim fw clock vaultAddress account st = (Err TypeError, st).
Proof.
  intros Hdis. unfold simpleClaim.
  rewrite Hload, Hb, (getBeneficiaryDelegation_load _ _ _ _ Hload), Hd, Hdis. reflexivity.
Qed.
End ClaimChecks.

(** [simpleClaim] never succeeds and never writes: each of its ways out
    is a throw made before any transaction. *)
Lemma simpleClaim_fails (fw : Framework) (clock : ClaimClock.t)
    (vaultAddress account : string) (st : Store) :
  exists e,
    simpleClaim fw clock vaultAddress account st = (Err e, st) /\
    (e = NotFoundError MissingVault \/ e = NotFoundError MissingBeneficiary \/
     e = NotFoundError MissingDelegation \/ e = DelegationDisabledError \/ e = TypeError).
Proof.
  unfold simpleClaim.
  destruct (loadVaultData vaultAddress st) as [record|]; [|eauto 8].
  destruct (List.find _ (VaultStorage.beneficiaries record)) as [b|]; [|eauto 8].
  destruct (getBeneficiaryDelegation vaultAddress account st) as [d|]; [|eauto 8].
  destruct (StoredDelegation.isDisabled d); [eauto 8|].
  exists TypeError. split; [reflexivity|]. tauto.
Qed.

(** [claimInheritance] on an object that does carry [delegation.from],
    naming a stored vault. *)
Section ClaimInheritanceChecks.
Variables (fw : Framework) (clock : ClaimClock.t) (params : ClaimParams.t) (st : Store).
Variables (from : string) (record : VaultStorage.t).
Hypothesis Hfrom :
  SignedDelegation.delegation (ClaimParams.signedDelegation params) = Some from.
Hypothesis Hload : loadVaultData from st = Some record.

Lemma claimInheritance_too_early :
  ClaimClock.deadlineTest clock < VaultConfig.nextDeadline (VaultStorage.config record) ->
  claimInheritance fw clock params st
  = (Err (TooEarlyError (VaultConfig.nextDeadline (VaultStorage.config record)
                         - ClaimClock.message clock)), st).
Proof.
  intros Hlt. unfold claimInheritance. rewrite Hfrom, Hload. unfold isDeadlinePassed.
  destruct (Z.geb_spec (ClaimClock.deadlineTest clock)
              (VaultConfig.nextDeadline (VaultStorage.config record)));
    [lia | reflexivity].
Qed.

Lemma claimInheritance_already_claimed :
  VaultConfig.nextDeadline (VaultStorage.config record) <= ClaimClock.deadlineTest clock ->
  Beneficiary.hasClaimed (ClaimParams.beneficiary params) = true ->
  claimInheritance fw clock params st = (Err AlreadyClaimedError, st).
Proof.
  intros Hle Hclaimed. unfold claimInheritance. rewrite Hfrom, Hload.
  unfold isDeadlinePassed.
  destruct (Z.geb_spec (ClaimClock.deadlineTest clock)
              (VaultConfig.nextDeadline (VaultStorage.config record)));
    [|lia].
  cbn [negb]. rewrite Hclaimed. reflexivity.
Qed.

(** What a successful claim went through and what it left in the store. *)
Lemma claimInheritance_Ok (receipt : ClaimReceipt.t) (st' : Store) :
  claimInheritance fw clock params st = (Ok receipt, st') ->
  VaultConfig.nextDeadline (VaultStorage.config record) <= ClaimClock.deadlineTest clock /\
  Beneficiary.hasClaimed (ClaimParams.beneficiary params) = false /\
  ClaimReceipt.amount receipt = Beneficiary.allocation (ClaimParams.beneficiary params) /\
  st' = match markClaimedFirst (Beneficiary.address (ClaimParams.beneficiary params))
                (ClaimReceipt.txHash receipt) (ClaimClock.claimTimestamp clock)
                (VaultStorage.beneficiaries record) with
        | Some bs =>
            saveVaultData (VaultConfig.vaultAddress (VaultStorage.config record))
              (VaultStorage.mk (VaultStorage.config record) bs
                 (VaultStorage.delegations record) (VaultStorage.checkIns record)
                 (ClaimClock.lastUpdated clock)) st
        | None => st
        end.
Proof.
  unfold claimInheritance. rewrite Hfrom, Hload. unfold isDeadlinePassed. intros H.
  destruct (Z.geb_spec (ClaimClock.deadlineTest clock)
              (VaultConfig.nextDeadline (VaultStorage.config record)));
    [|discriminate].
  cbn [negb] in H.
  destruct (Beneficiary.hasClaimed (ClaimParams.beneficiary params)); [discriminate|].
  destruct (redeemDelegations fw _ _ _) as [hash|]; [|discriminate].
  destruct (waitForTransactionReceipt fw hash) as [gas|]; [|discriminate].
  destruct (markClaimedFirst _ hash _ _) as [bs|] eqn:Hm;
    injection H as <- <-; cbn [ClaimReceipt.txHash ClaimReceipt.amount];
    rewrite Hm; repeat split; lia.
Qed.
End ClaimInheritanceChecks.

(** C3.  What the specification says of claims does not hold of the code.
    [simpleClaim] hands [claimInheritance] the stored delegation spread
    into a flat object with its signature; [claimInheritance] begins by
    reading [signedDelegation.delegation.from], and that object has no
    [delegation].  An attempt whose stored delegation is not disabled
    thus ends in the engine's [TypeError] before the deadline test, the
    claimed-flag test and the transaction.  Whatever the vault, the
    account, the clock and the chain, [simpleClaim] does not succeed, is
    not turned down with [TooEarlyError] or [AlreadyClaimedError], and
    writes nothing.  On the vault of Bob and Carol, deadline 1300, Bob's
    attempt gets the [TypeError] before the deadline (where the
    specification has [TooEarlyError]), after it (where it has a
    success), and once his entry is marked claimed (where it has
    [AlreadyClaimedError]). *)
Theorem simpleClaim_stops_before_its_checks :
  (forall fw clock vaultAddress account st,
     isOk (fst (simpleClaim fw clock vaultAddress account st)) = false /\
     (forall timeRemaining,
        fst (simpleClaim fw clock vaultAddress account st)
        <> Err (TooEarlyError timeRemaining)) /\
     fst (simpleClaim fw clock vaultAddress account st) <> Err AlreadyClaimedError /\
     snd (simpleClaim fw clock vaultAddress account st) = st) /\
  simpleClaim (Sample.fw 100) (Sample.clockAt 1100) Sample.vault "0xb0b" Sample.funded
    = (Err TypeError, Sample.funded) /\
  simpleClaim (Sample.fw 100) (Sample.clockAt 1400) Sample.vault "0xb0b" Sample.funded
    = (Err TypeError, Sample.funded) /\
  Beneficiary.hasClaimed
    (default Sample.bobEntry
       (List.find (fun x => eqIgnoreCase (Beneficiary.address x) "0xb0b")
          (VaultStorage.beneficiaries Sample.afterBobClaimRecord))) = true /\
  simpleClaim (Sample.fw 60) (Sample.clockAt 1500) Sample.vault "0xb0b" Sample.afterBobClaim
    = (Err TypeError, Sample.afterBobClaim).
Proof.
  split; [|repeat split; vm_compute; reflexivity].
  intros fw clock vaultAddress account st.
  destruct (simpleClaim_fails fw clock vaultAddress account st) as (e & -> & He).
  cbn [fst snd isOk]. split; [reflexivity|]. split; [|split; [|reflexivity]].
  - intros n. destruct He as [->|[->|[->|[->| ->]]]]; discriminate.
  - destruct He as [->|[->|[->|[->| ->]]]]; discriminate.
Qed.

(** ** The disabling loop of a check-in *)

Lemma NoDup_map_inj_in {A B} (f : A -> B) (l : list A) (x y : A) :
  NoDup (map f l) -> In x l -> In y l -> f x = f y -> x = y.
Proof.
  induction l as [|a l IH]; cbn; [tauto|].
  intros Hnd [Hx|Hx] [Hy|Hy] Hf; inversion Hnd as [|? ? Hnotin Hnd']; subst.
  - reflexivity.
  - exfalso. apply Hnotin. rewrite Hf. apply list_elem_of_In, in_map, Hy.
  - exfalso. apply Hnotin. rewrite <- Hf. apply list_elem_of_In, in_map, Hx.
  - apply IH; assumption.
Qed.

Lemma markAll_no_match (h : string) (ds : list StoredDelegation.t) :
  (forall x, In x ds -> eqIgnoreCase (StoredDelegation.hash x) h = false) ->
  markAll h ds = ds.
Proof.
  induction ds as [|d ds IH]; intros H; [reflexivity|].
  cbn. rewrite (H d) by (left; reflexivity). f_equal. apply IH.
  intros x Hx. apply H. right. exact Hx.
Qed.

(** With pairwise different hashes, marking the first match marks the
    only match. *)
Lemma markFirst_markAll (h : string) (ds : list StoredDelegation.t) :
  NoDup (map lowerHash ds) ->
  match markFirst h true ds with
  | Some ds' => ds' = markAll h ds
  | None => markAll h ds = ds
  end.
Proof.
  induction ds as [|d ds IH]; intros Hnd; [reflexivity|].
  inversion Hnd as [|? ? Hnotin Hnd']; subst. cbn [markFirst].
  destruct (eqIgnoreCase (StoredDelegation.hash d) h) eqn:Hd.
  - cbn [markAll map]. rewrite Hd. f_equal. symmetry. apply markAll_no_match.
    intros x Hx. destruct (eqIgnoreCase (StoredDelegation.hash x) h) eqn:Hxh; [|reflexivity].
    exfalso. apply Hnotin. apply list_elem_of_In.
    replace (lowerHash d) with (lowerHash x); [apply in_map, Hx|].
    apply eqIgnoreCase_eq in Hd, Hxh. unfold lowerHash. congruence.
  - specialize (IH Hnd'). destruct (markFirst h true ds) as [ds'|]; cbn [option_map].
    + cbn [markAll map]. rewrite Hd. f_equal. exact IH.
    + cbn [markAll map]. rewrite Hd. f_equal. exact IH.
Qed.

Lemma markAll_lowerHash (h : string) (ds : list StoredDelegation.t) :
  map lowerHash (markAll h ds) = map lowerHash ds.
Proof.
  unfold markAll. rewrite map_map. apply map_ext. intros x.
  destruct (eqIgnoreCase _ _); reflexivity.
Qed.

(** The record after [updateDelegationStatus(.., hash, true)]: only the
    delegation list (and the time stamp of the record) can differ. *)
Lemma updateDelegationStatus_load (now : Z) (vaultAddress h : string) (st : Store)
    (record : VaultStorage.t) :
  loadVaultData vaultAddress st = Some record ->
  NoDup (map lowerHash (VaultStorage.delegations record)) ->
  exists lastUpdated,
    loadVaultData vaultAddress (snd (updateDelegationStatus now vaultAddress h true st))
    = Some (setDelegations (markAll h (VaultStorage.delegations record)) lastUpdated record).
Proof.
  intros Hload Hnd. unfold updateDelegationStatus. rewrite Hload.
  pose proof (markFirst_markAll h _ Hnd) as Hm.
  destruct (markFirst h true (VaultStorage.delegations record)) as [ds'|].
  - subst ds'. exists now. cbn [snd]. apply load_save_same.
  - exists (VaultStorage.lastUpdated record). cbn [snd]. rewrite Hm, Hload.
    destruct record; reflexivity.
Qed.

Lemma disableOne_store (fw : Framework) (now : Z) (vaultAddress : string)
    (d : StoredDelegation.t) (s : DisableState.t) :
  DisableState.store (disableOne fw now vaultAddress d s)
  = if disableConfirmed fw d
    then snd (updateDelegationStatus now vaultAddress (StoredDelegation.hash d) true
                (DisableState.store s))
    else DisableState.store s.
Proof.
  unfold disableOne, disableConfirmed.
  destruct (disableDelegation fw _ _) as [hash|]; [|reflexivity].
  destruct (waitForTransactionReceipt fw hash); reflexivity.
Qed.

Lemma disableAll_cons (fw : Framework) (now : Z) (vaultAddress : string)
    (d : StoredDelegation.t) (todo : list StoredDelegation.t) (s : DisableState.t) :
  disableAll fw now vaultAddress (d :: todo) s
  = disableAll fw now vaultAddress todo (disableOne fw now vaultAddress d s).
Proof. reflexivity. Qed.

(** The loop never stops early: after it, a stored delegation is marked
    disabled exactly when the loop met a delegation with its hash whose
    disable transaction was confirmed.  Nothing else in the record moves
    and no delegation is dropped. *)
Lemma disableAll_load (fw : Framework) (now : Z) (vaultAddress : string)
    (todo : list StoredDelegation.t) (s : DisableState.t) (record : VaultStorage.t) :
  loadVaultData vaultAddress (DisableState.store s) = Some record ->
  NoDup (map lowerHash (VaultStorage.delegations record)) ->
  exists lastUpdated,
    loadVaultData vaultAddress (DisableState.store (disableAll fw now vaultAddress todo s))
    = Some (setDelegations (map (markedBy fw todo) (VaultStorage.delegations record))
              lastUpdated record).
Proof.
  revert s record. induction todo as [|d todo IH]; intros s record Hload Hnd.
  - exists (VaultStorage.lastUpdated record). cbn. rewrite Hload. f_equal.
    destruct record as [c bs ds cs lu]. unfold setDelegations. cbn. f_equal.
    symmetry. unfold markedBy. cbn. apply map_id.
  - rewrite disableAll_cons.
    destruct (disableConfirmed fw d) eqn:Hconf.
    + destruct (updateDelegationStatus_load now vaultAddress (StoredDelegation.hash d)
                  _ _ Hload Hnd) as [lu1 Hl1].
      edestruct (IH (disableOne fw now vaultAddress d s)) as [lu2 Hl2].
      { rewrite disableOne_store, Hconf. exact Hl1. }
      { cbn. rewrite markAll_lowerHash. exact Hnd. }
      exists lu2. rewrite Hl2. f_equal. unfold setDelegations. cbn. f_equal.
      unfold markAll. rewrite map_map. apply map_ext. intros x.
      unfold markedBy. cbn [existsb]. rewrite Hconf. cbn [andb].
      destruct (eqIgnoreCase (StoredDelegation.hash x) (StoredDelegation.hash d));
        cbn [orb StoredDelegation.hash setIsDisabled]; [|reflexivity].
      destruct (existsb _ todo); reflexivity.
    + destruct (IH (disableOne fw now vaultAddress d s) record) as [lu2 Hl2].
      { rewrite disableOne_store, Hconf. exact Hload. }
      { exact Hnd. }
      exists lu2. rewrite Hl2. f_equal. f_equal. apply map_ext. intros x.
      unfold markedBy. cbn [existsb]. rewrite Hconf. reflexivity.
Qed.

Lemma setIsDisabled_id (x : StoredDelegation.t) :
  StoredDelegation.isDisabled x = true -> setIsDisabled true x = x.
Proof. destruct x; cbn; intros ->; reflexivity. Qed.

(** Run over the active delegations of the record, the loop marks the
    stored delegations whose disable transaction was confirmed. *)
Lemma markedBy_active (fw : Framework) (ds : list StoredDelegation.t) :
  NoDup (map lowerHash ds) ->
  map (markedBy fw (List.filter (fun d => negb (StoredDelegation.isDisabled d)) ds)) ds
  = map (fun x => if disableConfirmed fw x then setIsDisabled true x else x) ds.
Proof.
  intros Hnd. apply map_ext_in. intros x Hx. unfold markedBy.
  destruct (existsb _ _) eqn:He.
  - apply existsb_exists in He as (d & Hd & Hc).
    apply andb_true_iff in Hc as [Hconf Heq].
    apply filter_In in Hd as [Hd _].
    assert (x = d) as ->.
    { apply (NoDup_map_inj_in lowerHash ds); try assumption.
      apply eqIgnoreCase_eq in Heq. exact Heq. }
    rewrite Hconf. reflexivity.
  - destruct (disableConfirmed fw x) eqn:Hconf; [|reflexivity].
    destruct (StoredDelegation.isDisabled x) eqn:Hdis;
      [symmetry; apply setIsDisabled_id, Hdis|].
    exfalso. apply not_true_iff_false in He. apply He.
    apply existsb_exists. exists x. split.
    + apply filter_In. split; [exact Hx|]. rewrite Hdis. reflexivity.
    + rewrite Hconf, eqIgnoreCase_refl. reflexivity.
Qed.

Lemma setupBeneficiaries_Err (fw : Framework) (now : Z) (vaultAddress : string)
    (inputs : list BeneficiaryInput.t) (deadline : Z) (st st' : Store) (e : VaultError) :
  setupBeneficiaries fw now vaultAddress inputs deadline st = (Err e, st') ->
  st' = st /\ ((exists message, e = ValidationError message) \/ e = SigningError).
Proof.
  unfold setupBeneficiaries. intros H.
  destruct (thrownBy _); [simplify_eq; eauto|].
  destruct (validateEach fw inputs); [simplify_eq; eauto|].
  destruct (_ >? _); [simplify_eq; eauto|].
  destruct (createAll _ _ _ _ _ _) as [[bs sds]|]; [|simplify_eq; eauto].
  destruct (loadVaultData vaultAddress st); discriminate.
Qed.

Section CheckInFacts.
Variables (fw : Framework) (now recordedAt savedAt : Z).
Variables (params : CheckInParams.t) (st : Store).
Variable record : VaultStorage.t.
Hypothesis Hload : loadVaultData (CheckInParams.vault params) st = Some record.

Let vaultAddress := CheckInParams.vault params.
Let active := getActiveDelegations vaultAddress st.
Let disabled := disableAll fw now vaultAddress active (DisableState.mk st 0 []).
Let newDeadline :=
  getDeadlineFromPeriod now
    (periodOf (CheckInParams.newCheckInPeriodDays params) (VaultStorage.config record))
    (VaultConfig.checkInPeriodUnit (VaultStorage.config record)).
Let setup :=
  setupBeneficiaries fw now vaultAddress
    (map inputOfBeneficiary (CheckInParams.beneficiaries params)) newDeadline
    (DisableState.store disabled).

Lemma active_is_filter :
  active = List.filter (fun d => negb (StoredDelegation.isDisabled d))
             (VaultStorage.delegations record).
Proof. unfold active, getActiveDelegations, vaultAddress. rewrite Hload. reflexivity. Qed.

Lemma checkIn_no_active :
  active = [] -> checkIn fw now recordedAt savedAt params st = (Err NoActiveDelegationsError, st).
Proof.
  intros Hnone. unfold checkIn. rewrite Hload.
  fold vaultAddress. fold active. rewrite Hnone. reflexivity.
Qed.

(** With an active delegation the check-in goes through the loop and
    reaches the setup; what the setup answers decides the outcome, and
    on success the record read at the top is written back with the new
    deadline and the new history entry. *)
Lemma checkIn_active :
  active <> [] ->
  checkIn fw now recordedAt savedAt params st =
  match setup with
  | (Err e, st') => (Err e, st')
  | (Ok newBeneficiaries, st') =>
      let checkInRecord :=
        CheckInRecord.mk recordedAt
          (firstTxHash (DisableState.txHashes disabled))
          newDeadline (DisableState.disabledCount disabled)
          (Z.of_nat (length newBeneficiaries))
          (totalGasUsedOf fw (DisableState.txHashes disabled)) in
      (Ok checkInRecord,
       saveVaultData vaultAddress
         (VaultStorage.mk
            (checkedInConfig (VaultStorage.config record) recordedAt newDeadline
               (CheckInParams.newCheckInPeriodDays params))
            (VaultStorage.beneficiaries record) (VaultStorage.delegations record)
            (VaultStorage.checkIns record ++ [checkInRecord])%list savedAt) st')
  end.
Proof.
  intros Hsome. unfold checkIn. rewrite Hload.
  fold vaultAddress. fold active.
  destruct active as [|d rest] eqn:Ha; [congruence|].
  cbn [length Nat.eqb]. reflexivity.
Qed.

(** The store the setup runs on: the record of the top with the
    confirmed disables marked. *)
Lemma checkIn_store_before_setup :
  NoDup (map lowerHash (VaultStorage.delegations record)) ->
  exists lastUpdated,
    loadVaultData vaultAddress (DisableState.store disabled)
    = Some (setDelegations
              (map (fun x => if disableConfirmed fw x then setIsDisabled true x else x)
                   (VaultStorage.delegations record))
              lastUpdated record).
Proof.
  intros Hnd.
  destruct (disableAll_load fw now vaultAddress active (DisableState.mk st 0 []) record
              Hload Hnd) as [lu Hl].
  exists lu. fold disabled in Hl. rewrite Hl, active_is_filter, markedBy_active by exact Hnd.
  reflexivity.
Qed.
End CheckInFacts.

(** ** Check-in: the deadline (C4) *)

(** What a successful check-in leaves in the store: the record it read at
    the top, with the new deadline, the new period if one was given, and
    one more history entry. *)
Lemma checkIn_Ok_load (fw : Framework) (now recordedAt savedAt : Z)
    (params : CheckInParams.t) (st st' : Store)
    (record : VaultStorage.t) (checkInRecord : CheckInRecord.t) :
  loadVaultData (CheckInParams.vault params) st = Some record ->
  checkIn fw now recordedAt savedAt params st = (Ok checkInRecord, st') ->
  let newDeadline :=
    getDeadlineFromPeriod now
      (periodOf (CheckInParams.newCheckInPeriodDays params) (VaultStorage.config record))
      (VaultConfig.checkInPeriodUnit (VaultStorage.config record)) in
  CheckInRecord.newDeadline checkInRecord = newDeadline /\
  getActiveDelegations (CheckInParams.vault params) st <> [] /\
  loadVaultData (CheckInParams.vault params) st'
  = Some (VaultStorage.mk
            (checkedInConfig (VaultStorage.config record) recordedAt newDeadline
               (CheckInParams.newCheckInPeriodDays params))
            (VaultStorage.beneficiaries record) (VaultStorage.delegations record)
            (VaultStorage.checkIns record ++ [checkInRecord])%list savedAt).
Proof.
  intros Hload H newDeadline.
  destruct (getActiveDelegations (CheckInParams.vault params) st) as [|d0 rest] eqn:Hact.
  { rewrite (checkIn_no_active fw now recordedAt savedAt params st record Hload Hact) in H.
    discriminate. }
  rewrite (checkIn_active fw now recordedAt savedAt params st record Hload) in H
    by (rewrite Hact; discriminate).
  destruct (setupBeneficiaries _ _ _ _ _ _) as [[bs|e] st2]; [|discriminate].
  cbv zeta in H. injection H as <- <-.
  split; [reflexivity|]. split; [discriminate|]. apply load_save_same.
Qed.

Lemma checkedInConfig_period (config : VaultConfig.t) (lastCheckIn nextDeadline : Z)
    (newCheckInPeriodDays : option Z) :
  VaultConfig.checkInPeriod (checkedInConfig config lastCheckIn nextDeadline newCheckInPeriodDays)
  = periodOf newCheckInPeriodDays config.
Proof.
  unfold checkedInConfig, periodOf, orElse, truthy. cbn.
  destruct newCheckInPeriodDays as [p|]; [|reflexivity]. destruct (p =? 0); reflexivity.
Qed.

(** C4, as the code has it.  A successful check-in at time [now] stores
    [nextDeadline = now + period] (in seconds of the configured unit),
    where [period] is the new period when one is given and is not zero,
    and the configured period otherwise; that period is the configured one
    from then on.  A second successful check-in at a later time, with a
    period that is not smaller, again stores its own [now + period], which
    is not before the first deadline. *)
Theorem checkIn_deadline (fw1 : Framework) (now1 recordedAt1 savedAt1 : Z)
    (params1 : CheckInParams.t)
    (st st1 : Store) (record : VaultStorage.t) (checkIn1 : CheckInRecord.t) :
  loadVaultData (CheckInParams.vault params1) st = Some record ->
  checkIn fw1 now1 recordedAt1 savedAt1 params1 st = (Ok checkIn1, st1) ->
  let vaultAddress := CheckInParams.vault params1 in
  let unit := VaultConfig.checkInPeriodUnit (VaultStorage.config record) in
  let period1 :=
    periodOf (CheckInParams.newCheckInPeriodDays params1) (VaultStorage.config record) in
  exists record1,
    loadVaultData vaultAddress st1 = Some record1 /\
    VaultConfig.nextDeadline (VaultStorage.config record1) = now1 + period1 * unitSeconds unit /\
    CheckInRecord.newDeadline checkIn1 = now1 + period1 * unitSeconds unit /\
    VaultConfig.checkInPeriod (VaultStorage.config record1) = period1 /\
    VaultConfig.checkInPeriodUnit (VaultStorage.config record1) = unit /\
    forall fw2 now2 recordedAt2 savedAt2 params2 checkIn2 st2,
      CheckInParams.vault params2 = vaultAddress ->
      now1 <= now2 ->
      let period2 :=
        periodOf (CheckInParams.newCheckInPeriodDays params2)
          (VaultStorage.config record1) in
      period1 <= period2 ->
      checkIn fw2 now2 recordedAt2 savedAt2 params2 st1 = (Ok checkIn2, st2) ->
      (exists record2,
         loadVaultData vaultAddress st2 = Some record2 /\
         VaultConfig.nextDeadline (VaultStorage.config record2)
           = now2 + period2 * unitSeconds unit) /\
      CheckInRecord.newDeadline checkIn2 = now2 + period2 * unitSeconds unit /\
      CheckInRecord.newDeadline checkIn1 <= CheckInRecord.newDeadline checkIn2.
Proof.
  intros Hload H1 vaultAddress unit period1. subst vaultAddress.
  destruct (checkIn_Ok_load _ _ _ _ _ _ _ _ _ Hload H1) as (Hd1 & _ & Hl1).
  rewrite getDeadlineFromPeriod_unitSeconds in Hd1, Hl1.
  eexists. split; [exact Hl1|].
  split; [reflexivity|]. split; [exact Hd1|].
  split; [apply checkedInConfig_period|]. split; [reflexivity|].
  intros fw2 now2 recordedAt2 savedAt2 params2 checkIn2 st2 Hv Hnow period2 Hperiod H2.
  rewrite <- Hv in Hl1.
  destruct (checkIn_Ok_load _ _ _ _ _ _ _ _ _ Hl1 H2) as (Hd2 & _ & Hl2).
  rewrite getDeadlineFromPeriod_unitSeconds in Hd2, Hl2.
  rewrite Hv in Hl2.
  split; [eexists; split; [exact Hl2|reflexivity]|].
  split; [exact Hd2|].
  rewrite Hd1, Hd2. cbn [VaultStorage.config checkedInConfig VaultConfig.checkInPeriodUnit].
  fold unit.
  assert (0 <= unitSeconds unit) by (destruct unit; cbn; lia).
  apply Z.add_le_mono; [exact Hnow|].
  apply Z.mul_le_mono_nonneg_r; assumption.
Qed.

Lemma checkIn_deadline_witness :
  let first := checkIn (Sample.fw 100) 1100 1100 1100 (Sample.checkInWith None) Sample.funded in
  let second := checkIn (Sample.fw 100) 1200 1200 1200 (Sample.checkInWith None) (snd first) in
  CheckInRecord.newDeadline (Sample.recordOf (fst first)) = 1100 + 5 * 60 /\
  CheckInRecord.newDeadline (Sample.recordOf (fst second)) = 1200 + 5 * 60 /\
  CheckInRecord.newDeadline (Sample.recordOf (fst first))
    <= CheckInRecord.newDeadline (Sample.recordOf (fst second)).
Proof.
  intros first second.
  destruct (checkIn_deadline (Sample.fw 100) 1100 1100 1100 (Sample.checkInWith None)
              Sample.funded (snd first) Sample.fundedRecord (Sample.recordOf (fst first)))
    as (record1 & Hl1 & _ & Hd1 & _ & _ & Hnext);
    [exact sample_funded_load | vm_compute; reflexivity |].
  vm_compute in Hl1. injection Hl1 as <-.
  destruct (Hnext (Sample.fw 100) 1200 1200 1200 (Sample.checkInWith None)
              (Sample.recordOf (fst second)) (snd second))
    as (_ & Hd2 & Hmono);
    [reflexivity | lia | vm_compute; discriminate | vm_compute; reflexivity |].
  split; [exact Hd1|]. split; [exact Hd2 | exact Hmono].
Defined.

(** The claim as first worded fails on two counts.  A check-in that
    shortens the period can bring the deadline forward: ten minutes at
    second 1100 give 1700, five minutes at second 1101 give 1401.  And a
    new period of 0 is not used: the configured five minutes are. *)
Lemma checkIn_deadline_can_move_back :
  ~ (forall fw1 now1 recordedAt1 savedAt1 params1 fw2 now2 recordedAt2 savedAt2 params2
            st checkIn1 st1 checkIn2 st2,
       CheckInParams.vault params2 = CheckInParams.vault params1 ->
       now1 <= now2 ->
       checkIn fw1 now1 recordedAt1 savedAt1 params1 st = (Ok checkIn1, st1) ->
       checkIn fw2 now2 recordedAt2 savedAt2 params2 st1 = (Ok checkIn2, st2) ->
       CheckInRecord.newDeadline checkIn1 <= CheckInRecord.newDeadline checkIn2) /\
  ~ (forall fw now recordedAt savedAt params st checkInRecord st' newPeriod,
       CheckInParams.newCheckInPeriodDays params = Some newPeriod ->
       checkIn fw now recordedAt savedAt params st = (Ok checkInRecord, st') ->
       CheckInRecord.newDeadline checkInRecord = now + newPeriod * 60).
Proof.
  split; intros H.
  - pose (first := checkIn (Sample.fw 100) 1100 1100 1100 (Sample.checkInWith (Some 10))
                     Sample.funded).
    pose (second := checkIn (Sample.fw 100) 1101 1101 1101 (Sample.checkInWith (Some 5))
                      (snd first)).
    specialize (H (Sample.fw 100) 1100 1100 1100 (Sample.checkInWith (Some 10))
                  (Sample.fw 100) 1101 1101 1101 (Sample.checkInWith (Some 5)) Sample.funded
                  (Sample.recordOf (fst first)) (snd first)
                  (Sample.recordOf (fst second)) (snd second)
                  eq_refl ltac:(lia)).
    assert (H1 : checkIn (Sample.fw 100) 1100 1100 1100 (Sample.checkInWith (Some 10))
                   Sample.funded
                 = (Ok (Sample.recordOf (fst first)), snd first)) by (vm_compute; reflexivity).
    assert (H2 : checkIn (Sample.fw 100) 1101 1101 1101 (Sample.checkInWith (Some 5))
                   (snd first)
                 = (Ok (Sample.recordOf (fst second)), snd second)) by (vm_compute; reflexivity).
    specialize (H H1 H2). vm_compute in H. apply H. reflexivity.
  - pose (out := checkIn (Sample.fw 100) 1100 1100 1100 (Sample.checkInWith (Some 0))
                   Sample.funded).
    specialize (H (Sample.fw 100) 1100 1100 1100 (Sample.checkInWith (Some 0)) Sample.funded
                  (Sample.recordOf (fst out)) (snd out) 0 eq_refl).
    assert (H1 : checkIn (Sample.fw 100) 1100 1100 1100 (Sample.checkInWith (Some 0))
                   Sample.funded
                 = (Ok (Sample.recordOf (fst out)), snd out)) by (vm_compute; reflexivity).
    specialize (H H1). vm_compute in H. discriminate H.
Qed.

(** ** Check-in: what can make it fail (C6) *)

(** C6, as the code has it.  On a stored vault whose stored delegations
    have pairwise different hashes:
    - the check-in fails with [NoActiveDelegationsError] exactly when no
      stored delegation is active, and then the store is untouched;
    - with an active delegation, a disable that fails stops nothing: every
      active delegation whose own disable transaction is confirmed is
      marked disabled in the store on which the beneficiaries are then set
      up again, and the check-in succeeds or fails as that setup does, with
      the setup's error (a validation or signing error). *)
Theorem checkIn_failure_modes (fw : Framework) (now recordedAt savedAt : Z)
    (params : CheckInParams.t) (st : Store) (record : VaultStorage.t) :
  loadVaultData (CheckInParams.vault params) st = Some record ->
  NoDup (map lowerHash (VaultStorage.delegations record)) ->
  let vaultAddress := CheckInParams.vault params in
  let active := getActiveDelegations vaultAddress st in
  let disabled := disableAll fw now vaultAddress active (DisableState.mk st 0 []) in
  let setup :=
    setupBeneficiaries fw now vaultAddress
      (map inputOfBeneficiary (CheckInParams.beneficiaries params))
      (getDeadlineFromPeriod now
         (periodOf (CheckInParams.newCheckInPeriodDays params) (VaultStorage.config record))
         (VaultConfig.checkInPeriodUnit (VaultStorage.config record)))
      (DisableState.store disabled) in
  (active = [] <->
   fst (checkIn fw now recordedAt savedAt params st) = Err NoActiveDelegationsError) /\
  (active = [] -> snd (checkIn fw now recordedAt savedAt params st) = st) /\
  (active <> [] ->
     (exists marked,
        loadVaultData vaultAddress (DisableState.store disabled) = Some marked /\
        forall d, In d active -> disableConfirmed fw d = true ->
                  In (setIsDisabled true d) (VaultStorage.delegations marked)) /\
     isOk (fst (checkIn fw now recordedAt savedAt params st)) = isOk (fst setup) /\
     (forall e, fst (checkIn fw now recordedAt savedAt params st) = Err e ->
                fst setup = Err e /\
                ((exists message, e = ValidationError message) \/ e = SigningError))).
Proof.
  intros Hload Hnd vaultAddress active disabled setup.
  pose proof (checkIn_active fw now recordedAt savedAt params st record Hload) as Hact.
  cbv zeta in Hact. fold vaultAddress active disabled in Hact. fold setup in Hact.
  split; [|split].
  - split.
    + intros Hnone.
      rewrite (checkIn_no_active fw now recordedAt savedAt params st record Hload Hnone).
      reflexivity.
    + intros Herr. destruct active as [|d0 rest] eqn:Ha; [reflexivity|exfalso].
      rewrite Hact in Herr by discriminate.
      destruct setup as [[bs|e] st2] eqn:Hs; [discriminate|].
      cbn in Herr. injection Herr as ->.
      apply setupBeneficiaries_Err in Hs as (_ & [[m Hm]|Hm]); discriminate.
  - intros Hnone.
    rewrite (checkIn_no_active fw now recordedAt savedAt params st record Hload Hnone).
    reflexivity.
  - intros Hsome. split; [|split].
    + destruct (checkIn_store_before_setup fw now params st record Hload Hnd) as [lu Hl].
      eexists. split; [exact Hl|].
      intros d Hd Hconf. cbn [setDelegations VaultStorage.delegations].
      unfold active, vaultAddress in Hd.
      rewrite (active_is_filter params st record Hload) in Hd.
      apply filter_In in Hd as [Hd _].
      apply (in_map (fun x => if disableConfirmed fw x then setIsDisabled true x else x)) in Hd.
      rewrite Hconf in Hd. exact Hd.
    + rewrite Hact by exact Hsome. destruct setup as [[bs|e] st2]; reflexivity.
    + intros e He. rewrite Hact in He by exact Hsome.
      destruct setup as [[bs|e'] st2] eqn:Hs; [discriminate|].
      cbn in He. injection He as ->. split; [reflexivity|].
      apply setupBeneficiaries_Err in Hs. tauto.
Qed.

Lemma sample_funded_NoDup :
  NoDup (map lowerHash (VaultStorage.delegations Sample.fundedRecord)).
Proof. apply (bool_decide_unpack (NoDup _)). vm_compute. reflexivity. Qed.

Lemma checkIn_failure_modes_witness :
  fst (checkIn (Sample.fw 100) 1100 1100 1100 (Sample.checkInWith None)
         Sample.afterFailedCheckIn)
    = Err NoActiveDelegationsError /\
  snd (checkIn (Sample.fw 100) 1100 1100 1100 (Sample.checkInWith None)
         Sample.afterFailedCheckIn)
    = Sample.afterFailedCheckIn /\
  isOk (fst (checkIn (Sample.fw 100) 1100 1100 1100 (Sample.checkInWith None)
               Sample.funded)) = true.
Proof.
  pose (stuck := match loadVaultData Sample.vault Sample.afterFailedCheckIn with
                 | Some r => r | None => Sample.fundedRecord end).
  destruct (checkIn_failure_modes (Sample.fw 100) 1100 1100 1100 (Sample.checkInWith None)
              Sample.afterFailedCheckIn stuck) as (Hiff & Hsame & _);
    [vm_compute; reflexivity
    | apply (bool_decide_unpack (NoDup _)); vm_compute; reflexivity |].
  destruct (checkIn_failure_modes (Sample.fw 100) 1100 1100 1100 (Sample.checkInWith None)
              Sample.funded Sample.fundedRecord sample_funded_load sample_funded_NoDup)
    as (_ & _ & Hactive).
  split; [apply Hiff; vm_compute; reflexivity|].
  split; [apply Hsame; vm_compute; reflexivity|].
  destruct Hactive as (_ & Hok & _); [vm_compute; discriminate|].
  rewrite Hok. vm_compute. reflexivity.
Defined.

(** The claim as first worded fails: a check-in can fail although active
    delegations exist.  Bob has claimed his 40 wei, the vault holds 60, the
    stored allocations still add up to 100: the owner's check-in disables
    the two delegations, then the setup refuses. *)
Lemma checkIn_fails_with_active_delegations :
  ~ (forall fw now recordedAt savedAt params st record,
       loadVaultData (CheckInParams.vault params) st = Some record ->
       (isOk (fst (checkIn fw now recordedAt savedAt params st)) = false <->
        getActiveDelegations (CheckInParams.vault params) st = [])).
Proof.
  intros H.
  destruct (H (Sample.fw 60) 1401 1401 1401
              (CheckInParams.mk Sample.vault
                 (VaultStorage.beneficiaries Sample.afterBobClaimRecord) None)
              Sample.afterBobClaim Sample.afterBobClaimRecord
              ltac:(vm_compute; reflexivity)) as [Hfail _].
  assert (Hempty : getActiveDelegations Sample.vault Sample.afterBobClaim = [])
    by (apply Hfail; vm_compute; reflexivity).
  vm_compute in Hempty. discriminate Hempty.
Qed.

(** ** Stored delegations across setup and check-in (C2, C10) *)

(** After a successful setup on a stored vault the stored delegations are
    the ones just built: one per beneficiary of the call, not disabled,
    with the deadline of the call. *)
Lemma setupBeneficiaries_delegations (fw : Framework) (now : Z) (vaultAddress : string)
    (inputs : list BeneficiaryInput.t) (deadline : Z) (st st' : Store)
    (bs : list Beneficiary.t) (record : VaultStorage.t) :
  loadVaultData vaultAddress st = Some record ->
  setupBeneficiaries fw now vaultAddress inputs deadline st = (Ok bs, st') ->
  exists record',
    loadVaultData vaultAddress st' = Some record' /\
    VaultStorage.config record' = VaultStorage.config record /\
    VaultStorage.checkIns record' = VaultStorage.checkIns record /\
    map StoredDelegation.beneficiaryAddress (VaultStorage.delegations record')
      = map BeneficiaryInput.address inputs /\
    Forall (fun d => StoredDelegation.isDisabled d = false /\
                     StoredDelegation.deadline d = deadline /\
                     StoredDelegation.createdAt d = now /\
                     Delegation.from (StoredDelegation.delegation d) = vaultAddress)
           (VaultStorage.delegations record').
Proof.
  intros Hload H.
  destruct (setupBeneficiaries_stored _ _ _ _ _ _ _ _ _ Hload H) as (sds & Hc & _ & Hl).
  apply createAll_Some in Hc as (_ & _ & Haddr & Hall).
  eexists. split; [exact Hl|]. repeat split; assumption.
Qed.

(** C2, as the code has it.  During a check-in on a stored vault (stored
    hashes pairwise different) the disabling loop only flips flags: the
    store on which the new delegations are then created holds every
    delegation of the old epoch, those whose disable transaction was
    confirmed marked disabled.  A successful [setupBeneficiaries], in a
    check-in or on its own, does not append to that list: it stores the
    delegations it has just created, one per beneficiary of the call, in
    place of the list that was there. *)
Theorem checkIn_marks_then_setup_replaces (fw : Framework) (now : Z)
    (params : CheckInParams.t) (st : Store) (record : VaultStorage.t) :
  loadVaultData (CheckInParams.vault params) st = Some record ->
  NoDup (map lowerHash (VaultStorage.delegations record)) ->
  let vaultAddress := CheckInParams.vault params in
  let disabled :=
    disableAll fw now vaultAddress (getActiveDelegations vaultAddress st)
      (DisableState.mk st 0 []) in
  (exists marked,
     loadVaultData vaultAddress (DisableState.store disabled) = Some marked /\
     VaultStorage.delegations marked
       = map (fun d => if disableConfirmed fw d then setIsDisabled true d else d)
             (VaultStorage.delegations record) /\
     length (VaultStorage.delegations marked) = length (VaultStorage.delegations record) /\
     forall inputs deadline bs st',
       setupBeneficiaries fw now vaultAddress inputs deadline (DisableState.store disabled)
         = (Ok bs, st') ->
       exists renewed,
         loadVaultData vaultAddress st' = Some renewed /\
         length (VaultStorage.delegations renewed) = length inputs /\
         Forall (fun d => StoredDelegation.isDisabled d = false /\
                          StoredDelegation.deadline d = deadline /\
                          StoredDelegation.createdAt d = now)
                (VaultStorage.delegations renewed)) /\
  (forall fw' now' inputs deadline bs st',
     setupBeneficiaries fw' now' vaultAddress inputs deadline st = (Ok bs, st') ->
     exists renewed,
       loadVaultData vaultAddress st' = Some renewed /\
       length (VaultStorage.delegations renewed) = length inputs /\
       map StoredDelegation.beneficiaryAddress (VaultStorage.delegations renewed)
         = map BeneficiaryInput.address inputs /\
       Forall (fun d => StoredDelegation.isDisabled d = false /\
                        StoredDelegation.deadline d = deadline /\
                        StoredDelegation.createdAt d = now')
              (VaultStorage.delegations renewed)).
Proof.
  intros Hload Hnd vaultAddress disabled.
  assert (Hrenew : forall fw' now' inputs deadline bs st0 st' r0,
    loadVaultData vaultAddress st0 = Some r0 ->
    setupBeneficiaries fw' now' vaultAddress inputs deadline st0 = (Ok bs, st') ->
    exists renewed,
      loadVaultData vaultAddress st' = Some renewed /\
      length (VaultStorage.delegations renewed) = length inputs /\
      map StoredDelegation.beneficiaryAddress (VaultStorage.delegations renewed)
        = map BeneficiaryInput.address inputs /\
      Forall (fun d => StoredDelegation.isDisabled d = false /\
                       StoredDelegation.deadline d = deadline /\
                       StoredDelegation.createdAt d = now')
             (VaultStorage.delegations renewed)).
  { intros fw' now' inputs deadline bs st0 st' r0 Hl0 Hs.
    destruct (setupBeneficiaries_delegations _ _ _ _ _ _ _ _ _ Hl0 Hs)
      as (renewed & Hl & _ & _ & Haddr & Hall).
    exists renewed. split; [exact Hl|]. split; [|split; [exact Haddr|]].
    - rewrite <- (length_map StoredDelegation.beneficiaryAddress), Haddr.
      apply length_map.
    - eapply List.Forall_impl; [|exact Hall]. cbn. tauto. }
  split.
  - destruct (checkIn_store_before_setup fw now params st record Hload Hnd) as [lu Hl].
    eexists. split; [exact Hl|]. split; [reflexivity|].
    split; [cbn; apply length_map|].
    intros inputs deadline bs st' Hs.
    destruct (Hrenew _ _ _ _ _ _ _ _ Hl Hs) as (renewed & H1 & H2 & _ & H4).
    exists renewed. tauto.
  - intros fw' now' inputs deadline bs st' Hs. exact (Hrenew _ _ _ _ _ _ _ _ Hload Hs).
Qed.

Lemma checkIn_marks_then_setup_replaces_witness :
  let mid :=
    DisableState.store
      (disableAll (Sample.fw 100) 1100 Sample.vault
         (getActiveDelegations Sample.vault Sample.funded)
         (DisableState.mk Sample.funded 0 [])) in
  (exists marked,
     loadVaultData Sample.vault mid = Some marked /\
     map StoredDelegation.isDisabled (VaultStorage.delegations marked) = [true; true]) /\
  (exists renewed,
     loadVaultData Sample.vault
       (snd (setupBeneficiaries (Sample.fw 100) 1100 Sample.vault [Sample.dave] 1400 mid))
       = Some renewed /\
     length (VaultStorage.delegations renewed) = 1%nat).
Proof.
  intros mid.
  destruct (checkIn_marks_then_setup_replaces (Sample.fw 100) 1100
              (Sample.checkInWith None) Sample.funded Sample.fundedRecord
              sample_funded_load sample_funded_NoDup)
    as ((marked & Hl & Hmarked & _ & Hrenew) & _).
  split.
  - exists marked. split; [exact Hl|]. rewrite Hmarked. vm_compute. reflexivity.
  - destruct (Hrenew [Sample.dave] 1400
                (match fst (setupBeneficiaries (Sample.fw 100) 1100 Sample.vault
                              [Sample.dave] 1400 mid) with Ok bs => bs | Err _ => [] end)
                (snd (setupBeneficiaries (Sample.fw 100) 1100 Sample.vault
                        [Sample.dave] 1400 mid)))
      as (renewed & Hl' & Hlen & _); [vm_compute; reflexivity|].
    exists renewed. split; [exact Hl'|exact Hlen].
Defined.

(** The claim as first worded fails: the stored list is no append-only
    history.  Setting up Dave alone on the vault of Bob and Carol leaves a
    single stored delegation; Bob's and Carol's records are gone. *)
Lemma delegations_not_append_only :
  ~ (forall fw now vaultAddress inputs deadline st bs st' record record',
       loadVaultData vaultAddress st = Some record ->
       setupBeneficiaries fw now vaultAddress inputs deadline st = (Ok bs, st') ->
       loadVaultData vaultAddress st' = Some record' ->
       forall d, In d (VaultStorage.delegations record) ->
         exists d', In d' (VaultStorage.delegations record') /\ lowerHash d' = lowerHash d).
Proof.
  intros H.
  pose (out := setupBeneficiaries (Sample.fw 100) 1200 Sample.vault [Sample.dave] 1300
                 Sample.funded).
  pose (record' := match loadVaultData Sample.vault (snd out) with
                   | Some r => r | None => Sample.fundedRecord end).
  destruct (H (Sample.fw 100) 1200 Sample.vault [Sample.dave] 1300 Sample.funded
              (match fst out with Ok bs => bs | Err _ => [] end) (snd out)
              Sample.fundedRecord record' sample_funded_load
              ltac:(vm_compute; reflexivity) ltac:(vm_compute; reflexivity)
              Sample.bobDelegation ltac:(vm_compute; tauto))
    as (d' & Hin & Hhash).
  vm_compute in Hin. destruct Hin as [<-|[]]. vm_compute in Hhash. discriminate Hhash.
Qed.

(** C10, at a concrete input.  The vault of Bob and Carol, first deadline
    1300; the owner checks in at second 1100, both disables are confirmed,
    two new delegations are created for the deadline 1400 and the check-in
    succeeds.  The record left in the store has the new deadline in its
    configuration, but its delegations are the two of the first epoch,
    deadline 1300, not marked disabled: the record read when the check-in
    began is what is saved when it ends. *)
Theorem checkIn_leaves_previous_epoch :
  let out := checkIn (Sample.fw 100) 1100 1100 1100 (Sample.checkInWith None) Sample.funded in
  option_map (fun r => (CheckInRecord.newDeadline r, CheckInRecord.disabledDelegationCount r,
                        CheckInRecord.createdDelegationCount r))
    (match fst out with Ok r => Some r | Err _ => None end) = Some (1400, 2, 2) /\
  option_map (fun r => VaultConfig.nextDeadline (VaultStorage.config r))
    (loadVaultData Sample.vault (snd out)) = Some 1400 /\
  option_map (fun r => map (fun d => (StoredDelegation.deadline d, StoredDelegation.createdAt d,
                                      StoredDelegation.isDisabled d))
                           (VaultStorage.delegations r))
    (loadVaultData Sample.vault (snd out)) = Some [(1300, 1001, false); (1300, 1001, false)] /\
  option_map VaultStorage.delegations (loadVaultData Sample.vault (snd out))
    = Some (VaultStorage.delegations Sample.fundedRecord).
Proof. vm_compute. repeat split; reflexivity. Qed.

(** ** The composed validator (C9) *)

(** The composed validator is valid exactly when its five checks are:
    owner address, period, minimum balance, allocations, duplicates. *)
Lemma validateVaultSetup_isValid (isAddress : string -> bool) (ownerAddress : string)
    (beneficiaries : list Beneficiary.t) (vaultBalance : Z) (period : JSNumber)
    (unit : PeriodUnit) :
  ValidationResult.isValid
    (validateVaultSetup isAddress ownerAddress beneficiaries vaultBalance period unit)
  = ValidationResult.isValid (validateAddress isAddress ownerAddress)
    && ValidationResult.isValid (validateCheckInPeriod period unit)
    && ValidationResult.isValid (validateVaultBalance vaultBalance)
    && ValidationResult.isValid (validateBeneficiaryAllocations beneficiaries vaultBalance)
    && ValidationResult.isValid
         (validateNoDuplicates (map Beneficiary.address beneficiaries)).
Proof.
  unfold validateVaultSetup.
  destruct (ValidationResult.isValid (validateAddress isAddress ownerAddress)) eqn:H1;
    cbn [negb andb]; [|exact H1].
  destruct (ValidationResult.isValid (validateCheckInPeriod period unit)) eqn:H2;
    cbn [negb andb]; [|exact H2].
  destruct (ValidationResult.isValid (validateVaultBalance vaultBalance)) eqn:H3;
    cbn [negb andb]; [|exact H3].
  destruct (ValidationResult.isValid
              (validateBeneficiaryAllocations beneficiaries vaultBalance)) eqn:H4;
    cbn [negb andb]; [|exact H4].
  destruct (ValidationResult.isValid
              (validateNoDuplicates (map Beneficiary.address beneficiaries))) eqn:H5;
    cbn [negb andb]; [reflexivity|exact H5].
Qed.

(** The order of the five checks: the first one that fails is the answer,
    later ones are not consulted; when all pass, the warnings of the
    period check and of the allocation check are put together. *)
Lemma validateVaultSetup_order (isAddress : string -> bool) (ownerAddress : string)
    (beneficiaries : list Beneficiary.t) (vaultBalance : Z) (period : JSNumber)
    (unit : PeriodUnit) :
  let owner := validateAddress isAddress ownerAddress in
  let periodCheck := validateCheckInPeriod period unit in
  let balance := validateVaultBalance vaultBalance in
  let allocations := validateBeneficiaryAllocations beneficiaries vaultBalance in
  let duplicates := validateNoDuplicates (map Beneficiary.address beneficiaries) in
  let result :=
    validateVaultSetup isAddress ownerAddress beneficiaries vaultBalance period unit in
  (ValidationResult.isValid owner = false -> result = owner) /\
  (ValidationResult.isValid owner = true ->
   ValidationResult.isValid periodCheck = false -> result = periodCheck) /\
  (ValidationResult.isValid owner = true ->
   ValidationResult.isValid periodCheck = true ->
   ValidationResult.isValid balance = false -> result = balance) /\
  (ValidationResult.isValid owner = true ->
   ValidationResult.isValid periodCheck = true ->
   ValidationResult.isValid balance = true ->
   ValidationResult.isValid allocations = false -> result = allocations) /\
  (ValidationResult.isValid owner = true ->
   ValidationResult.isValid periodCheck = true ->
   ValidationResult.isValid balance = true ->
   ValidationResult.isValid allocations = true ->
   ValidationResult.isValid duplicates = false -> result = duplicates) /\
  (ValidationResult.isValid owner = true ->
   ValidationResult.isValid periodCheck = true ->
   ValidationResult.isValid balance = true ->
   ValidationResult.isValid allocations = true ->
   ValidationResult.isValid duplicates = true ->
   result = ValidationResult.mk true None
              (someWarnings
                 (warningsOrEmpty (ValidationResult.warnings periodCheck) ++
                  warningsOrEmpty (ValidationResult.warnings allocations))%list)).
Proof.
  cbv zeta. unfold validateVaultSetup.
  repeat split; intros; repeat match goal with H : _ = _ |- _ => rewrite H; clear H end;
    reflexivity.
Qed.

Lemma validateBeneficiaryAllocations_isValid (beneficiaries : list Beneficiary.t)
    (vaultBalance : Z) :
  ValidationResult.isValid (validateBeneficiaryAllocations beneficiaries vaultBalance)
  = negb (length beneficiaries =? 0)%nat
    && negb (10 <? length beneficiaries)%nat
    && negb (totalAllocationOf beneficiaries >? vaultBalance)
    && forallb (fun b => negb (Beneficiary.allocation b <=? 0)) beneficiaries.
Proof.
  unfold validateBeneficiaryAllocations.
  destruct (length beneficiaries =? 0)%nat; [reflexivity|].
  destruct (10 <? length beneficiaries)%nat; [reflexivity|].
  destruct (totalAllocationOf beneficiaries >? vaultBalance); [reflexivity|].
  cbn [negb andb].
  induction beneficiaries as [|b bs IH]; [reflexivity|].
  cbn [List.find forallb]. destruct (Beneficiary.allocation b <=? 0); [reflexivity|].
  cbn [negb andb]. rewrite <- IH. destruct (List.find _ bs); reflexivity.
Qed.

Lemma totalAllocationOf_renamed (rename : Beneficiary.t -> string)
    (beneficiaries : list Beneficiary.t) :
  totalAllocationOf (map (fun b => withName (rename b) b) beneficiaries)
  = totalAllocationOf beneficiaries.
Proof.
  unfold totalAllocationOf. generalize 0.
  induction beneficiaries as [|b bs IH]; intros acc; [reflexivity|].
  cbn [map fold_left withName Beneficiary.allocation]. apply IH.
Qed.

(** Names play no part in the verdict of the composed validator:
    renaming the beneficiaries at will leaves it as it was. *)
Lemma validateVaultSetup_name_blind (isAddress : string -> bool) (ownerAddress : string)
    (beneficiaries : list Beneficiary.t) (vaultBalance : Z) (period : JSNumber)
    (unit : PeriodUnit)
    (rename : Beneficiary.t -> string) :
  ValidationResult.isValid
    (validateVaultSetup isAddress ownerAddress
       (map (fun b => withName (rename b) b) beneficiaries) vaultBalance period unit)
  = ValidationResult.isValid
      (validateVaultSetup isAddress ownerAddress beneficiaries vaultBalance period unit).
Proof.
  rewrite !validateVaultSetup_isValid, !validateBeneficiaryAllocations_isValid.
  rewrite totalAllocationOf_renamed, length_map, map_map.
  assert (Hall : forallb (fun b => negb (Beneficiary.allocation b <=? 0))
                   (map (fun b => withName (rename b) b) beneficiaries)
                 = forallb (fun b => negb (Beneficiary.allocation b <=? 0)) beneficiaries).
  { induction beneficiaries as [|b bs IH]; [reflexivity|].
    cbn [map forallb withName Beneficiary.allocation]. rewrite IH. reflexivity. }
  rewrite Hall. reflexivity.
Qed.

(** C9, at concrete inputs.  [validateBeneficiaryName] turns down the
    empty name and a name of 58 characters, and [setupBeneficiaries]
    refuses a beneficiary so named; [validateVaultSetup], given a vault of
    1 MON, a 30-day period and that beneficiary, answers valid: it never
    looks at the names. *)
Theorem validateVaultSetup_accepts_bad_names :
  ValidationResult.error (validateBeneficiaryName "") = Some NameEmpty /\
  ValidationResult.error (validateBeneficiaryName Sample.longName) = Some NameTooLong /\
  fst (setupBeneficiaries (Sample.fw 100) 1001 Sample.vault
         [BeneficiaryInput.mk "0xB0B" "" 40 None] 1300 Sample.created)
    = Err (ValidationError NameEmpty) /\
  validateVaultSetup (fun _ => true) "0xOwner" [Sample.nameless]
    1000000000000000000 (Num 30) DAYS = valid /\
  validateVaultSetup (fun _ => true) "0xOwner" [Sample.longNamed]
    1000000000000000000 (Num 30) DAYS = valid.
Proof. vm_compute. repeat split; reflexivity. Qed.


(* ===================================================================== *)
(** * Further properties of the code *)
(* ===================================================================== *)

(** ** Validators ([validation.ts]) *)

Lemma noDuplicatesFrom_spec (seen : gset string) (addresses : list string) :
  ValidationResult.isValid (noDuplicatesFrom seen addresses) = true <->
  NoDup (map toLowerCase addresses) /\
  forall a, In a (map toLowerCase addresses) -> a ∉ seen.
Proof.
  revert seen. induction addresses as [|a rest IH]; intros seen; cbn [noDuplicatesFrom map].
  - split; [intros _; split; [constructor | intros ? []] | reflexivity].
  - case_decide as Hin.
    + split; [discriminate|]. intros [_ Hout]. exfalso.
      apply (Hout (toLowerCase a)); [left; reflexivity | exact Hin].
    + rewrite IH. split.
      * intros [Hnd Hout]. split.
        -- constructor; [|exact Hnd]. intros Hmem. apply list_elem_of_In in Hmem.
           apply (Hout _ Hmem). set_solver.
        -- intros x [<-|Hx]; [exact Hin|]. specialize (Hout x Hx). set_solver.
      * intros [Hnd Hout]. inversion Hnd as [|? ? Hnotin Hnd']; subst. split; [exact Hnd'|].
        intros x Hx Hmem. apply elem_of_union in Hmem as [Hmem|Hmem].
        -- apply elem_of_singleton in Hmem. subst x. apply Hnotin, list_elem_of_In, Hx.
        -- apply (Hout x); [right; exact Hx | exact Hmem].
Qed.

Lemma noDuplicatesFrom_reports (seen : gset string) (addresses : list string) :
  ValidationResult.isValid (noDuplicatesFrom seen addresses) = false ->
  exists before a after,
    addresses = (before ++ a :: after)%list /\
    noDuplicatesFrom seen addresses = invalid (DuplicateAddress a) /\
    NoDup (map toLowerCase before) /\
    (forall x, In x (map toLowerCase before) -> x ∉ seen) /\
    (toLowerCase a ∈ seen \/ In (toLowerCase a) (map toLowerCase before)).
Proof.
  revert seen. induction addresses as [|a rest IH]; intros seen; cbn [noDuplicatesFrom].
  - discriminate.
  - case_decide as Hin.
    + intros _. exists [], a, rest.
      repeat split; [constructor | intros ? [] | left; exact Hin].
    + intros H. destruct (IH _ H) as (before & b & after & -> & Hr & Hnd & Hout & Hwhere).
      exists (a :: before), b, after. split; [reflexivity|]. split; [exact Hr|].
      split; [|split].
      * cbn [map]. constructor; [|exact Hnd]. intros Hmem. apply list_elem_of_In in Hmem.
        apply (Hout _ Hmem). set_solver.
      * intros x [<-|Hx]; [exact Hin|]. specialize (Hout x Hx). set_solver.
      * destruct Hwhere as [Hs|Hb].
        -- apply elem_of_union in Hs as [Hs|Hs].
           ++ apply elem_of_singleton in Hs. right. left. symmetry. exact Hs.
           ++ left. exact Hs.
        -- right. right. exact Hb.
Qed.

Lemma validateNoDuplicates_isValid (addresses : list string) :
  ValidationResult.isValid (validateNoDuplicates addresses) = true <->
  NoDup (map toLowerCase addresses).
Proof.
  unfold validateNoDuplicates. rewrite noDuplicatesFrom_spec. split; [tauto|].
  intros H. split; [exact H|]. intros a _. set_solver.
Qed.

(** X1.  [validateNoDuplicates] accepts a list exactly when its addresses are
    pairwise different once lower-cased; when it refuses, the address it
    names is the first one that repeats an earlier one. *)
Theorem validateNoDuplicates_spec (addresses : list string) :
  (ValidationResult.isValid (validateNoDuplicates addresses) = true <->
   NoDup (map toLowerCase addresses)) /\
  (ValidationResult.isValid (validateNoDuplicates addresses) = false ->
   exists before a after,
     addresses = (before ++ a :: after)%list /\
     validateNoDuplicates addresses = invalid (DuplicateAddress a) /\
     NoDup (map toLowerCase before) /\
     In (toLowerCase a) (map toLowerCase before)).
Proof.
  unfold validateNoDuplicates. split.
  - rewrite noDuplicatesFrom_spec. split; [tauto|]. intros H. split; [exact H|].
    intros a _. set_solver.
  - intros H.
    destruct (noDuplicatesFrom_reports _ _ H) as (b & a & af & He & Hr & Hnd & _ & Hw).
    exists b, a, af. repeat split; try assumption.
    destruct Hw as [Hs|Hb]; [set_solver | exact Hb].
Qed.

Lemma validateNoDuplicates_spec_witness :
  NoDup (map toLowerCase ["0xAbC"; "0xdef"]) /\
  exists before a after,
    ["0xAbC"; "0xdef"; "0xABC"] = (before ++ a :: after)%list /\
    validateNoDuplicates ["0xAbC"; "0xdef"; "0xABC"] = invalid (DuplicateAddress a) /\
    In (toLowerCase a) (map toLowerCase before).
Proof.
  split.
  - apply (proj1 (validateNoDuplicates_spec ["0xAbC"; "0xdef"])). vm_compute. reflexivity.
  - destruct (validateNoDuplicates_spec ["0xAbC"; "0xdef"; "0xABC"]) as [_ H].
    destruct H as (before & a & after & He & Hr & _ & Hin); [vm_compute; reflexivity|].
    exists before, a, after. repeat split; assumption.
Defined.

Lemma totalMinutes_Num (period : Z) (unit : PeriodUnit) :
  match unit with
  | MINUTES => Num period
  | HOURS => Number_mul (Num period) 60
  | DAYS => Number_mul (Number_mul (Num period) 24) 60
  | WEEKS => Number_mul (Number_mul (Number_mul (Num period) 7) 24) 60
  | MONTHS => Number_mul (Number_mul (Number_mul (Num period) 30) 24) 60
  end = Num (period * unitMinutes unit).
Proof. destruct unit; cbn [Number_mul unitMinutes]; f_equal; lia. Qed.

Lemma validateCheckInPeriod_isValid (period : Z) (unit : PeriodUnit) :
  ValidationResult.isValid (validateCheckInPeriod (Num period) unit) = true <->
  5 <= period * unitMinutes unit <= 525600.
Proof.
  unfold validateCheckInPeriod. rewrite totalMinutes_Num. cbn [Number_ltb Number_gtb].
  destruct (Z.ltb_spec (period * unitMinutes unit) 5); [cbn; split; [discriminate | lia]|].
  destruct (Z.gtb_spec (period * unitMinutes unit) (365 * 24 * 60));
    [cbn; split; [discriminate | lia]|].
  cbn. split; [lia | reflexivity].
Qed.

Lemma warningsOrEmpty_someWarnings (ws : list ValidationWarning) :
  warningsOrEmpty (someWarnings ws) = ws.
Proof. destruct ws; reflexivity. Qed.

Lemma validateCheckInPeriod_warnings (period : Z) (unit : PeriodUnit) :
  ValidationResult.isValid (validateCheckInPeriod (Num period) unit) = true ->
  warningsOrEmpty (ValidationResult.warnings (validateCheckInPeriod (Num period) unit))
  = ((if period * unitMinutes unit <? 60 then [VeryShortPeriod] else []) ++
     (if period * unitMinutes unit >? 259200 then [LongPeriod] else []))%list.
Proof.
  unfold validateCheckInPeriod. rewrite totalMinutes_Num. cbn [Number_ltb Number_gtb].
  destruct (period * unitMinutes unit <? 5); [discriminate|].
  destruct (period * unitMinutes unit >? 365 * 24 * 60); [discriminate|]. intros _.
  cbn [ValidationResult.warnings]. apply warningsOrEmpty_someWarnings.
Qed.

(** Every comparison with [NaN] being false, the period check lets it
    through, without a warning. *)
Lemma validateCheckInPeriod_NaN (unit : PeriodUnit) :
  validateCheckInPeriod NaN unit = valid.
Proof. destruct unit; reflexivity. Qed.

(** X2.  What [validateCheckInPeriod] accepts.  An integral period is
    accepted exactly when it lasts between 5 minutes and 365 days; the
    deadline [getDeadlineFromPeriod] derives from an accepted one lies
    between 300 seconds and 365 days after [now], so that
    [calculateTimeRemaining] read at the same second reports a positive
    remaining time, not past; the short-period warning is given exactly
    below one hour, the long-period warning exactly above 180 days.  The
    infinities are refused.  [NaN] is accepted: none of the four
    comparisons holds of it, and the verdict is valid, without a
    warning. *)
Theorem validateCheckInPeriod_deadline (now : Z) (period : JSNumber) (unit : PeriodUnit) :
  ValidationResult.isValid (validateCheckInPeriod period unit) = true ->
  match period with
  | NaN => validateCheckInPeriod period unit = valid
  | PlusInfinity | MinusInfinity => False
  | Num period =>
      let verdict := validateCheckInPeriod (Num period) unit in
      let deadline := getDeadlineFromPeriod now period unit in
      let remaining := calculateTimeRemaining now deadline in
      5 <= period * unitMinutes unit <= 525600 /\
      now + 300 <= deadline <= now + 31536000 /\
      TimeCalculation.isPast remaining = false /\
      TimeCalculation.secondsRemaining remaining = deadline - now /\
      isDeadlinePassed now deadline = false /\
      (In VeryShortPeriod (warningsOrEmpty (ValidationResult.warnings verdict))
         <-> period * unitMinutes unit < 60) /\
      (In LongPeriod (warningsOrEmpty (ValidationResult.warnings verdict))
         <-> period * unitMinutes unit > 259200)
  end.
Proof.
  destruct period as [| | |period];
    [intros _; apply validateCheckInPeriod_NaN
    | destruct unit; discriminate | destruct unit; discriminate |].
  intros Hv. cbv zeta.
  pose proof (proj1 (validateCheckInPeriod_isValid _ _) Hv) as Hb.
  rewrite (validateCheckInPeriod_warnings _ _ Hv).
  rewrite getDeadlineFromPeriod_unitSeconds.
  assert (Hs : period * unitSeconds unit = period * unitMinutes unit * 60)
    by (destruct unit; cbn; lia).
  unfold calculateTimeRemaining, isDeadlinePassed.
  cbn [TimeCalculation.isPast TimeCalculation.secondsRemaining].
  split; [exact Hb|]. split; [lia|]. split; [apply Z.leb_gt; lia|].
  split; [lia|]. split; [rewrite Z.geb_leb; apply Z.leb_gt; lia|].
  destruct (Z.ltb_spec (period * unitMinutes unit) 60),
           (Z.gtb_spec (period * unitMinutes unit) 259200); cbn;
    split; split; intros H'; try lia; try tauto;
    repeat (destruct H' as [H'|H']; try discriminate H'); try lia; tauto.
Qed.

Lemma validateCheckInPeriod_deadline_witness :
  1000 + 300 <= getDeadlineFromPeriod 1000 5 MINUTES <= 1000 + 31536000 /\
  In VeryShortPeriod
    (warningsOrEmpty (ValidationResult.warnings (validateCheckInPeriod (Num 5) MINUTES))) /\
  validateCheckInPeriod NaN DAYS = valid.
Proof.
  destruct (validateCheckInPeriod_deadline 1000 (Num 5) MINUTES)
    as (_ & Hd & _ & _ & _ & Hw & _); [reflexivity|].
  split; [exact Hd|]. split; [apply Hw; reflexivity|].
  apply (validateCheckInPeriod_deadline 1000 NaN DAYS). reflexivity.
Defined.

(** The period check refuses on both sides of its range. *)
Lemma validateCheckInPeriod_refuses (period : Z) (unit : PeriodUnit) :
  (period * unitMinutes unit < 5 ->
   validateCheckInPeriod (Num period) unit = invalid PeriodTooShort) /\
  (period * unitMinutes unit > 525600 ->
   validateCheckInPeriod (Num period) unit = invalid PeriodTooLong).
Proof.
  unfold validateCheckInPeriod. rewrite totalMinutes_Num. cbn [Number_ltb Number_gtb].
  split; intros H.
  - destruct (Z.ltb_spec (period * unitMinutes unit) 5); [reflexivity | lia].
  - destruct (Z.ltb_spec (period * unitMinutes unit) 5); [lia|].
    destruct (Z.gtb_spec (period * unitMinutes unit) (365 * 24 * 60)); [reflexivity | lia].
Qed.

Lemma fold_allocations_shift {A} (f : A -> Z) (l : list A) (acc : Z) :
  fold_left (fun sum x => sum + f x) l acc = acc + fold_left (fun sum x => sum + f x) l 0.
Proof.
  revert acc. induction l as [|x l IH]; intros acc; cbn [fold_left]; [lia|].
  rewrite (IH (acc + f x)), (IH (0 + f x)). lia.
Qed.

Lemma totalAllocationOf_cons (b : Beneficiary.t) (bs : list Beneficiary.t) :
  totalAllocationOf (b :: bs) = Beneficiary.allocation b + totalAllocationOf bs.
Proof.
  unfold totalAllocationOf. cbn [fold_left]. rewrite fold_allocations_shift. lia.
Qed.

Lemma totalAllocationOf_positive (bs : list Beneficiary.t) :
  Forall (fun b => 0 < Beneficiary.allocation b) bs ->
  0 <= totalAllocationOf bs /\
  Forall (fun b => Beneficiary.allocation b <= totalAllocationOf bs) bs /\
  (bs <> [] -> 0 < totalAllocationOf bs).
Proof.
  induction 1 as [|b bs Hb _ IH]; [repeat split; [reflexivity | constructor | congruence]|].
  rewrite totalAllocationOf_cons. destruct IH as (H0 & Hall & _).
  split; [lia|]. split; [|lia].
  constructor; [lia|]. eapply List.Forall_impl; [|exact Hall]. cbn. intros; lia.
Qed.

(** X3.  [validateBeneficiaryAllocations] accepts a list exactly when it has 1
    to 10 entries, every allocation is positive and the total does not
    exceed the balance.  Then every single allocation lies between 1 and
    the balance, and the only warning is the unallocated remainder,
    given exactly when the total is below the balance. *)
Theorem validateBeneficiaryAllocations_spec (beneficiaries : list Beneficiary.t)
    (vaultBalance : Z) :
  let verdict := validateBeneficiaryAllocations beneficiaries vaultBalance in
  let total := totalAllocationOf beneficiaries in
  (ValidationResult.isValid verdict = true <->
   (1 <= length beneficiaries <= 10)%nat /\
   Forall (fun b => 0 < Beneficiary.allocation b) beneficiaries /\
   total <= vaultBalance) /\
  (ValidationResult.isValid verdict = true ->
   Forall (fun b => 1 <= Beneficiary.allocation b <= vaultBalance) beneficiaries /\
   0 < total /\
   ValidationResult.warnings verdict
     = if total <? vaultBalance then Some [Unallocated (vaultBalance - total)] else None).
Proof.
  cbv zeta.
  assert (Hiff : ValidationResult.isValid
                   (validateBeneficiaryAllocations beneficiaries vaultBalance) = true <->
                 (1 <= length beneficiaries <= 10)%nat /\
                 Forall (fun b => 0 < Beneficiary.allocation b) beneficiaries /\
                 totalAllocationOf beneficiaries <= vaultBalance).
  { rewrite validateBeneficiaryAllocations_isValid, !andb_true_iff, !negb_true_iff.
    rewrite Nat.eqb_neq, Nat.ltb_ge, forallb_forall.
    split.
    - intros [[[H1 H2] H3] H4]. split; [lia|]. split.
      + apply List.Forall_forall. intros b Hb. specialize (H4 b Hb).
        apply negb_true_iff, Z.leb_gt in H4. exact H4.
      + destruct (Z.gtb_spec (totalAllocationOf beneficiaries) vaultBalance);
          [discriminate | assumption].
    - intros ([H1 H2] & H3 & H4). split; [split; [split; [lia | lia]|]|].
      + destruct (Z.gtb_spec (totalAllocationOf beneficiaries) vaultBalance);
          [lia | reflexivity].
      + intros b Hb. apply negb_true_iff, Z.leb_gt. rewrite List.Forall_forall in H3.
        exact (H3 b Hb). }
  split; [exact Hiff|]. intros Hv. destruct (proj1 Hiff Hv) as ([Hn _] & Hpos & Htot).
  destruct (totalAllocationOf_positive _ Hpos) as (_ & Hle & Hne).
  split; [|split].
  - apply List.Forall_forall. intros b Hb. rewrite List.Forall_forall in Hpos, Hle.
    specialize (Hpos b Hb). specialize (Hle b Hb). lia.
  - apply Hne. destruct beneficiaries; [cbn in Hn; lia | discriminate].
  - revert Hv. unfold validateBeneficiaryAllocations.
    destruct (length beneficiaries =? 0)%nat; [discriminate|].
    destruct (10 <? length beneficiaries)%nat; [discriminate|].
    destruct (totalAllocationOf beneficiaries >? vaultBalance); [discriminate|].
    destruct (List.find _ beneficiaries); [discriminate|]. intros _.
    cbn [ValidationResult.warnings].
    destruct (totalAllocationOf beneficiaries <? vaultBalance); reflexivity.
Qed.

Lemma validateBeneficiaryAllocations_spec_witness :
  ValidationResult.warnings
    (validateBeneficiaryAllocations (VaultStorage.beneficiaries Sample.fundedRecord) 130)
  = Some [Unallocated 30].
Proof.
  destruct (validateBeneficiaryAllocations_spec
              (VaultStorage.beneficiaries Sample.fundedRecord) 130) as [Hiff Hthen].
  destruct Hthen as (_ & _ & Hw).
  - apply Hiff. split; [cbn; lia|]. split; [|vm_compute; discriminate].
    repeat constructor.
  - rewrite Hw. reflexivity.
Defined.

Lemma trimStart_empty (units : list N) :
  trimStart units = [] <-> forallb isWhiteSpace units = true.
Proof.
  induction units as [|u units IH]; cbn [trimStart forallb]; [tauto|].
  destruct (isWhiteSpace u); cbn [andb]; [exact IH|]. split; discriminate.
Qed.

Lemma forallb_trimStart (units : list N) :
  forallb isWhiteSpace (trimStart units) = forallb isWhiteSpace units.
Proof.
  induction units as [|u units IH]; cbn [trimStart forallb]; [reflexivity|].
  destruct (isWhiteSpace u) eqn:Hu; cbn [andb]; [exact IH|].
  cbn [forallb]. rewrite Hu. reflexivity.
Qed.

Lemma trim_empty (units : list N) :
  length (trim units) = 0%nat <-> forallb isWhiteSpace units = true.
Proof.
  unfold trim. rewrite List.length_rev.
  assert (Hlen : forall t : list N, length t = 0%nat <-> t = []).
  { intros [|? ?]; cbn; split; (reflexivity || discriminate). }
  rewrite Hlen, trimStart_empty, forallb_rev, forallb_trimStart. tauto.
Qed.

Lemma validateBeneficiaryName_isValid (name : string) :
  ValidationResult.isValid (validateBeneficiaryName name) = true <->
  onlyWhiteSpace name = false /\ (String_length name <= 50)%nat.
Proof.
  unfold validateBeneficiaryName, onlyWhiteSpace.
  destruct (length (trim (codeUnits name)) =? 0)%nat eqn:Ht.
  - apply Nat.eqb_eq, trim_empty in Ht. rewrite orb_true_r, Ht.
    split; [discriminate | intros [? _]; discriminate].
  - assert (Hw : forallb isWhiteSpace (codeUnits name) = false).
    { destruct (forallb isWhiteSpace (codeUnits name)) eqn:Hw; [|reflexivity].
      apply trim_empty, Nat.eqb_eq in Hw. congruence. }
    assert (Hl : (String_length name =? 0)%nat = false).
    { unfold String_length. destruct (codeUnits name); [discriminate Hw | reflexivity]. }
    rewrite Hl, Hw. cbn [orb].
    destruct (Nat.ltb_spec 50 (String_length name)) as [Hlong|Hshort].
    + split; [discriminate | intros [_ ?]; lia].
    + split; [intros _; split; [reflexivity | exact Hshort] | reflexivity].
Qed.

(** X4.  [validateBeneficiaryName] counts as JavaScript does, in UTF-16
    code units, and strips what [String.prototype.trim] strips: the white
    space and line terminators of the language, the no-break space and
    the other Unicode spaces included.  It accepts a name exactly when one
    of its code units is not such white space and it has at most 50 code
    units, surrounding white space counted.  A name without such a code
    unit (the empty one included) is refused as empty, whatever its
    length; any other name longer than 50 code units is refused as too
    long.  So a name of two no-break spaces is refused as empty, 26
    accented letters (52 bytes of UTF-8) are accepted, and 26 characters
    outside the basic plane (two code units each) are too long. *)
Theorem validateBeneficiaryName_spec (name : string) :
  ((ValidationResult.isValid (validateBeneficiaryName name) = true <->
    onlyWhiteSpace name = false /\ (String_length name <= 50)%nat) /\
   (onlyWhiteSpace name = true -> validateBeneficiaryName name = invalid NameEmpty) /\
   (onlyWhiteSpace name = false -> (50 < String_length name)%nat ->
    validateBeneficiaryName name = invalid NameTooLong)) /\
  validateBeneficiaryName Sample.noBreakSpaces = invalid NameEmpty /\
  String.length Sample.accentedName = 52%nat /\
  validateBeneficiaryName Sample.accentedName = valid /\
  String_length Sample.astralName = 52%nat /\
  validateBeneficiaryName Sample.astralName = invalid NameTooLong.
Proof.
  split; [|vm_compute; repeat split].
  unfold validateBeneficiaryName, onlyWhiteSpace.
  destruct (length (trim (codeUnits name)) =? 0)%nat eqn:Ht.
  - apply Nat.eqb_eq, trim_empty in Ht. rewrite orb_true_r, Ht.
    split; [split; [discriminate | intros [? _]; discriminate]|].
    split; [reflexivity | discriminate].
  - assert (Hw : forallb isWhiteSpace (codeUnits name) = false).
    { destruct (forallb isWhiteSpace (codeUnits name)) eqn:Hw; [|reflexivity].
      apply trim_empty, Nat.eqb_eq in Hw. congruence. }
    assert (Hl : (String_length name =? 0)%nat = false).
    { unfold String_length. destruct (codeUnits name); [discriminate Hw | reflexivity]. }
    rewrite Hl, Hw. cbn [orb].
    destruct (Nat.ltb_spec 50 (String_length name)) as [Hlong|Hshort].
    + split; [split; [discriminate | intros [_ ?]; lia]|].
      split; [discriminate | reflexivity].
    + split; [split; [intros _; split; [reflexivity | exact Hshort] | reflexivity]|].
      split; [discriminate | intros _ ?; lia].
Qed.

Lemma validateBeneficiaryName_spec_witness :
  ValidationResult.isValid (validateBeneficiaryName " Bob ") = true /\
  validateBeneficiaryName "   " = invalid NameEmpty.
Proof.
  split.
  - apply (proj1 (proj1 (validateBeneficiaryName_spec " Bob "))).
    split; [reflexivity | vm_compute; lia].
  - apply (proj1 (proj2 (proj1 (validateBeneficiaryName_spec "   ")))). reflexivity.
Defined.

(** ** What makes a setup succeed ([setup-beneficiaries.ts]) *)

Lemma thrownBy_None (v : ValidationResult.t) :
  thrownBy v = None <-> ValidationResult.isValid v = true.
Proof. unfold thrownBy. destruct (ValidationResult.isValid v); split; congruence. Qed.

Lemma thrownBy_validateAddress (isAddress : string -> bool) (a : string) :
  thrownBy (validateAddress isAddress a) = None <-> isAddress a = true.
Proof. unfold validateAddress, thrownBy. destruct (isAddress a); cbn; split; congruence. Qed.

Lemma validateEach_None (fw : Framework) (inputs : list BeneficiaryInput.t) :
  validateEach fw inputs = None <->
  Forall (fun i => isAddress fw (BeneficiaryInput.address i) = true /\
                   ValidationResult.isValid
                     (validateBeneficiaryName (BeneficiaryInput.name i)) = true /\
                   0 < BeneficiaryInput.allocation i) inputs.
Proof.
  induction inputs as [|i rest IH]; cbn [validateEach].
  - split; [constructor | reflexivity].
  - rewrite List.Forall_cons_iff, <- IH, <- thrownBy_validateAddress, <- thrownBy_None.
    destruct (thrownBy (validateAddress _ _)); [split; [discriminate | intros [[? _] _]; discriminate]|].
    destruct (thrownBy (validateBeneficiaryName _));
      [split; [discriminate | intros [(_ & ? & _) _]; discriminate]|].
    destruct (Z.leb_spec (BeneficiaryInput.allocation i) 0).
    + split; [discriminate | intros [(_ & _ & ?) _]; lia].
    + split; [intros ->; repeat split; lia | intros [_ ?]; assumption].
Qed.

Lemma createAll_is_Some (fw : Framework) (now : Z) (vaultAddress : string)
    (vaultBalance deadline : Z) (inputs : list BeneficiaryInput.t) :
  is_Some (createAll fw now vaultAddress vaultBalance deadline inputs) <->
  Forall (fun i => is_Some (signDelegation fw (buildDelegation vaultAddress deadline i))) inputs.
Proof.
  induction inputs as [|i rest IH]; cbn [createAll].
  - split; [constructor | eauto].
  - rewrite List.Forall_cons_iff, <- IH. unfold createOne.
    destruct (signDelegation fw _) as [sg|]; cbn.
    + destruct (createAll fw now vaultAddress vaultBalance deadline rest) as [[bs sds]|]; cbn.
      * split; [eauto | eauto].
      * split; [intros [? ?]; discriminate | intros [_ [? ?]]; discriminate].
    + split; [intros [? ?]; discriminate | intros [[? ?] _]; discriminate].
Qed.

Lemma setupBeneficiaries_Ok_checks (fw : Framework) (now : Z) (vaultAddress : string)
    (inputs : list BeneficiaryInput.t) (deadline : Z) (st st' : Store)
    (bs : list Beneficiary.t) :
  setupBeneficiaries fw now vaultAddress inputs deadline st = (Ok bs, st') ->
  ValidationResult.isValid
    (validateNoDuplicates (map BeneficiaryInput.address inputs)) = true /\
  validateEach fw inputs = None.
Proof.
  unfold setupBeneficiaries. intros H.
  destruct (thrownBy _) eqn:Hd; [discriminate|]. apply thrownBy_None in Hd.
  destruct (validateEach fw inputs); [discriminate|]. split; [exact Hd | reflexivity].
Qed.

(** X5.  [setupBeneficiaries] succeeds exactly when the addresses are pairwise
    different without regard to case, every entry has a well-formed
    address, a name that [validateBeneficiaryName] accepts (a UTF-16 code
    unit that is not white space, at most 50 code units in all) and a
    positive allocation, the allocations
    add up to no more than the balance read from the chain, and every
    delegation gets signed.  Neither a minimum nor a maximum number of
    entries is asked for, and no stored record either: without one the
    call succeeds and the store stays as it is. *)
Theorem setupBeneficiaries_succeeds_iff (fw : Framework) (now : Z) (vaultAddress : string)
    (inputs : list BeneficiaryInput.t) (deadline : Z) (st : Store) :
  (isOk (fst (setupBeneficiaries fw now vaultAddress inputs deadline st)) = true <->
   NoDup (map toLowerCase (map BeneficiaryInput.address inputs)) /\
   Forall (fun i => isAddress fw (BeneficiaryInput.address i) = true /\
                    onlyWhiteSpace (BeneficiaryInput.name i) = false /\
                    (String_length (BeneficiaryInput.name i) <= 50)%nat /\
                    0 < BeneficiaryInput.allocation i) inputs /\
   fold_left (fun sum b => sum + BeneficiaryInput.allocation b) inputs 0
     <= getBalance fw vaultAddress /\
   Forall (fun i => is_Some (signDelegation fw (buildDelegation vaultAddress deadline i)))
          inputs) /\
  (loadVaultData vaultAddress st = None ->
   snd (setupBeneficiaries fw now vaultAddress inputs deadline st) = st).
Proof.
  split.
  - unfold setupBeneficiaries.
    rewrite <- (validateNoDuplicates_isValid _), <- thrownBy_None.
    rewrite <- (createAll_is_Some fw now vaultAddress (getBalance fw vaultAddress)).
    assert (Hnames :
      Forall (fun i => isAddress fw (BeneficiaryInput.address i) = true /\
                       onlyWhiteSpace (BeneficiaryInput.name i) = false /\
                       (String_length (BeneficiaryInput.name i) <= 50)%nat /\
                       0 < BeneficiaryInput.allocation i) inputs
      <-> validateEach fw inputs = None).
    { rewrite validateEach_None. apply list.Forall_iff. intros i.
      rewrite validateBeneficiaryName_isValid. tauto. }
    rewrite Hnames. clear Hnames.
    destruct (thrownBy _); [cbn; split; [discriminate | intros [? _]; discriminate]|].
    destruct (validateEach fw inputs);
      [cbn; split; [discriminate | intros (_ & ? & _); discriminate]|].
    destruct (Z.gtb_spec
                (fold_left (fun sum b => sum + BeneficiaryInput.allocation b) inputs 0)
                (getBalance fw vaultAddress)) as [Hgt|Hle];
      [cbn; split; [discriminate | intros (_ & _ & ? & _); lia]|].
    destruct (createAll _ _ _ _ _ _) as [[bs sds]|];
      [|cbn; split; [discriminate | intros (_ & _ & _ & [? ?]); discriminate]].
    destruct (loadVaultData vaultAddress st); cbn; (split; [intros _|reflexivity]);
      repeat split; eauto.
  - intros Hnone. unfold setupBeneficiaries. rewrite Hnone.
    destruct (thrownBy _); [reflexivity|].
    destruct (validateEach fw inputs); [reflexivity|].
    destruct (_ >? _); [reflexivity|].
    destruct (createAll _ _ _ _ _ _) as [[bs sds]|]; reflexivity.
Qed.

Lemma setupBeneficiaries_succeeds_iff_witness :
  isOk (fst (setupBeneficiaries (Sample.fw 100) 1000 Sample.vault [] 1300 Sample.funded)) = true /\
  snd (setupBeneficiaries (Sample.fw 100) 1000 "0xCD" [] 1300 Sample.funded) = Sample.funded.
Proof.
  split.
  - apply (proj1 (setupBeneficiaries_succeeds_iff (Sample.fw 100) 1000 Sample.vault [] 1300
                    Sample.funded)).
    repeat split; try constructor. vm_compute. discriminate.
  - apply (proj2 (setupBeneficiaries_succeeds_iff (Sample.fw 100) 1000 "0xCD" [] 1300
                    Sample.funded)).
    vm_compute. reflexivity.
Defined.

Lemma fold_allocations_map {A} (f : A -> Z) (l : list A) (acc : Z) :
  fold_left (fun sum x => sum + f x) l acc = fold_left Z.add (map f l) acc.
Proof. revert acc. induction l as [|x l IH]; intros acc; cbn; [reflexivity | apply IH]. Qed.

Lemma createAll_percentages (fw : Framework) (now : Z) (vaultAddress : string)
    (vaultBalance deadline : Z) (inputs : list BeneficiaryInput.t)
    (bs : list Beneficiary.t) (sds : list StoredDelegation.t) :
  0 < vaultBalance ->
  Forall (fun i => 0 < BeneficiaryInput.allocation i) inputs ->
  createAll fw now vaultAddress vaultBalance deadline inputs = Some (bs, sds) ->
  Forall (fun b => 0 < Beneficiary.allocation b /\
                   Beneficiary.percentage b
                   = Beneficiary.allocation b * 10000 / vaultBalance) bs /\
  fold_right Z.add 0 (map Beneficiary.percentage bs) * vaultBalance
    <= 10000 * fold_left (fun sum b => sum + BeneficiaryInput.allocation b) inputs 0.
Proof.
  intros HB Hpos. revert bs sds.
  induction Hpos as [|i rest Hi _ IH]; intros bs sds H; cbn in H.
  - simplify_eq. split; [constructor | cbn; lia].
  - unfold createOne in H.
    destruct (signDelegation fw _) as [sg|]; [|discriminate]. cbn in H.
    destruct (createAll fw now vaultAddress vaultBalance deadline rest) as [[bs' sds']|];
      [|discriminate].
    cbn in H. simplify_eq. destruct (IH _ _ eq_refl) as [Hall Hsum].
    assert (Hq : Z.quot (BeneficiaryInput.allocation i * 10000) vaultBalance
                 = BeneficiaryInput.allocation i * 10000 / vaultBalance)
      by (apply Z.quot_div_nonneg; lia).
    split.
    + constructor; [|exact Hall]. cbn. split; [exact Hi | exact Hq].
    + cbn [map fold_right fold_left Beneficiary.percentage].
      rewrite fold_allocations_shift, Hq.
      pose proof (Z.mul_div_le (BeneficiaryInput.allocation i * 10000) vaultBalance HB).
      lia.
Qed.

(** X6.  After a successful [setupBeneficiaries] with at least one entry the
    balance read from the chain is positive, so the division behind the
    percentages never has a zero divisor; the balance covers every single
    allocation; every entry's share, in hundredths of a percent, is its
    allocation times 10000 divided by that balance, rounded down, and
    lies between 0 and 10000; the shares add up to at most 10000. *)
Theorem setupBeneficiaries_percentages (fw : Framework) (now : Z) (vaultAddress : string)
    (inputs : list BeneficiaryInput.t) (deadline : Z) (st st' : Store)
    (bs : list Beneficiary.t) :
  setupBeneficiaries fw now vaultAddress inputs deadline st = (Ok bs, st') ->
  inputs <> [] ->
  0 < getBalance fw vaultAddress /\
  Forall (fun b => 0 < Beneficiary.allocation b <= getBalance fw vaultAddress /\
                   Beneficiary.percentage b
                   = Beneficiary.allocation b * 10000 / getBalance fw vaultAddress /\
                   0 <= Beneficiary.percentage b <= 10000) bs /\
  fold_right Z.add 0 (map Beneficiary.percentage bs) <= 10000.
Proof.
  intros H Hne.
  pose proof (setupBeneficiaries_Ok_checks _ _ _ _ _ _ _ _ H) as [_ Heach].
  apply validateEach_None in Heach.
  pose proof (setupBeneficiaries_Ok _ _ _ _ _ _ _ _ H) as [Htot _].
  assert (Hpos : Forall (fun i => 0 < BeneficiaryInput.allocation i) inputs).
  { eapply List.Forall_impl; [|exact Heach]. cbn. tauto. }
  assert (Hsum : 0 < fold_left (fun sum b => sum + BeneficiaryInput.allocation b) inputs 0).
  { destruct inputs as [|i rest]; [congruence|]. cbn [fold_left].
    rewrite fold_allocations_shift. inversion Hpos as [|? ? Hi Hrest]; subst.
    assert (0 <= fold_left (fun sum b => sum + BeneficiaryInput.allocation b) rest 0); [|lia].
    clear -Hrest. induction Hrest as [|j rest Hj _ IH]; [reflexivity|].
    cbn [fold_left]. rewrite fold_allocations_shift. lia. }
  assert (HB : 0 < getBalance fw vaultAddress) by lia.
  split; [exact HB|].
  apply setupBeneficiaries_Ok in H as (_ & sds & Hc & _).
  pose proof (createAll_Some _ _ _ _ _ _ _ _ Hc) as (Hshares & _).
  destruct (createAll_percentages _ _ _ _ _ _ _ _ HB Hpos Hc) as [Hall Hs].
  assert (Hle : Forall (fun b => Beneficiary.allocation b <= getBalance fw vaultAddress) bs).
  { assert (Htb : totalAllocationOf bs
                  = fold_left (fun sum b => sum + BeneficiaryInput.allocation b) inputs 0).
    { unfold totalAllocationOf.
      rewrite (fold_allocations_map Beneficiary.allocation).
      rewrite (fold_allocations_map BeneficiaryInput.allocation).
      f_equal. apply (f_equal (map (fun s : string * string * Z => snd s))) in Hshares.
      rewrite !map_map in Hshares. exact Hshares. }
    destruct (totalAllocationOf_positive bs) as (_ & Hbound & _).
    { eapply List.Forall_impl; [|exact Hall]. cbn. tauto. }
    eapply List.Forall_impl; [|exact Hbound]. cbn. intros b Hb. lia. }
  split.
  - apply List.Forall_forall. intros b Hb. rewrite List.Forall_forall in Hall, Hle.
    destruct (Hall b Hb) as [Hpb Hq]. specialize (Hle b Hb).
    split; [lia|]. split; [exact Hq|]. rewrite Hq. split.
    + apply Z.div_pos; lia.
    + apply Z.div_le_upper_bound; lia.
  - apply Z.mul_le_mono_pos_r with (p := getBalance fw vaultAddress); [exact HB|]. lia.
Qed.

Lemma setupBeneficiaries_percentages_witness :
  map Beneficiary.percentage (VaultStorage.beneficiaries Sample.fundedRecord) = [4000; 6000] /\
  0 < getBalance (Sample.fw 100) Sample.vault.
Proof.
  split; [reflexivity|].
  refine (proj1 (setupBeneficiaries_percentages (Sample.fw 100) 1001 Sample.vault
                   [Sample.bob; Sample.carol] 1300 Sample.created Sample.funded
                   (VaultStorage.beneficiaries Sample.fundedRecord) _ _)).
  - vm_compute. reflexivity.
  - discriminate.
Defined.

(** ** Adding one beneficiary ([setup-beneficiaries.ts]) *)

Lemma shareOfInput_inputOfBeneficiary (bs : list Beneficiary.t) :
  map shareOfInput (map inputOfBeneficiary bs) = map shareOf bs.
Proof. rewrite map_map. reflexivity. Qed.

Lemma existsb_eqIgnoreCase (address : string) (bs : list Beneficiary.t) :
  existsb (fun b => eqIgnoreCase (Beneficiary.address b) address) bs = true <->
  In (toLowerCase address) (map toLowerCase (map Beneficiary.address bs)).
Proof.
  rewrite existsb_exists, map_map, in_map_iff.
  split; intros (b & H1 & H2); exists b.
  - apply eqIgnoreCase_eq in H2. tauto.
  - split; [tauto|]. apply eqIgnoreCase_eq. tauto.
Qed.

Lemma last_map_snoc {A B} (f : A -> B) (l : list A) (xs : list B) (y : B) :
  map f l = (xs ++ [y])%list -> exists e, last l = Some e /\ f e = y.
Proof.
  destruct l as [|e l'] using rev_ind; cbn [map]; intros H.
  - destruct xs; discriminate.
  - rewrite map_app in H. cbn [map] in H. apply app_inj_tail in H as [_ H].
    exists e. split; [apply last_snoc | exact H].
Qed.

(** X7.  When [addBeneficiary] returns an entry, the vault was stored and did
    not list the new address (case ignored).  The stored list is then the
    old one, in order, followed by the new beneficiary, as far as
    addresses, names and allocations go; the entry returned is the new
    one.  But every entry is written afresh: all claimed flags are off,
    and the stored delegations are new ones, one per entry, enabled and
    bound to the deadline given.  The configuration and the check-in
    history are kept. *)
Theorem addBeneficiary_appends (fw : Framework) (now : Z) (vaultAddress : string)
    (beneficiary : BeneficiaryInput.t) (deadline : Z) (st st' : Store)
    (returned : option Beneficiary.t) :
  addBeneficiary fw now vaultAddress beneficiary deadline st = (Added returned, st') ->
  exists record record' entry,
    loadVaultData vaultAddress st = Some record /\
    ~ In (toLowerCase (BeneficiaryInput.address beneficiary))
         (map toLowerCase (map Beneficiary.address (VaultStorage.beneficiaries record))) /\
    loadVaultData vaultAddress st' = Some record' /\
    map shareOf (VaultStorage.beneficiaries record')
      = (map shareOf (VaultStorage.beneficiaries record) ++ [shareOfInput beneficiary])%list /\
    returned = Some entry /\
    last (VaultStorage.beneficiaries record') = Some entry /\
    shareOf entry = shareOfInput beneficiary /\
    Forall (fun b => Beneficiary.hasClaimed b = false) (VaultStorage.beneficiaries record') /\
    map StoredDelegation.beneficiaryAddress (VaultStorage.delegations record')
      = map Beneficiary.address (VaultStorage.beneficiaries record') /\
    Forall (fun d => StoredDelegation.isDisabled d = false /\
                     StoredDelegation.deadline d = deadline)
           (VaultStorage.delegations record') /\
    VaultStorage.config record' = VaultStorage.config record /\
    VaultStorage.checkIns record' = VaultStorage.checkIns record.
Proof.
  unfold addBeneficiary. intros H.
  destruct (thrownBy (validateAddress _ _)); [discriminate|].
  destruct (thrownBy (validateBeneficiaryName _)); [discriminate|].
  destruct (loadVaultData vaultAddress st) as [record|] eqn:Hload; [|discriminate].
  destruct (existsb _ _) eqn:Hex; [discriminate|].
  destruct (setupBeneficiaries _ _ _ _ _ _) as [[bs|e] st1] eqn:Hsetup; [|discriminate].
  injection H as <- <-.
  destruct (setupBeneficiaries_stored _ _ _ _ _ _ _ _ _ Hload Hsetup) as (sds & Hc & _ & Hl).
  apply createAll_Some in Hc as (Hshares & Hfresh & Haddr & Hall).
  rewrite map_app, shareOfInput_inputOfBeneficiary in Hshares. cbn [map] in Hshares.
  assert (Hlast : exists entry, last bs = Some entry /\ shareOf entry = shareOfInput beneficiary).
  { exact (last_map_snoc shareOf bs _ _ Hshares). }
  destruct Hlast as (entry & Hlast & Hentry).
  exists record, (setBeneficiariesAndDelegations bs sds now record), entry.
  split; [reflexivity|]. split.
  { rewrite <- existsb_eqIgnoreCase, Hex. discriminate. }
  split; [exact Hl|]. cbn [setBeneficiariesAndDelegations VaultStorage.beneficiaries
                            VaultStorage.delegations VaultStorage.config VaultStorage.checkIns].
  split; [exact Hshares|]. split; [exact Hlast|]. split; [exact Hlast|].
  split; [exact Hentry|]. split; [exact Hfresh|]. split.
  { rewrite Haddr. symmetry. apply map_address_of_share.
    rewrite Hshares, map_app, shareOfInput_inputOfBeneficiary. reflexivity. }
  split; [|split; reflexivity].
  eapply List.Forall_impl; [|exact Hall]. cbn. tauto.
Qed.

Lemma addBeneficiary_appends_witness :
  exists record',
    loadVaultData Sample.vault
      (snd (addBeneficiary (Sample.fw 200) 1500 Sample.vault Sample.dave 1800
              Sample.afterBobClaim)) = Some record' /\
    map shareOf (VaultStorage.beneficiaries record')
      = [("0xB0B", "Bob", 40); ("0xCA701", "Carol", 60); ("0xDA7E", "Dave", 100)] /\
    Forall (fun b => Beneficiary.hasClaimed b = false) (VaultStorage.beneficiaries record').
Proof.
  pose (r := addBeneficiary (Sample.fw 200) 1500 Sample.vault Sample.dave 1800
               Sample.afterBobClaim).
  destruct (addBeneficiary_appends (Sample.fw 200) 1500 Sample.vault Sample.dave 1800
              Sample.afterBobClaim (snd r)
              (match fst r with Added e => e | _ => None end))
    as (record & record' & entry & Hl & _ & Hl' & Hs & _ & _ & _ & Hf & _);
    [vm_compute; reflexivity|].
  exists record'. split; [exact Hl'|]. split; [|exact Hf].
  rewrite Hs. vm_compute in Hl. injection Hl as <-. reflexivity.
Defined.

(** X8.  [addBeneficiary] writes nothing unless it returns an entry.  On a
    stored vault that already lists the address, in whatever case, no
    entry is returned; when the address is well formed and the name
    accepted, the answer is that the beneficiary already exists. *)
Theorem addBeneficiary_refusals (fw : Framework) (now : Z) (vaultAddress : string)
    (beneficiary : BeneficiaryInput.t) (deadline : Z) (st : Store) :
  let outcome := addBeneficiary fw now vaultAddress beneficiary deadline st in
  ((forall returned, fst outcome <> Added returned) -> snd outcome = st) /\
  (loadVaultData vaultAddress st = None -> forall returned, fst outcome <> Added returned) /\
  (forall record,
     loadVaultData vaultAddress st = Some record ->
     In (toLowerCase (BeneficiaryInput.address beneficiary))
        (map toLowerCase (map Beneficiary.address (VaultStorage.beneficiaries record))) ->
     (forall returned, fst outcome <> Added returned) /\
     (isAddress fw (BeneficiaryInput.address beneficiary) = true ->
      ValidationResult.isValid
        (validateBeneficiaryName (BeneficiaryInput.name beneficiary)) = true ->
      fst outcome = AlreadyExists (BeneficiaryInput.address beneficiary))).
Proof.
  cbv zeta. unfold addBeneficiary.
  destruct (thrownBy (validateAddress _ _)) eqn:Ha.
  { cbn. split; [reflexivity|]. split; [discriminate|].
    intros; split; [discriminate|]. intros Hia _.
    apply thrownBy_validateAddress in Hia. congruence. }
  destruct (thrownBy (validateBeneficiaryName _)) eqn:Hn.
  { cbn. split; [reflexivity|]. split; [discriminate|].
    intros; split; [discriminate|]. intros _ Hvn.
    apply thrownBy_None in Hvn. congruence. }
  destruct (loadVaultData vaultAddress st) as [record|] eqn:Hload;
    [|cbn; split; [reflexivity|]; split; [discriminate | discriminate]].
  destruct (existsb _ _) eqn:Hex.
  - cbn. split; [reflexivity|]. split; [discriminate|]. intros; split; [discriminate | reflexivity].
  - destruct (setupBeneficiaries _ _ _ _ _ _) as [[bs|e] st1] eqn:Hsetup; cbn.
    + split; [intros H; exfalso; exact (H _ eq_refl)|]. split; [discriminate|].
      intros ? [= <-] Hin. apply existsb_eqIgnoreCase in Hin. congruence.
    + apply setupBeneficiaries_Err in Hsetup as [-> _].
      split; [reflexivity|]. split; [discriminate|].
      intros ? [= <-] Hin. apply existsb_eqIgnoreCase in Hin. congruence.
Qed.

Lemma addBeneficiary_refusals_witness :
  addBeneficiary (Sample.fw 200) 1500 Sample.vault
    (BeneficiaryInput.mk "0xb0b" "Robert" 10 None) 1800 Sample.funded
  = (AlreadyExists "0xb0b", Sample.funded).
Proof.
  destruct (addBeneficiary_refusals (Sample.fw 200) 1500 Sample.vault
              (BeneficiaryInput.mk "0xb0b" "Robert" 10 None) 1800 Sample.funded)
    as (Hst & _ & Hex).
  destruct (Hex Sample.fundedRecord) as [Hno Hout];
    [exact sample_funded_load | vm_compute; tauto|].
  rewrite (surjective_pairing (addBeneficiary _ _ _ _ _ _)).
  rewrite (Hst Hno), Hout; reflexivity.
Defined.

(** ** The claim advisers ([claim.ts]) *)

(** X9.  [canClaim] against [simpleClaim], on the same store.  Where
    [canClaim] says yes, [simpleClaim] fails: it gets as far as
    [claimInheritance], which reads [delegation.from] of an object that
    has no [delegation], and ends in a [TypeError].  The same happens
    where the reason is "Deadline not reached".  For "Vault not found",
    "Not a beneficiary", "Delegation not found" and "Delegation disabled"
    the claim fails with the matching error; for "Already claimed", which
    [simpleClaim] does not test, it fails on the delegation or with the
    [TypeError].  In no case is there a transaction or a write.  On the
    vault of Bob and Carol, past the deadline, [canClaim] says yes for
    Bob and his claim ends in the [TypeError]. *)
Theorem canClaim_against_simpleClaim :
  (forall (fw : Framework) (now : Z) (clock : ClaimClock.t)
          (vaultAddress account : string) (st : Store),
     match canClaim now vaultAddress account st with
     | inr _ => simpleClaim fw clock vaultAddress account st = (Err TypeError, st)
     | inl VaultNotFound =>
         simpleClaim fw clock vaultAddress account st = (Err (NotFoundError MissingVault), st)
     | inl NotABeneficiary =>
         simpleClaim fw clock vaultAddress account st
         = (Err (NotFoundError MissingBeneficiary), st)
     | inl DelegationNotFound =>
         simpleClaim fw clock vaultAddress account st
         = (Err (NotFoundError MissingDelegation), st)
     | inl DelegationDisabled =>
         simpleClaim fw clock vaultAddress account st = (Err DelegationDisabledError, st)
     | inl DeadlineNotReached =>
         simpleClaim fw clock vaultAddress account st = (Err TypeError, st)
     | inl AlreadyClaimed =>
         exists e,
           simpleClaim fw clock vaultAddress account st = (Err e, st) /\
           (e = NotFoundError MissingDelegation \/ e = DelegationDisabledError \/
            e = TypeError)
     end) /\
  canClaim 1400 Sample.vault "0xb0b" Sample.funded = inr tt /\
  simpleClaim (Sample.fw 100) (Sample.clockAt 1400) Sample.vault "0xb0b" Sample.funded
    = (Err TypeError, Sample.funded).
Proof.
  split; [|split; vm_compute; reflexivity].
  intros fw now clock vaultAddress account st. unfold canClaim.
  destruct (loadVaultData vaultAddress st) as [record|] eqn:Hload.
  2:{ unfold simpleClaim. rewrite Hload. reflexivity. }
  destruct (List.find _ (VaultStorage.beneficiaries record)) as [b|] eqn:Hb.
  2:{ unfold simpleClaim. rewrite Hload, Hb. reflexivity. }
  rewrite (getBeneficiaryDelegation_load _ _ _ _ Hload).
  destruct (List.find _ (VaultStorage.delegations record)) as [d|] eqn:Hd.
  2:{ assert (Hs : simpleClaim fw clock vaultAddress account st
                   = (Err (NotFoundError MissingDelegation), st)).
      { unfold simpleClaim.
        rewrite Hload, Hb, (getBeneficiaryDelegation_load _ _ _ _ Hload), Hd. reflexivity. }
      destruct (Beneficiary.hasClaimed b); [eauto | exact Hs]. }
  destruct (StoredDelegation.isDisabled d) eqn:Hdis.
  { pose proof (simpleClaim_disabled fw clock _ _ _ _ _ _ Hload Hb Hd Hdis) as Hs.
    destruct (Beneficiary.hasClaimed b); [eauto | exact Hs]. }
  pose proof (simpleClaim_enabled fw clock _ _ _ _ _ _ Hload Hb Hd Hdis) as Hs.
  destruct (Beneficiary.hasClaimed b); [eauto 6|].
  destruct (negb _); exact Hs.
Qed.

(** X10.  What [getClaimStatus] and [canClaim] report after a successful
    [claimInheritance], called with an object that carries
    [delegation.from] and naming a stored vault that lists the address of
    the entry handed over.  The call got past the deadline test and the
    claimed flag of the entry handed over, and its receipt gives that
    entry's allocation.  Afterwards, for the vault's own address and that
    beneficiary address, the status shows the claimed flag, the hash of
    the redeeming transaction, the clock reading made for
    [claimTimestamp], and the allocation of the stored entry; and
    [canClaim] answers "Already claimed" from then on. *)
Theorem getClaimStatus_after_claim (fw : Framework) (clock : ClaimClock.t)
    (params : ClaimParams.t) (st st' : Store) (from : string) (record : VaultStorage.t)
    (entry : Beneficiary.t) (receipt : ClaimReceipt.t) :
  SignedDelegation.delegation (ClaimParams.signedDelegation params) = Some from ->
  loadVaultData from st = Some record ->
  List.find (fun x => eqIgnoreCase (Beneficiary.address x)
                        (Beneficiary.address (ClaimParams.beneficiary params)))
    (VaultStorage.beneficiaries record) = Some entry ->
  claimInheritance fw clock params st = (Ok receipt, st') ->
  let vaultAddress := VaultConfig.vaultAddress (VaultStorage.config record) in
  let account := Beneficiary.address (ClaimParams.beneficiary params) in
  VaultConfig.nextDeadline (VaultStorage.config record) <= ClaimClock.deadlineTest clock /\
  Beneficiary.hasClaimed (ClaimParams.beneficiary params) = false /\
  ClaimReceipt.amount receipt = Beneficiary.allocation (ClaimParams.beneficiary params) /\
  getClaimStatus vaultAddress account st'
    = Some (ClaimStatus.mk true (Some (ClaimReceipt.txHash receipt))
              (Some (ClaimClock.claimTimestamp clock)) (Beneficiary.allocation entry)) /\
  forall later, canClaim later vaultAddress account st' = inl AlreadyClaimed.
Proof.
  intros Hfrom Hload Hentry Hok. cbv zeta.
  destruct (claimInheritance_Ok fw clock params st from record Hfrom Hload receipt st' Hok)
    as (Hpassed & Hc & Hamount & ->).
  destruct (markClaimedFirst_find _ (ClaimReceipt.txHash receipt)
              (ClaimClock.claimTimestamp clock) _ _ Hentry) as (bs' & -> & Hfind').
  split; [exact Hpassed|]. split; [exact Hc|]. split; [exact Hamount|].
  split.
  - unfold getClaimStatus. rewrite load_save. case_decide; [|congruence].
    cbn [VaultStorage.beneficiaries]. rewrite Hfind'. reflexivity.
  - intros later. unfold canClaim. rewrite load_save. case_decide; [|congruence].
    cbn [VaultStorage.beneficiaries]. rewrite Hfind'. reflexivity.
Qed.

Lemma getClaimStatus_after_claim_witness :
  getClaimStatus Sample.vault "0xB0B" Sample.afterBobClaim
  = Some (ClaimStatus.mk true (Some "0xclaim") (Some 1400) 40).
Proof.
  exact (proj1 (proj2 (proj2 (proj2
    (getClaimStatus_after_claim (Sample.fw 100) (Sample.clockAt 1400) Sample.bobClaim
       Sample.funded Sample.afterBobClaim Sample.vault Sample.fundedRecord Sample.bobEntry
       (ClaimReceipt.mk "0xclaim" 40 21000)
       eq_refl sample_funded_load ltac:(vm_compute; reflexivity)
       ltac:(vm_compute; reflexivity)))))).
Defined.

(** ** The deadline, as each reader sees it *)

Lemma durationParts_recompose (seconds : Z) :
  0 <= seconds ->
  let p := durationParts seconds in
  seconds = 86400 * DurationParts.days p + 3600 * DurationParts.hours p
            + 60 * DurationParts.minutes p + DurationParts.secs p /\
  0 <= DurationParts.days p /\ 0 <= DurationParts.hours p < 24 /\
  0 <= DurationParts.minutes p < 60 /\ 0 <= DurationParts.secs p < 60.
Proof.
  intros Hs. cbv zeta. unfold durationParts.
  cbn [DurationParts.days DurationParts.hours DurationParts.minutes DurationParts.secs].
  rewrite !Z.rem_mod_nonneg by lia.
  Z.to_euclidean_division_equations. lia.
Qed.

(** X11.  The readers of the deadline agree, all taken in the same second, on
    a stored vault.  [calculateTimeRemaining], [isDeadlinePassed],
    [getTimeUntilCheckIn] and the countdown of the page call the
    deadline passed exactly when the clock has reached it, which is when
    the seconds remaining are 0; [getTimeUntilCheckIn] and
    [getVaultStatus] report the same seconds remaining; before the
    deadline these are what is left, and the days, hours, minutes and
    seconds of the countdown add up to them, each within its range. *)
Theorem deadline_readers_agree (fw : Framework) (now : Z) (vaultAddress : string)
    (st : Store) (record : VaultStorage.t) :
  loadVaultData vaultAddress st = Some record ->
  let deadline := VaultConfig.nextDeadline (VaultStorage.config record) in
  let timeCalc := calculateTimeRemaining now deadline in
  let shown := countdown now deadline in
  (TimeCalculation.isPast timeCalc = true <-> deadline <= now) /\
  (TimeCalculation.isPast timeCalc = true <-> TimeCalculation.secondsRemaining timeCalc = 0) /\
  (TimeCalculation.isPast timeCalc = false ->
   TimeCalculation.secondsRemaining timeCalc = deadline - now) /\
  isDeadlinePassed now deadline = TimeCalculation.isPast timeCalc /\
  getTimeUntilCheckIn now vaultAddress st
    = Ok (TimeUntilCheckIn.mk (TimeCalculation.secondsRemaining timeCalc)
            (TimeCalculation.isPast timeCalc) deadline) /\
  (exists state,
     getVaultStatus fw now vaultAddress st = Ok state /\
     VaultState.timeRemaining state = TimeCalculation.secondsRemaining timeCalc) /\
  Countdown.isPast shown = TimeCalculation.isPast timeCalc /\
  TimeCalculation.secondsRemaining timeCalc
    = 86400 * Countdown.days shown + 3600 * Countdown.hours shown
      + 60 * Countdown.minutes shown + Countdown.seconds shown /\
  0 <= Countdown.days shown /\ 0 <= Countdown.hours shown < 24 /\
  0 <= Countdown.minutes shown < 60 /\ 0 <= Countdown.seconds shown < 60.
Proof.
  intros Hload. cbv zeta.
  set (deadline := VaultConfig.nextDeadline (VaultStorage.config record)).
  unfold calculateTimeRemaining, isDeadlinePassed, getTimeUntilCheckIn, countdown,
    getVaultStatus.
  rewrite Hload. fold deadline.
  cbn [TimeCalculation.isPast TimeCalculation.secondsRemaining withTotalValue
       VaultConfig.nextDeadline VaultState.timeRemaining].
  assert (Hgeb : (now >=? deadline) = (deadline - now <=? 0)).
  { destruct (Z.geb_spec now deadline), (Z.leb_spec (deadline - now) 0); (reflexivity || lia). }
  rewrite Hgeb.
  destruct (Z.leb_spec (deadline - now) 0) as [Hpast|Hleft].
  - cbn. repeat split; try lia; try discriminate.
    eexists. split; [reflexivity|]. cbn. reflexivity.
  - destruct (durationParts_recompose (deadline - now)) as (Hsum & Hd & Hh & Hm & Hs);
      [lia|].
    cbn [Countdown.isPast Countdown.days Countdown.hours Countdown.minutes Countdown.seconds].
    rewrite Z.max_r by lia.
    split; [split; [discriminate | lia]|]. split; [split; [discriminate | lia]|].
    split; [reflexivity|]. split; [reflexivity|]. split; [reflexivity|].
    split; [eexists; split; [reflexivity|]; cbn; rewrite Z.max_r by lia; reflexivity|].
    split; [reflexivity|]. split; [exact Hsum|]. tauto.
Qed.

Lemma deadline_readers_agree_witness :
  getTimeUntilCheckIn 1100 Sample.vault Sample.funded = Ok (TimeUntilCheckIn.mk 200 false 1300) /\
  countdown 1100 1300 = Countdown.mk 0 0 3 20 false.
Proof.
  destruct (deadline_readers_agree (Sample.fw 100) 1100 Sample.vault Sample.funded
              Sample.fundedRecord sample_funded_load) as (_ & _ & _ & _ & H & _).
  split; [exact H | reflexivity].
Defined.

(** ** Whether the owner can check in ([check-in.ts], [status.ts]) *)

(** X12.  [canCheckIn] foretells [checkIn].  When it says no, the check-in
    fails before any write, for want of a stored vault or of an active
    delegation.  When it says yes, the check-in reaches the setup of the
    new delegations and can only fail as that setup does, with a
    validation or a signing error.  The [canCheckIn] field of
    [getVaultStatus] is the same answer, and the status is ACTIVE only
    with it and DISABLED only without it. *)
Theorem canCheckIn_foretells_checkIn (fw : Framework) (now recordedAt savedAt : Z)
    (params : CheckInParams.t) (st : Store) :
  let vaultAddress := CheckInParams.vault params in
  (canCheckIn vaultAddress st = false ->
   exists e,
     checkIn fw now recordedAt savedAt params st = (Err e, st) /\
     (e = NotFoundError MissingVault \/ e = NoActiveDelegationsError)) /\
  (canCheckIn vaultAddress st = true ->
   forall e,
     fst (checkIn fw now recordedAt savedAt params st) = Err e ->
     (exists message, e = ValidationError message) \/ e = SigningError) /\
  (forall state,
     getVaultStatus fw now vaultAddress st = Ok state ->
     VaultState.canCheckIn state = canCheckIn vaultAddress st /\
     (VaultState.status state = ACTIVE -> canCheckIn vaultAddress st = true) /\
     (VaultState.status state = DISABLED -> canCheckIn vaultAddress st = false)).
Proof.
  cbv zeta. unfold canCheckIn. split; [|split].
  - intros Hno.
    destruct (loadVaultData (CheckInParams.vault params) st) as [record|] eqn:Hload.
    + exists NoActiveDelegationsError. split; [|right; reflexivity].
      apply (checkIn_no_active fw now recordedAt savedAt params st record Hload).
      destruct (getActiveDelegations _ st); [reflexivity | discriminate].
    + exists (NotFoundError MissingVault). split; [|left; reflexivity].
      unfold checkIn. rewrite Hload. reflexivity.
  - intros Hyes e He.
    destruct (loadVaultData (CheckInParams.vault params) st) as [record|] eqn:Hload.
    + rewrite (checkIn_active fw now recordedAt savedAt params st record Hload) in He
        by (destruct (getActiveDelegations _ st); [discriminate Hyes | discriminate]).
      destruct (setupBeneficiaries _ _ _ _ _ _) as [[bs|e'] st2] eqn:Hsetup;
        [discriminate|].
      cbn in He. injection He as <-.
      apply setupBeneficiaries_Err in Hsetup as [_ H]. exact H.
    + unfold getActiveDelegations in Hyes. rewrite Hload in Hyes. discriminate.
  - intros state. unfold getVaultStatus.
    destruct (loadVaultData (CheckInParams.vault params) st) as [record|]; [|discriminate].
    intros [= <-]. cbn [VaultState.canCheckIn VaultState.status].
    split; [reflexivity|].
    destruct (0 <? length (getActiveDelegations (CheckInParams.vault params) st))%nat;
      repeat match goal with |- context [if ?c then _ else _] => destruct c end;
      split; congruence.
Qed.

Lemma canCheckIn_foretells_checkIn_witness :
  exists e,
    checkIn (Sample.fw 100) 1100 1100 1100 (Sample.checkInWith None) Sample.created
    = (Err e, Sample.created) /\
    (e = NotFoundError MissingVault \/ e = NoActiveDelegationsError).
Proof.
  apply (proj1 (canCheckIn_foretells_checkIn (Sample.fw 100) 1100 1100 1100
                  (Sample.checkInWith None) Sample.created)).
  vm_compute. reflexivity.
Defined.

(** ** Vault creation ([create-vault.ts]) *)

Lemma validateCheckInPeriod_window (now period : Z) (unit : PeriodUnit) :
  ValidationResult.isValid (validateCheckInPeriod (Num period) unit) = true ->
  now + 300 <= getDeadlineFromPeriod now period unit <= now + 31536000.
Proof.
  intros Hv. apply validateCheckInPeriod_isValid in Hv.
  rewrite getDeadlineFromPeriod_unitSeconds.
  assert (Hs : period * unitSeconds unit = period * unitMinutes unit * 60)
    by (destruct unit; cbn; lia).
  lia.
Qed.

(** X13.  [createVault] either fails and writes nothing, or stores a first
    record under the address of the new account.  It fails with the
    period check's message, for want of a private key (none in the
    parameters and none in the environment, an empty one counting as
    none), or when the deployment or the funding transaction is refused
    (the two calls to the chain that are taken to fail); without a
    private key it fails whatever the chain would do, unless the period
    was refused first.  The first record has no beneficiaries, no
    delegations and no history; its period is the one asked for, 30 days
    when none or 0 is given; creation time, last check-in and last update
    are the clock reading [now], and the deadline is one period after the
    reading [deadlineAt] made for it, between 5 minutes and 365 days
    later; the value recorded is the balance read from the chain.  On the
    store it leaves the owner cannot check in yet. *)
Theorem createVault_first_record (fw : Framework) (now deadlineAt : Z)
    (params : CreateVaultParams.t) (st : Store) :
  match createVault fw now deadlineAt params st with
  | (Err e, st') =>
      st' = st /\
      ((exists message, e = ValidationError message) \/ e = NoPrivateKeyError \/
       e = DeploymentError \/ e = FundingError)
  | (Ok (vault, config), st') =>
      (exists privateKey,
         orElseString (CreateVaultParams.ownerPrivateKey params) (envPrivateKey fw)
           = Some privateKey /\ privateKey <> "") /\
      vault = toMetaMaskSmartAccount fw (CreateVaultParams.ownerAddress params) /\
      loadVaultData vault st' = Some (VaultStorage.mk config [] [] [] now) /\
      VaultConfig.vaultAddress config = vault /\
      VaultConfig.ownerAddress config = CreateVaultParams.ownerAddress params /\
      VaultConfig.checkInPeriod config = orElse (CreateVaultParams.checkInPeriod params) 30 /\
      VaultConfig.checkInPeriodUnit config
        = default DAYS (CreateVaultParams.checkInPeriodUnit params) /\
      VaultConfig.lastCheckIn config = now /\
      VaultConfig.createdAt config = now /\
      VaultConfig.nextDeadline config
        = deadlineAt + VaultConfig.checkInPeriod config
                       * unitSeconds (VaultConfig.checkInPeriodUnit config) /\
      deadlineAt + 300 <= VaultConfig.nextDeadline config <= deadlineAt + 31536000 /\
      VaultConfig.totalValue config = getBalance fw vault /\
      canCheckIn vault st' = false /\
      (forall later recordedAt savedAt,
         fst (simpleCheckIn fw later recordedAt savedAt vault None st')
         = Err NoActiveDelegationsError)
  end /\
  (ValidationResult.isValid
     (validateCheckInPeriod
        (Num (orElse (CreateVaultParams.checkInPeriod params) 30))
        (default DAYS (CreateVaultParams.checkInPeriodUnit params))) = true ->
   orElseString (CreateVaultParams.ownerPrivateKey params) (envPrivateKey fw) = None ->
   createVault fw now deadlineAt params st = (Err NoPrivateKeyError, st)).
Proof.
  split.
  2:{ intros Hv Hkey. unfold createVault. apply thrownBy_None in Hv.
      destruct (CreateVaultParams.checkInPeriodUnit params);
        cbn [default from_option id] in Hv; rewrite Hv, Hkey; reflexivity. }
  unfold createVault.
  destruct (thrownBy _) as [e|] eqn:Hperiod; [split; [reflexivity | eauto]|].
  destruct (orElseString _ _) as [privateKey|] eqn:Hkey; [|split; [reflexivity | eauto]].
  destruct (String.length privateKey =? 0)%nat eqn:Hlen; [split; [reflexivity | eauto]|].
  destruct (if isDeployed fw _ then _ else _); [|split; [reflexivity | eauto 6]].
  destruct (if truthy _ && _ then _ else _); [|split; [reflexivity | eauto 6]].
  apply thrownBy_None in Hperiod.
  set (period := orElse (CreateVaultParams.checkInPeriod params) 30) in *.
  set (unit := match CreateVaultParams.checkInPeriodUnit params with
               | Some u => u | None => DAYS end) in *.
  pose proof (validateCheckInPeriod_window deadlineAt period unit Hperiod) as Hwindow.
  set (vault := toMetaMaskSmartAccount fw (CreateVaultParams.ownerAddress params)).
  assert (Hload : forall r, loadVaultData vault (saveVaultData vault r st) = Some r)
    by (intros r; apply load_save_same).
  split.
  { exists privateKey. split; [reflexivity|]. intros ->. discriminate Hlen. }
  split; [reflexivity|]. split; [apply Hload|].
  cbn [VaultConfig.vaultAddress VaultConfig.ownerAddress VaultConfig.checkInPeriod
       VaultConfig.checkInPeriodUnit VaultConfig.lastCheckIn VaultConfig.createdAt
       VaultConfig.nextDeadline VaultConfig.totalValue].
  do 6 (split; [reflexivity|]).
  split; [apply getDeadlineFromPeriod_unitSeconds|].
  split; [exact Hwindow|]. split; [reflexivity|].
  unfold canCheckIn, simpleCheckIn, checkIn, getActiveDelegations.
  cbn [CheckInParams.vault]. rewrite !Hload. split; reflexivity.
Qed.

Lemma createVault_first_record_witness :
  createVault (Sample.fw 100) 1000 1001
    (CreateVaultParams.mk "0xOwner" (Some 5) (Some MINUTES) (Some 100) None) ∅
  = (Err NoPrivateKeyError, ∅).
Proof.
  apply (proj2 (createVault_first_record (Sample.fw 100) 1000 1001
                  (CreateVaultParams.mk "0xOwner" (Some 5) (Some MINUTES) (Some 100) None)
                  ∅)); reflexivity.
Defined.

(** ** What a check-in records ([check-in.ts]) *)

Lemma disableAll_count (fw : Framework) (now : Z) (vaultAddress : string)
    (todo : list StoredDelegation.t) (s : DisableState.t) :
  DisableState.disabledCount (disableAll fw now vaultAddress todo s)
  = DisableState.disabledCount s
    + Z.of_nat (length (List.filter (disableConfirmed fw) todo)).
Proof.
  revert s. induction todo as [|d todo IH]; intros s; [cbn; lia|].
  rewrite disableAll_cons, IH. cbn [List.filter]. unfold disableOne, disableConfirmed.
  destruct (disableDelegation fw _ _) as [hash|]; [|lia].
  destruct (waitForTransactionReceipt fw hash); cbn [DisableState.disabledCount];
    [rewrite bool_decide_eq_true_2 by eauto; cbn [length]; lia|].
  rewrite bool_decide_eq_false_2 by (intros [? ?]; discriminate). lia.
Qed.

(** X14.  The record of a successful check-in and what is stored with it.
    [checkIn] itself reads the clock three times: [now] for the new deadline,
    before the new delegations are set up; [recordedAt] for the record,
    once they are signed and the receipts fetched; [savedAt] for the
    save.  The record carries [recordedAt], the number of active
    delegations whose disable transaction was confirmed (the others are
    skipped, so the number can be anything from 0 to the number of active
    ones) and the number of beneficiaries handed in.  It is appended to
    the stored history, nothing of which is dropped.  The stored
    configuration has [recordedAt] as last check-in and the record's
    deadline as next deadline, which is one period after [now]: as far
    before one period after the stored last check-in as the setup took.
    The stored record is last updated at [savedAt]; address, owner, unit
    and creation time of the vault stay. *)
Theorem checkIn_record (fw : Framework) (now recordedAt savedAt : Z)
    (params : CheckInParams.t) (st st' : Store) (record : VaultStorage.t)
    (checkInRecord : CheckInRecord.t) :
  loadVaultData (CheckInParams.vault params) st = Some record ->
  checkIn fw now recordedAt savedAt params st = (Ok checkInRecord, st') ->
  let active := getActiveDelegations (CheckInParams.vault params) st in
  CheckInRecord.timestamp checkInRecord = recordedAt /\
  CheckInRecord.disabledDelegationCount checkInRecord
    = Z.of_nat (length (List.filter (disableConfirmed fw) active)) /\
  0 <= CheckInRecord.disabledDelegationCount checkInRecord <= Z.of_nat (length active) /\
  CheckInRecord.createdDelegationCount checkInRecord
    = Z.of_nat (length (CheckInParams.beneficiaries params)) /\
  exists record',
    loadVaultData (CheckInParams.vault params) st' = Some record' /\
    VaultStorage.checkIns record' = (VaultStorage.checkIns record ++ [checkInRecord])%list /\
    VaultStorage.lastUpdated record' = savedAt /\
    VaultConfig.lastCheckIn (VaultStorage.config record') = recordedAt /\
    VaultConfig.nextDeadline (VaultStorage.config record')
      = CheckInRecord.newDeadline checkInRecord /\
    VaultConfig.nextDeadline (VaultStorage.config record')
      = now + VaultConfig.checkInPeriod (VaultStorage.config record')
              * unitSeconds (VaultConfig.checkInPeriodUnit (VaultStorage.config record')) /\
    VaultConfig.lastCheckIn (VaultStorage.config record')
      + VaultConfig.checkInPeriod (VaultStorage.config record')
        * unitSeconds (VaultConfig.checkInPeriodUnit (VaultStorage.config record'))
      - VaultConfig.nextDeadline (VaultStorage.config record')
      = recordedAt - now /\
    VaultConfig.vaultAddress (VaultStorage.config record')
      = VaultConfig.vaultAddress (VaultStorage.config record) /\
    VaultConfig.ownerAddress (VaultStorage.config record')
      = VaultConfig.ownerAddress (VaultStorage.config record) /\
    VaultConfig.checkInPeriodUnit (VaultStorage.config record')
      = VaultConfig.checkInPeriodUnit (VaultStorage.config record) /\
    VaultConfig.createdAt (VaultStorage.config record')
      = VaultConfig.createdAt (VaultStorage.config record).
Proof.
  intros Hload H. cbv zeta.
  destruct (getActiveDelegations (CheckInParams.vault params) st) as [|d0 rest] eqn:Hact.
  { rewrite (checkIn_no_active fw now recordedAt savedAt params st record Hload Hact) in H.
    discriminate. }
  rewrite (checkIn_active fw now recordedAt savedAt params st record Hload) in H
    by (rewrite Hact; discriminate).
  destruct (setupBeneficiaries _ _ _ _ _ _) as [[bs|e] st2] eqn:Hsetup; [|discriminate].
  cbv zeta in H. injection H as <- <-.
  cbn [CheckInRecord.timestamp CheckInRecord.disabledDelegationCount
       CheckInRecord.createdDelegationCount CheckInRecord.newDeadline].
  rewrite Hact, disableAll_count. cbn [DisableState.disabledCount].
  split; [reflexivity|]. split; [lia|]. split.
  { pose proof (filter_length_le (disableConfirmed fw) (d0 :: rest)). lia. }
  split.
  { apply setupBeneficiaries_Ok in Hsetup as (_ & sds & Hc & _).
    apply createAll_Some in Hc as (Hshares & _).
    apply (f_equal (@length _)) in Hshares. rewrite !length_map in Hshares.
    rewrite Hshares. reflexivity. }
  eexists. split; [apply load_save_same|].
  cbn [VaultStorage.checkIns VaultStorage.lastUpdated VaultStorage.config].
  split; [reflexivity|]. split; [reflexivity|]. split; [reflexivity|]. split; [reflexivity|].
  set (config' := checkedInConfig _ _ _ _).
  assert (Hdeadline :
    VaultConfig.nextDeadline config'
    = now + VaultConfig.checkInPeriod config'
            * unitSeconds (VaultConfig.checkInPeriodUnit config')).
  { subst config'. rewrite checkedInConfig_period.
    cbn [checkedInConfig VaultConfig.nextDeadline VaultConfig.checkInPeriodUnit].
    apply getDeadlineFromPeriod_unitSeconds. }
  split; [exact Hdeadline|]. split; [|repeat split].
  rewrite Hdeadline. change (VaultConfig.lastCheckIn config') with recordedAt. lia.
Qed.

Lemma checkIn_record_witness :
  let outcome :=
    checkIn (Sample.fw 100) 1100 1103 1104 (Sample.checkInWith None) Sample.funded in
  CheckInRecord.timestamp (Sample.recordOf (fst outcome)) = 1103 /\
  CheckInRecord.disabledDelegationCount (Sample.recordOf (fst outcome)) = 2 /\
  CheckInRecord.createdDelegationCount (Sample.recordOf (fst outcome)) = 2 /\
  exists record',
    loadVaultData Sample.vault (snd outcome) = Some record' /\
    VaultStorage.checkIns record' = [Sample.recordOf (fst outcome)] /\
    VaultStorage.lastUpdated record' = 1104 /\
    VaultConfig.lastCheckIn (VaultStorage.config record') = 1103 /\
    VaultConfig.nextDeadline (VaultStorage.config record') = 1103 + 297.
Proof.
  intros outcome.
  destruct (checkIn_record (Sample.fw 100) 1100 1103 1104 (Sample.checkInWith None)
              Sample.funded (snd outcome) Sample.fundedRecord
              (Sample.recordOf (fst outcome)))
    as (Ht & Hd & _ & Hc & record' & Hl & Hh & Hu & Hlc & Hn & _);
    [exact sample_funded_load | vm_compute; reflexivity |].
  split; [exact Ht|]. split; [rewrite Hd; reflexivity|]. split; [rewrite Hc; reflexivity|].
  exists record'. split; [exact Hl|]. split; [exact Hh|]. split; [exact Hu|].
  split; [exact Hlc|]. rewrite Hn. reflexivity.
Defined.

(** ** Listing, deleting, exporting and importing ([delegation-storage.ts]) *)





Lemma configVaultAddress_ofVaultStorage (record : VaultStorage.t) :
  configVaultAddress (Json.ofVaultStorage record)
  = if (String.length (VaultConfig.vaultAddress (VaultStorage.config record)) =? 0)%nat
    then None else Some (VaultConfig.vaultAddress (VaultStorage.config record)).
Proof. reflexivity. Qed.

(** X17.  What [exportVaultData] gives for a stored vault, [importVaultData]
    takes: on any store it saves the same record, bigints included,
    under the address in the record's own configuration, and returns that
    address; the record then loads under it.  A record whose
    configuration has an empty address is refused, without a write. *)
Theorem export_import_roundtrip (vaultAddress : string) (st target : Store)
    (record : VaultStorage.t) :
  loadVaultData vaultAddress st = Some record ->
  let own := VaultConfig.vaultAddress (VaultStorage.config record) in
  exists exported,
    exportVaultData vaultAddress st = Some exported /\
    (own <> "" ->
     importVaultData exported target = (Some own, saveVaultData own record target) /\
     loadVaultData own (snd (importVaultData exported target)) = Some record) /\
    (own = "" -> importVaultData exported target = (None, target)).
Proof.
  intros Hload own. unfold exportVaultData. rewrite Hload. eexists. split; [reflexivity|].
  unfold importVaultData.
  rewrite JsonFacts.revive_vaultStorage, configVaultAddress_ofVaultStorage. fold own.
  split.
  - intros Hne. destruct own as [|c rest] eqn:Hown; [congruence|].
    cbn [String.length Nat.eqb]. split; [reflexivity|]. cbn [snd].
    apply (load_save_same (String c rest) record target).
  - intros ->. reflexivity.
Qed.

Lemma export_import_roundtrip_witness :
  exists exported,
    exportVaultData "0xab" Sample.funded = Some exported /\
    loadVaultData Sample.vault (snd (importVaultData exported ∅)) = Some Sample.fundedRecord.
Proof.
  destruct (export_import_roundtrip "0xab" Sample.funded ∅ Sample.fundedRecord)
    as (exported & He & Hi & _); [vm_compute; reflexivity|].
  exists exported. split; [exact He|]. apply Hi. discriminate.
Defined.

(** ** The reports built on the status ([status.ts]) *)

Lemma In_if {A} (c : bool) (x y : A) :
  In x (if c then [y] else []) <-> c = true /\ y = x.
Proof. destruct c; cbn; split; [tauto | tauto | tauto | intros [? _]; discriminate]. Qed.

Lemma getVaultStatus_fields (fw : Framework) (now : Z) (vaultAddress : string)
    (st : Store) (record : VaultStorage.t) :
  loadVaultData vaultAddress st = Some record ->
  exists state,
    getVaultStatus fw now vaultAddress st = Ok state /\
    VaultState.config state
      = withTotalValue (getBalance fw vaultAddress) (VaultStorage.config record) /\
    VaultState.beneficiaries state = VaultStorage.beneficiaries record /\
    VaultState.checkIns state = VaultStorage.checkIns record /\
    VaultState.timeRemaining state
      = Z.max 0 (VaultConfig.nextDeadline (VaultStorage.config record) - now) /\
    VaultState.canCheckIn state = canCheckIn vaultAddress st.
Proof.
  intros Hload. unfold getVaultStatus. rewrite Hload. eexists. split; [reflexivity|].
  repeat split.
Qed.

Lemma filter_hasClaimed_all (bs : list Beneficiary.t) :
  length (List.filter Beneficiary.hasClaimed bs) = length bs <->
  forallb Beneficiary.hasClaimed bs = true.
Proof.
  induction bs as [|b bs IH]; cbn [List.filter forallb length]; [tauto|].
  pose proof (filter_length_le Beneficiary.hasClaimed bs) as Hle.
  destruct (Beneficiary.hasClaimed b); cbn [length andb].
  - rewrite <- IH. lia.
  - split; [lia | discriminate].
Qed.

(** X18.  The numbers of [getOwnerDashboard] on a stored vault.  The balance
    is the one read from the chain, not the value stored at creation;
    allocated and unallocated add up to it, so the unallocated amount is
    negative when the vault holds less than was allotted; the claimed
    count lies between 0 and the number of beneficiaries; the status is
    CREATED exactly when there is no beneficiary, and EMPTY when all of
    at least one have claimed; the can-check-in flag is the answer of
    [canCheckIn]. *)
Theorem getOwnerDashboard_accounts (fw : Framework) (now : Z) (vaultAddress : string)
    (st : Store) (record : VaultStorage.t) :
  loadVaultData vaultAddress st = Some record ->
  exists dashboard,
    getOwnerDashboard fw now vaultAddress st = Ok dashboard /\
    OwnerDashboard.balance dashboard = getBalance fw vaultAddress /\
    OwnerDashboard.totalAllocated dashboard
      = totalAllocationOf (VaultStorage.beneficiaries record) /\
    OwnerDashboard.totalAllocated dashboard + OwnerDashboard.unallocated dashboard
      = OwnerDashboard.balance dashboard /\
    OwnerDashboard.beneficiaryCount dashboard
      = Z.of_nat (length (VaultStorage.beneficiaries record)) /\
    OwnerDashboard.checkInCount dashboard
      = Z.of_nat (length (VaultStorage.checkIns record)) /\
    0 <= OwnerDashboard.claimedCount dashboard <= OwnerDashboard.beneficiaryCount dashboard /\
    (OwnerDashboard.status dashboard = CREATED
       <-> OwnerDashboard.beneficiaryCount dashboard = 0) /\
    (0 < OwnerDashboard.beneficiaryCount dashboard ->
     OwnerDashboard.claimedCount dashboard = OwnerDashboard.beneficiaryCount dashboard ->
     OwnerDashboard.status dashboard = EMPTY) /\
    OwnerDashboard.nextDeadline dashboard
      = VaultConfig.nextDeadline (VaultStorage.config record) /\
    OwnerDashboard.canCheckIn dashboard = canCheckIn vaultAddress st.
Proof.
  intros Hload. unfold getOwnerDashboard, getVaultStatus. rewrite Hload.
  eexists. split; [reflexivity|].
  cbn [OwnerDashboard.balance OwnerDashboard.totalAllocated OwnerDashboard.unallocated
       OwnerDashboard.beneficiaryCount OwnerDashboard.checkInCount
       OwnerDashboard.claimedCount OwnerDashboard.status OwnerDashboard.nextDeadline
       OwnerDashboard.canCheckIn VaultState.config VaultState.beneficiaries
       VaultState.checkIns VaultState.status VaultState.canCheckIn VaultState.timeRemaining
       withTotalValue VaultConfig.totalValue VaultConfig.nextDeadline].
  pose proof (filter_length_le Beneficiary.hasClaimed (VaultStorage.beneficiaries record)).
  split; [reflexivity|]. split; [reflexivity|]. split; [lia|].
  split; [reflexivity|]. split; [reflexivity|]. split; [lia|].
  split; [|split; [|split; reflexivity]].
  - destruct (VaultStorage.beneficiaries record) as [|b bs] eqn:Hbs.
    + cbn. split; reflexivity.
    + cbn [length Nat.eqb Nat.ltb Nat.leb andb].
      split; [|intros Hz; lia].
      rewrite andb_true_r.
      destruct (forallb _ _); [discriminate|].
      repeat match goal with |- context [if ?c then _ else _] => destruct c end;
        discriminate.
  - intros Hpos Hall.
    assert (Hf : forallb Beneficiary.hasClaimed (VaultStorage.beneficiaries record) = true)
      by (apply filter_hasClaimed_all; lia).
    rewrite Hf.
    destruct (VaultStorage.beneficiaries record); [cbn in Hpos; lia | reflexivity].
Qed.

Lemma getOwnerDashboard_accounts_witness :
  exists dashboard,
    getOwnerDashboard (Sample.fw 60) 1500 Sample.vault Sample.afterBobClaim = Ok dashboard /\
    OwnerDashboard.unallocated dashboard = -40 /\
    OwnerDashboard.claimedCount dashboard = 1.
Proof.
  destruct (getOwnerDashboard_accounts (Sample.fw 60) 1500 Sample.vault Sample.afterBobClaim
              Sample.afterBobClaimRecord) as (dashboard & Hd & Hb & Ht & Hsum & _);
    [vm_compute; reflexivity|].
  exists dashboard. split; [exact Hd|].
  split; [|vm_compute in Hd; injection Hd as <-; reflexivity].
  assert (Hbalance : OwnerDashboard.balance dashboard = 60) by (rewrite Hb; reflexivity).
  assert (Htotal : OwnerDashboard.totalAllocated dashboard = 100) by (rewrite Ht; reflexivity).
  lia.
Defined.

(** X19.  [checkVaultHealth] on a stored vault.  It is healthy exactly when
    the balance on chain is not 0 and covers the stored allocations,
    claimed ones included.  The warning that the deadline has passed is
    given exactly when the clock has reached the deadline and the status
    is not EMPTY, so also for a vault without beneficiaries; the
    approaching warning exactly in the last hour before the deadline; the
    missing-delegations warning exactly when fewer delegations are
    active than there are beneficiaries. *)
Theorem checkVaultHealth_verdict (fw : Framework) (now : Z) (vaultAddress : string)
    (st : Store) (record : VaultStorage.t) :
  loadVaultData vaultAddress st = Some record ->
  let balance := getBalance fw vaultAddress in
  let total := totalAllocationOf (VaultStorage.beneficiaries record) in
  let deadline := VaultConfig.nextDeadline (VaultStorage.config record) in
  exists health state,
    checkVaultHealth fw now vaultAddress st = Ok health /\
    getVaultStatus fw now vaultAddress st = Ok state /\
    (VaultHealth.isHealthy health = true <-> balance <> 0 /\ total <= balance) /\
    (VaultHealth.isHealthy health = true <-> VaultHealth.errors health = []) /\
    (In ZeroBalance (VaultHealth.errors health) <-> balance = 0) /\
    (In (OverAllocated total balance) (VaultHealth.errors health) <-> balance < total) /\
    (In DeadlinePassed (VaultHealth.warnings health)
       <-> deadline <= now /\ VaultState.status state <> EMPTY) /\
    (In (DeadlineApproaching (deadline - now)) (VaultHealth.warnings health)
       <-> 0 < deadline - now < 3600) /\
    (In (MissingDelegations
           (Z.of_nat (length (getActiveDelegations vaultAddress st)))
           (Z.of_nat (length (VaultStorage.beneficiaries record))))
        (VaultHealth.warnings health)
       <-> (length (getActiveDelegations vaultAddress st)
            < length (VaultStorage.beneficiaries record))%nat).
Proof.
  intros Hload. cbv zeta. unfold checkVaultHealth.
  destruct (getVaultStatus_fields fw now vaultAddress st record Hload)
    as (state & Hs & Hconfig & Hbs & _ & Htime & _).
  rewrite Hs, Hconfig, Hbs, Htime. cbn [withTotalValue VaultConfig.totalValue].
  set (balance := getBalance fw vaultAddress).
  set (total := totalAllocationOf (VaultStorage.beneficiaries record)).
  set (deadline := VaultConfig.nextDeadline (VaultStorage.config record)).
  eexists _, state. split; [reflexivity|]. split; [reflexivity|].
  cbn [VaultHealth.isHealthy VaultHealth.errors VaultHealth.warnings].
  assert (Heqb : VaultStatus_eqb (VaultState.status state) EMPTY = true
                 <-> VaultState.status state = EMPTY)
    by (destruct (VaultState.status state); cbn; split; congruence).
  rewrite !in_app_iff, !In_if, !andb_true_iff, negb_true_iff, <- not_true_iff_false, Heqb.
  rewrite Z.eqb_eq, !Z.gtb_lt, Z.ltb_lt, Z.eqb_eq, Nat.ltb_lt.
  split; [|split].
  - destruct (Z.eqb_spec balance 0), (Z.gtb_spec total balance); cbn; split;
      try discriminate; try reflexivity; lia.
  - destruct (balance =? 0), (total >? balance); cbn; split; congruence.
  - split; [|split; [|split; [|split]]].
    + split; [intros [[? _]|[_ H]]; [assumption | discriminate H]|].
      intros ?. left. split; [assumption | reflexivity].
    + split; [intros [[_ H]|[? _]]; [discriminate H | lia]|].
      intros ?. right. split; [lia | reflexivity].
    + split.
      * intros [[_ H]|[[[? ?] _]|[_ H]]];
          [discriminate H | split; [lia | assumption] | discriminate H].
      * intros [? ?]. right. left. split; [split; [lia | assumption] | reflexivity].
    + split.
      * intros [[[? ?] _]|[[_ H]|[_ H]]]; [lia | discriminate H | discriminate H].
      * intros ?. left. split; [lia | f_equal; lia].
    + split.
      * intros [[_ H]|[[_ H]|[? _]]]; [discriminate H | discriminate H | assumption].
      * intros ?. right. right. split; [assumption | reflexivity].
Qed.

Lemma checkVaultHealth_verdict_witness :
  exists health,
    checkVaultHealth (Sample.fw 60) 1500 Sample.vault Sample.afterBobClaim = Ok health /\
    VaultHealth.isHealthy health = false /\
    In DeadlinePassed (VaultHealth.warnings health).
Proof.
  destruct (checkVaultHealth_verdict (Sample.fw 60) 1500 Sample.vault Sample.afterBobClaim
              Sample.afterBobClaimRecord)
    as (health & state & Hh & Hs & Hok & _ & _ & _ & Hpassed & _);
    [vm_compute; reflexivity|].
  exists health. split; [exact Hh|]. split.
  - apply not_true_iff_false. intros Hyes. apply Hok in Hyes as [_ Hfits].
    vm_compute in Hfits. apply Hfits. reflexivity.
  - apply Hpassed. split; [vm_compute; discriminate|].
    vm_compute in Hs. injection Hs as <-. discriminate.
Defined.

(** X20.  [getBeneficiaryView] on a stored vault.  For an address that is not
    listed it gives the ineligible view, all zeros.  For a beneficiary it
    gives the stored allocation, share, claimed flag and claim hash, and
    the seconds left until the deadline; it calls the claim possible
    exactly when the deadline has been reached and the beneficiary has
    not claimed.  The delegation is not looked at: whenever [canClaim]
    says yes the view does too, and when the view says yes [canClaim]
    either agrees or refuses for a missing or a disabled delegation. *)
Theorem getBeneficiaryView_vs_canClaim (fw : Framework) (now : Z)
    (vaultAddress account : string) (st : Store) (record : VaultStorage.t) :
  loadVaultData vaultAddress st = Some record ->
  let deadline := VaultConfig.nextDeadline (VaultStorage.config record) in
  exists view,
    getBeneficiaryView fw now vaultAddress account st = Ok view /\
    match List.find (fun b => eqIgnoreCase (Beneficiary.address b) account)
            (VaultStorage.beneficiaries record) with
    | None =>
        view = BeneficiaryView.mk false 0 0 false false 0 None /\
        canClaim now vaultAddress account st = inl NotABeneficiary
    | Some b =>
        BeneficiaryView.isEligible view = true /\
        BeneficiaryView.allocation view = Beneficiary.allocation b /\
        BeneficiaryView.percentage view = Beneficiary.percentage b /\
        BeneficiaryView.hasClaimed view = Beneficiary.hasClaimed b /\
        BeneficiaryView.claimTxHash view = Beneficiary.claimTxHash b /\
        BeneficiaryView.timeUntilClaim view = Z.max 0 (deadline - now) /\
        (BeneficiaryView.canClaimNow view = true
           <-> deadline <= now /\ Beneficiary.hasClaimed b = false)
    end /\
    (canClaim now vaultAddress account st = inr tt ->
     BeneficiaryView.canClaimNow view = true) /\
    (BeneficiaryView.canClaimNow view = true ->
     canClaim now vaultAddress account st = inr tt \/
     canClaim now vaultAddress account st = inl DelegationNotFound \/
     canClaim now vaultAddress account st = inl DelegationDisabled).
Proof.
  intros Hload deadline. unfold getBeneficiaryView, getVaultStatus, canClaim.
  rewrite Hload. cbn [VaultState.beneficiaries VaultState.config withTotalValue
                      VaultConfig.nextDeadline].
  fold deadline.
  destruct (List.find _ (VaultStorage.beneficiaries record)) as [b|].
  2:{ eexists. split; [reflexivity|]. split; [split; reflexivity|].
      cbn. split; discriminate. }
  eexists. split; [reflexivity|].
  cbn [BeneficiaryView.isEligible BeneficiaryView.allocation BeneficiaryView.percentage
       BeneficiaryView.hasClaimed BeneficiaryView.claimTxHash
       BeneficiaryView.timeUntilClaim BeneficiaryView.canClaimNow].
  unfold calculateTimeRemaining, isDeadlinePassed.
  cbn [TimeCalculation.isPast TimeCalculation.secondsRemaining].
  assert (Hgeb : (now >=? deadline) = (deadline - now <=? 0)).
  { destruct (Z.geb_spec now deadline), (Z.leb_spec (deadline - now) 0); (reflexivity || lia). }
  rewrite Hgeb.
  split.
  - do 6 (split; [reflexivity|]).
    rewrite andb_true_iff, negb_true_iff, Z.leb_le.
    split; intros [? ?]; split; (lia || assumption).
  - destruct (Beneficiary.hasClaimed b);
      [rewrite andb_false_r; split; discriminate|].
    rewrite andb_true_r.
    destruct (getBeneficiaryDelegation vaultAddress account st) as [d|];
      [|split; [discriminate | tauto]].
    destruct (StoredDelegation.isDisabled d); [split; [discriminate | tauto]|].
    destruct (deadline - now <=? 0); cbn [negb]; split; (discriminate || tauto).
Qed.

Lemma getBeneficiaryView_vs_canClaim_witness :
  exists view,
    getBeneficiaryView (Sample.fw 60) 1402 Sample.vault "0xca701" Sample.afterFailedCheckIn
      = Ok view /\
    BeneficiaryView.canClaimNow view = true /\
    canClaim 1402 Sample.vault "0xca701" Sample.afterFailedCheckIn = inl DelegationDisabled.
Proof.
  pose (record := match loadVaultData Sample.vault Sample.afterFailedCheckIn with
                  | Some r => r | None => Sample.fundedRecord end).
  destruct (getBeneficiaryView_vs_canClaim (Sample.fw 60) 1402 Sample.vault "0xca701"
              Sample.afterFailedCheckIn record) as (view & Hv & _ & _ & _);
    [vm_compute; reflexivity|].
  exists view. split; [exact Hv|].
  vm_compute in Hv. injection Hv as <-. split; reflexivity.
Defined.

(** ** Flipping one delegation ([delegation-storage.ts]) *)

Lemma markFirst_find (h : string) (flag : bool) (ds : list StoredDelegation.t) :
  match List.find (fun d => eqIgnoreCase (StoredDelegation.hash d) h) ds with
  | None => markFirst h flag ds = None
  | Some d =>
      exists before after,
        ds = (before ++ d :: after)%list /\
        Forall (fun x => eqIgnoreCase (StoredDelegation.hash x) h = false) before /\
        markFirst h flag ds = Some (before ++ setIsDisabled flag d :: after)%list
  end.
Proof.
  induction ds as [|x ds IH]; cbn [List.find markFirst]; [reflexivity|].
  destruct (eqIgnoreCase (StoredDelegation.hash x) h) eqn:Hx.
  - exists [], ds. repeat split. constructor.
  - destruct (List.find _ ds) as [d|].
    + destruct IH as (before & after & -> & Hall & ->).
      exists (x :: before), after. repeat split. constructor; assumption.
    + rewrite IH. reflexivity.
Qed.

(** X21.  [updateDelegationStatus] changes one flag and nothing else.  Without
    a stored vault, or without a stored delegation of that hash (case
    ignored), it answers [false] and writes nothing.  Otherwise it
    answers [true] and saves the record with the first delegation of that
    hash set to the flag given, every other delegation, the order, the
    beneficiaries, the configuration and the history as they were, and
    the time of the call as time of the last update. *)
Theorem updateDelegationStatus_flips_one (now : Z) (vaultAddress delegationHash : string)
    (isDisabled : bool) (st : Store) :
  (loadVaultData vaultAddress st = None ->
   updateDelegationStatus now vaultAddress delegationHash isDisabled st = (false, st)) /\
  (forall record,
     loadVaultData vaultAddress st = Some record ->
     match List.find (fun d => eqIgnoreCase (StoredDelegation.hash d) delegationHash)
             (VaultStorage.delegations record) with
     | None =>
         updateDelegationStatus now vaultAddress delegationHash isDisabled st = (false, st)
     | Some d =>
         exists before after,
           VaultStorage.delegations record = (before ++ d :: after)%list /\
           Forall (fun x => eqIgnoreCase (StoredDelegation.hash x) delegationHash = false)
                  before /\
           updateDelegationStatus now vaultAddress delegationHash isDisabled st
           = (true,
              saveVaultData vaultAddress
                (VaultStorage.mk (VaultStorage.config record)
                   (VaultStorage.beneficiaries record)
                   (before ++ setIsDisabled isDisabled d :: after)%list
                   (VaultStorage.checkIns record) now) st) /\
           loadVaultData vaultAddress
             (snd (updateDelegationStatus now vaultAddress delegationHash isDisabled st))
           = Some (VaultStorage.mk (VaultStorage.config record)
                     (VaultStorage.beneficiaries record)
                     (before ++ setIsDisabled isDisabled d :: after)%list
                     (VaultStorage.checkIns record) now)
     end).
Proof.
  unfold updateDelegationStatus. split.
  - intros ->. reflexivity.
  - intros record ->.
    pose proof (markFirst_find delegationHash isDisabled (VaultStorage.delegations record))
      as Hm.
    destruct (List.find _ (VaultStorage.delegations record)) as [d|].
    + destruct Hm as (before & after & Hds & Hall & ->).
      exists before, after. split; [exact Hds|]. split; [exact Hall|].
      split; [reflexivity|]. cbn [snd]. apply load_save_same.
    + rewrite Hm. reflexivity.
Qed.

Lemma updateDelegationStatus_flips_one_witness :
  updateDelegationStatus 1200 Sample.vault "0xnohash" true Sample.funded
  = (false, Sample.funded).
Proof.
  destruct (updateDelegationStatus_flips_one 1200 Sample.vault "0xnohash" true Sample.funded)
    as [_ H].
  exact (H Sample.fundedRecord sample_funded_load).
Defined.

Lemma find_map_same {A} (p : A -> bool) (f : A -> A) (l : list A) :
  (forall x, p (f x) = p x) ->
  List.find p (map f l) = option_map f (List.find p l).
Proof.
  intros Hp. induction l as [|x l IH]; cbn [map List.find]; [reflexivity|].
  rewrite Hp. destruct (p x); [reflexivity | exact IH].
Qed.

Lemma filter_active_markAll (h : string) (ds : list StoredDelegation.t) :
  List.filter (fun d => negb (StoredDelegation.isDisabled d)) (markAll h ds)
  = List.filter (fun d => negb (eqIgnoreCase (StoredDelegation.hash d) h))
      (List.filter (fun d => negb (StoredDelegation.isDisabled d)) ds).
Proof.
  induction ds as [|x ds IH]; [reflexivity|]. cbn [markAll map List.filter].
  fold (markAll h ds).
  destruct (eqIgnoreCase (StoredDelegation.hash x) h) eqn:Hx;
    cbn [setIsDisabled StoredDelegation.isDisabled negb].
  - destruct (StoredDelegation.isDisabled x); cbn [negb List.filter];
      [|rewrite Hx; cbn [negb]]; exact IH.
  - destruct (StoredDelegation.isDisabled x); cbn [negb List.filter]; [exact IH|].
    rewrite Hx. cbn [negb]. f_equal. exact IH.
Qed.

(** X22.  Disabling the stored delegation of a beneficiary, on a vault whose
    stored hashes are pairwise different, blocks that beneficiary: the
    call answers [true]; the delegation the beneficiary would claim with
    is now the same one marked disabled; from then on [simpleClaim] by
    that beneficiary fails with [DelegationDisabledError] and writes
    nothing, at any time and whatever the chain would answer.  The active
    delegations are those that were active, without that one, so
    delegations of others stay active. *)
Theorem disabling_blocks_claim (fw : Framework) (now : Z) (later : ClaimClock.t)
    (vaultAddress account : string) (st : Store) (record : VaultStorage.t)
    (b : Beneficiary.t) (d : StoredDelegation.t) :
  loadVaultData vaultAddress st = Some record ->
  NoDup (map lowerHash (VaultStorage.delegations record)) ->
  List.find (fun x => eqIgnoreCase (Beneficiary.address x) account)
    (VaultStorage.beneficiaries record) = Some b ->
  getBeneficiaryDelegation vaultAddress account st = Some d ->
  let outcome := updateDelegationStatus now vaultAddress (StoredDelegation.hash d) true st in
  fst outcome = true /\
  getBeneficiaryDelegation vaultAddress account (snd outcome) = Some (setIsDisabled true d) /\
  simpleClaim fw later vaultAddress account (snd outcome)
    = (Err DelegationDisabledError, snd outcome) /\
  getActiveDelegations vaultAddress (snd outcome)
    = List.filter (fun x => negb (eqIgnoreCase (StoredDelegation.hash x)
                                    (StoredDelegation.hash d)))
        (getActiveDelegations vaultAddress st).
Proof.
  intros Hload Hnd Hb Hd outcome.
  rewrite (getBeneficiaryDelegation_load _ _ _ _ Hload) in Hd.
  assert (Hin : In d (VaultStorage.delegations record)) by (apply find_some in Hd; tauto).
  assert (Hfst : fst outcome = true).
  { subst outcome. unfold updateDelegationStatus. rewrite Hload.
    pose proof (markFirst_find (StoredDelegation.hash d) true
                  (VaultStorage.delegations record)) as Hm.
    destruct (List.find (fun x => eqIgnoreCase (StoredDelegation.hash x)
                                    (StoredDelegation.hash d))
                (VaultStorage.delegations record)) as [d'|] eqn:Hf.
    - destruct Hm as (? & ? & _ & _ & ->). reflexivity.
    - exfalso. apply (find_none _ _ Hf) in Hin. cbn in Hin.
      rewrite eqIgnoreCase_refl in Hin. discriminate. }
  destruct (updateDelegationStatus_load now vaultAddress (StoredDelegation.hash d) st record
              Hload Hnd) as [lu Hl].
  fold outcome in Hl.
  assert (Hd' : List.find (fun x => eqIgnoreCase (StoredDelegation.beneficiaryAddress x) account)
                  (markAll (StoredDelegation.hash d) (VaultStorage.delegations record))
                = Some (setIsDisabled true d)).
  { unfold markAll. rewrite find_map_same
      by (intros x; destruct (eqIgnoreCase (StoredDelegation.hash x) _); reflexivity).
    rewrite Hd. cbn [option_map]. rewrite eqIgnoreCase_refl. reflexivity. }
  split; [exact Hfst|]. split; [|split].
  - rewrite (getBeneficiaryDelegation_load _ _ _ _ Hl). exact Hd'.
  - apply (simpleClaim_disabled fw later vaultAddress account (snd outcome) _ b
             (setIsDisabled true d) Hl); [exact Hb | exact Hd' | reflexivity].
  - unfold getActiveDelegations. rewrite Hl, Hload. cbn [setDelegations VaultStorage.delegations].
    apply filter_active_markAll.
Qed.

Lemma disabling_blocks_claim_witness :
  let outcome :=
    updateDelegationStatus 1200 Sample.vault (StoredDelegation.hash Sample.bobDelegation)
      true Sample.funded in
  simpleClaim (Sample.fw 100) (Sample.clockAt 1400) Sample.vault "0xb0b" (snd outcome)
    = (Err DelegationDisabledError, snd outcome) /\
  map StoredDelegation.beneficiaryAddress (getActiveDelegations Sample.vault (snd outcome))
    = ["0xCA701"].
Proof.
  intros outcome.
  destruct (disabling_blocks_claim (Sample.fw 100) 1200 (Sample.clockAt 1400) Sample.vault
              "0xb0b"
              Sample.funded Sample.fundedRecord Sample.bobEntry Sample.bobDelegation
              sample_funded_load sample_funded_NoDup)
    as (_ & _ & Hclaim & Hactive); [vm_compute; reflexivity ..|].
  split; [exact Hclaim|]. fold outcome in Hactive. rewrite Hactive. reflexivity.
Defined.

(** ** After a setup ([setup-beneficiaries.ts], [status.ts], [check-in.ts]) *)

Lemma map_allocation_of_share (bs : list Beneficiary.t) (inputs : list BeneficiaryInput.t) :
  map shareOf bs = map shareOfInput inputs ->
  map Beneficiary.allocation bs = map BeneficiaryInput.allocation inputs.
Proof.
  intros H. apply (f_equal (map (fun s : string * string * Z => snd s))) in H.
  rewrite !map_map in H. exact H.
Qed.

Lemma createAll_lengths (fw : Framework) (now : Z) (vaultAddress : string)
    (vaultBalance deadline : Z) (inputs : list BeneficiaryInput.t)
    (bs : list Beneficiary.t) (sds : list StoredDelegation.t) :
  createAll fw now vaultAddress vaultBalance deadline inputs = Some (bs, sds) ->
  length bs = length inputs /\ length sds = length inputs /\
  forallb Beneficiary.hasClaimed bs = negb (0 <? length inputs)%nat /\
  List.filter (fun d => negb (StoredDelegation.isDisabled d)) sds = sds.
Proof.
  intros Hc. apply createAll_Some in Hc as (Hshares & Hfresh & Haddr & Hall).
  apply (f_equal (@length _)) in Hshares, Haddr. rewrite !length_map in Hshares, Haddr.
  split; [exact Hshares|]. split; [exact Haddr|]. split.
  - destruct Hfresh as [|b bs Hb _]; [destruct inputs; [reflexivity | discriminate]|].
    destruct inputs; [discriminate|]. cbn. rewrite Hb. reflexivity.
  - clear -Hall. induction Hall as [|d sds (Hd & _) _ IH]; [reflexivity|].
    cbn. rewrite Hd. cbn. f_equal. exact IH.
Qed.

(** X23.  A vault on which [setupBeneficiaries] has just succeeded with at
    least one beneficiary, read with the same balance on chain: its
    status is ACTIVE before the configured deadline and CLAIMABLE from
    then on (the deadline handed to the setup plays no part), the owner
    can check in, there are as many active delegations as beneficiaries,
    and [checkVaultHealth] finds it healthy, with no delegation
    missing. *)
Theorem setupBeneficiaries_then_status (fw : Framework) (now later : Z)
    (vaultAddress : string) (inputs : list BeneficiaryInput.t) (deadline : Z)
    (st st' : Store) (bs : list Beneficiary.t) (record : VaultStorage.t) :
  loadVaultData vaultAddress st = Some record ->
  setupBeneficiaries fw now vaultAddress inputs deadline st = (Ok bs, st') ->
  inputs <> [] ->
  exists state health,
    getVaultStatus fw later vaultAddress st' = Ok state /\
    VaultState.status state
      = (if later >=? VaultConfig.nextDeadline (VaultStorage.config record)
         then CLAIMABLE else ACTIVE) /\
    VaultState.canCheckIn state = true /\
    VaultState.beneficiaries state = bs /\
    length (getActiveDelegations vaultAddress st') = length bs /\
    length bs = length inputs /\
    checkVaultHealth fw later vaultAddress st' = Ok health /\
    VaultHealth.isHealthy health = true /\
    (forall active listed, ~ In (MissingDelegations active listed) (VaultHealth.warnings health)).
Proof.
  intros Hload Hsetup Hne.
  destruct (setupBeneficiaries_stored _ _ _ _ _ _ _ _ _ Hload Hsetup) as (sds & Hc & _ & Hl).
  pose proof (createAll_lengths _ _ _ _ _ _ _ _ Hc) as (Hlb & Hld & Hclaimed & Hactive).
  pose proof (setupBeneficiaries_Ok_checks _ _ _ _ _ _ _ _ Hsetup) as [_ Heach].
  apply validateEach_None in Heach.
  pose proof (setupBeneficiaries_Ok _ _ _ _ _ _ _ _ Hsetup) as [Htot _].
  assert (Hpos : Forall (fun b => 0 < Beneficiary.allocation b) bs).
  { apply createAll_Some in Hc as (Hshares & _).
    apply map_allocation_of_share in Hshares.
    apply List.Forall_forall. intros b Hb.
    assert (Hin : In (Beneficiary.allocation b) (map BeneficiaryInput.allocation inputs))
      by (rewrite <- Hshares; apply in_map, Hb).
    apply in_map_iff in Hin as (i & Hi & Hin). rewrite List.Forall_forall in Heach.
    rewrite <- Hi. apply (Heach i Hin). }
  assert (Htotal : totalAllocationOf bs
                   = fold_left (fun sum b => sum + BeneficiaryInput.allocation b) inputs 0).
  { unfold totalAllocationOf.
    rewrite (fold_allocations_map Beneficiary.allocation).
    rewrite (fold_allocations_map BeneficiaryInput.allocation). f_equal.
    apply createAll_Some in Hc as (Hshares & _).
    exact (map_allocation_of_share _ _ Hshares). }
  assert (Hbs : bs <> []) by (destruct bs, inputs; cbn in Hlb; congruence).
  destruct (totalAllocationOf_positive bs Hpos) as (_ & _ & Hsum). specialize (Hsum Hbs).
  assert (Hlen : (0 <? length inputs)%nat = true)
    by (destruct inputs; [congruence | reflexivity]).
  assert (Hact : getActiveDelegations vaultAddress st' = sds).
  { unfold getActiveDelegations. rewrite Hl. exact Hactive. }
  unfold checkVaultHealth, getVaultStatus. rewrite Hl, Hact.
  cbn [setBeneficiariesAndDelegations VaultStorage.beneficiaries VaultStorage.config
       VaultStorage.delegations VaultStorage.checkIns].
  rewrite Hclaimed, Hlb, Hld, !Hlen. cbn [negb andb].
  assert (Hlen0 : (length inputs =? 0)%nat = false)
    by (destruct inputs; [congruence | reflexivity]).
  rewrite Hlen0.
  assert (Hbal : (getBalance fw vaultAddress =? 0) = false) by (apply Z.eqb_neq; lia).
  rewrite Hbal.
  unfold calculateTimeRemaining.
  cbn [TimeCalculation.isPast TimeCalculation.secondsRemaining withTotalValue
       VaultConfig.nextDeadline VaultConfig.totalValue].
  eexists _, _. split; [reflexivity|].
  cbn [VaultState.status VaultState.canCheckIn VaultState.beneficiaries VaultState.config
       VaultState.timeRemaining VaultHealth.isHealthy VaultHealth.warnings
       withTotalValue VaultConfig.totalValue].
  split.
  { destruct (Z.geb_spec later (VaultConfig.nextDeadline (VaultStorage.config record))),
             (Z.leb_spec (VaultConfig.nextDeadline (VaultStorage.config record) - later) 0);
      (reflexivity || lia). }
  split; [reflexivity|]. split; [reflexivity|]. split; [congruence|]. split; [congruence|].
  split; [reflexivity|]. cbn [VaultHealth.isHealthy VaultHealth.warnings].
  rewrite ?Hbal, ?Htotal.
  split.
  { destruct (Z.gtb_spec
                (fold_left (fun sum b => sum + BeneficiaryInput.allocation b) inputs 0)
                (getBalance fw vaultAddress)); [lia | reflexivity]. }
  intros active listed. rewrite ?Hlb, Nat.ltb_irrefl, app_nil_r, in_app_iff, !In_if.
  intros [[_ H]|[_ H]]; discriminate H.
Qed.

Lemma setupBeneficiaries_then_status_witness :
  exists state,
    getVaultStatus (Sample.fw 100) 1300 Sample.vault Sample.funded = Ok state /\
    VaultState.status state = CLAIMABLE.
Proof.
  destruct (setupBeneficiaries_then_status (Sample.fw 100) 1001 1300 Sample.vault
              [Sample.bob; Sample.carol] 1300 Sample.created Sample.funded
              (VaultStorage.beneficiaries Sample.fundedRecord)
              (VaultStorage.mk Sample.config [] [] [] 1000))
    as (state & health & Hs & Hstatus & _);
    [vm_compute; reflexivity | vm_compute; reflexivity | discriminate |].
  exists state. split; [exact Hs | exact Hstatus].
Defined.

(** X24.  [setupBeneficiaries] with no beneficiary at all, on a stored vault
    with a balance that is not negative: it succeeds and empties the
    stored beneficiaries and delegations.  The status is then CREATED,
    [getBeneficiaryView] finds nobody eligible and every claim fails for
    want of a beneficiary; the owner cannot check in any more, the
    check-in failing for want of an active delegation. *)
Theorem setupBeneficiaries_empty_clears (fw : Framework) (now : Z) (vaultAddress : string)
    (deadline : Z) (st : Store) (record : VaultStorage.t) :
  loadVaultData vaultAddress st = Some record ->
  0 <= getBalance fw vaultAddress ->
  let outcome := setupBeneficiaries fw now vaultAddress [] deadline st in
  fst outcome = Ok [] /\
  loadVaultData vaultAddress (snd outcome)
    = Some (VaultStorage.mk (VaultStorage.config record) [] []
              (VaultStorage.checkIns record) now) /\
  (forall fw' later clock recordedAt savedAt,
     (exists state,
        getVaultStatus fw' later vaultAddress (snd outcome) = Ok state /\
        VaultState.status state = CREATED /\ VaultState.canCheckIn state = false) /\
     (forall account,
        simpleClaim fw' clock vaultAddress account (snd outcome)
          = (Err (NotFoundError MissingBeneficiary), snd outcome) /\
        canClaim later vaultAddress account (snd outcome) = inl NotABeneficiary) /\
     (forall newCheckInPeriodDays,
        simpleCheckIn fw' later recordedAt savedAt vaultAddress newCheckInPeriodDays
          (snd outcome)
          = (Err NoActiveDelegationsError, snd outcome))).
Proof.
  intros Hload Hbal outcome.
  assert (Hout : outcome
                 = (Ok [], saveVaultData vaultAddress
                             (VaultStorage.mk (VaultStorage.config record) [] []
                                (VaultStorage.checkIns record) now) st)).
  { subst outcome. unfold setupBeneficiaries. cbn [map validateEach fold_left createAll].
    change (thrownBy (validateNoDuplicates [])) with (@None ValidationMessage).
    destruct (Z.gtb_spec 0 (getBalance fw vaultAddress)); [lia|].
    rewrite Hload. reflexivity. }
  rewrite Hout. cbn [fst snd].
  set (st' := saveVaultData vaultAddress _ st).
  assert (Hl : loadVaultData vaultAddress st'
               = Some (VaultStorage.mk (VaultStorage.config record) [] []
                         (VaultStorage.checkIns record) now))
    by apply load_save_same.
  split; [reflexivity|]. split; [exact Hl|].
  intros fw' later clock recordedAt savedAt. split; [|split].
  - unfold getVaultStatus, getActiveDelegations. rewrite Hl. eexists. repeat split.
  - intros account. unfold simpleClaim, canClaim. rewrite Hl. split; reflexivity.
  - intros p. unfold simpleCheckIn, checkIn, getActiveDelegations.
    cbn [CheckInParams.vault]. rewrite Hl. reflexivity.
Qed.

Lemma setupBeneficiaries_empty_clears_witness :
  simpleCheckIn (Sample.fw 100) 1250 1250 1250 Sample.vault None
    (snd (setupBeneficiaries (Sample.fw 100) 1200 Sample.vault [] 1300 Sample.funded))
  = (Err NoActiveDelegationsError,
     snd (setupBeneficiaries (Sample.fw 100) 1200 Sample.vault [] 1300 Sample.funded)).
Proof.
  destruct (setupBeneficiaries_empty_clears (Sample.fw 100) 1200 Sample.vault 1300
              Sample.funded Sample.fundedRecord sample_funded_load)
    as (_ & _ & H); [vm_compute; discriminate|].
  destruct (H (Sample.fw 100) 1250 (Sample.clockAt 1250) 1250 1250) as (_ & _ & Hc).
  exact (Hc None).
Defined.

(** ** Claims and the deadline ([claim.ts], [check-in.ts]) *)

Lemma canClaim_before_deadline (now : Z) (vaultAddress account : string) (st : Store)
    (record : VaultStorage.t) :
  loadVaultData vaultAddress st = Some record ->
  now < VaultConfig.nextDeadline (VaultStorage.config record) ->
  canClaim now vaultAddress account st <> inr tt.
Proof.
  intros Hload Hearly. unfold canClaim. rewrite Hload.
  destruct (List.find _ (VaultStorage.beneficiaries record)); [|discriminate].
  destruct (Beneficiary.hasClaimed _); [discriminate|].
  destruct (getBeneficiaryDelegation _ _ _); [|discriminate].
  destruct (StoredDelegation.isDisabled _); [discriminate|].
  unfold isDeadlinePassed.
  destruct (Z.geb_spec now (VaultConfig.nextDeadline (VaultStorage.config record)));
    [lia | discriminate].
Qed.

(** X25.  No claim before the deadline.  [claimInheritance] looks the vault up
    under the [delegation.from] of the object it is handed.  As long as
    its clock reading has not reached the deadline stored for that vault
    it fails with [TooEarlyError], giving the time left at its next
    reading of the clock, without sending the redeeming transaction and
    without a write, whoever claims; and [canClaim] does not say yes
    then.  So a claim that succeeded was made, by the clock of its
    deadline test, at or after the deadline of a stored vault. *)
Theorem claims_wait_for_deadline (fw : Framework) (clock : ClaimClock.t)
    (params : ClaimParams.t) (st : Store) :
  (forall from record,
     SignedDelegation.delegation (ClaimParams.signedDelegation params) = Some from ->
     loadVaultData from st = Some record ->
     ClaimClock.deadlineTest clock < VaultConfig.nextDeadline (VaultStorage.config record) ->
     claimInheritance fw clock params st
     = (Err (TooEarlyError (VaultConfig.nextDeadline (VaultStorage.config record)
                            - ClaimClock.message clock)), st) /\
     forall account,
       canClaim (ClaimClock.deadlineTest clock) from account st <> inr tt) /\
  (forall receipt st',
     claimInheritance fw clock params st = (Ok receipt, st') ->
     exists from record,
       SignedDelegation.delegation (ClaimParams.signedDelegation params) = Some from /\
       loadVaultData from st = Some record /\
       VaultConfig.nextDeadline (VaultStorage.config record) <= ClaimClock.deadlineTest clock).
Proof.
  split.
  - intros from record Hfrom Hload Hearly. split.
    + exact (claimInheritance_too_early fw clock params st from record Hfrom Hload Hearly).
    + intros account. exact (canClaim_before_deadline _ _ _ _ _ Hload Hearly).
  - intros receipt st' Hok.
    destruct (SignedDelegation.delegation (ClaimParams.signedDelegation params))
      as [from|] eqn:Hfrom.
    2:{ unfold claimInheritance in Hok. rewrite Hfrom in Hok. discriminate. }
    destruct (loadVaultData from st) as [record|] eqn:Hload.
    2:{ unfold claimInheritance in Hok. rewrite Hfrom, Hload in Hok. discriminate. }
    exists from, record. split; [reflexivity|]. split; [exact Hload|].
    exact (proj1 (claimInheritance_Ok fw clock params st from record Hfrom Hload
                    receipt st' Hok)).
Qed.

Lemma claims_wait_for_deadline_witness :
  claimInheritance (Sample.fw 100) (ClaimClock.mk 1299 1300 1300 1300) Sample.bobClaim
    Sample.funded
  = (Err (TooEarlyError 0), Sample.funded) /\
  exists from record,
    SignedDelegation.delegation (ClaimParams.signedDelegation Sample.bobClaim) = Some from /\
    loadVaultData from Sample.funded = Some record /\
    VaultConfig.nextDeadline (VaultStorage.config record) <= 1400.
Proof.
  split.
  - exact (proj1 (proj1 (claims_wait_for_deadline (Sample.fw 100)
                           (ClaimClock.mk 1299 1300 1300 1300) Sample.bobClaim Sample.funded)
                    Sample.vault Sample.fundedRecord eq_refl sample_funded_load
                    ltac:(vm_compute; reflexivity))).
  - exact (proj2 (claims_wait_for_deadline (Sample.fw 100) (Sample.clockAt 1400)
                    Sample.bobClaim Sample.funded)
             (ClaimReceipt.mk "0xclaim" 40 21000) Sample.afterBobClaim
             ltac:(vm_compute; reflexivity)).
Defined.

(** X26.  A successful check-in postpones every claim.  The deadline of the
    check-in record is one period after the clock reading [now] made for
    it.  On the store the check-in left, [claimInheritance] for an object
    that names the vault fails with [TooEarlyError], without a
    transaction and without a write, as long as its clock reading has not
    reached that deadline, and [canClaim] does not say yes until then. *)
Theorem checkIn_postpones_claims (fw : Framework) (now recordedAt savedAt : Z)
    (params : CheckInParams.t) (st st' : Store) (record : VaultStorage.t)
    (checkInRecord : CheckInRecord.t) :
  loadVaultData (CheckInParams.vault params) st = Some record ->
  checkIn fw now recordedAt savedAt params st = (Ok checkInRecord, st') ->
  CheckInRecord.newDeadline checkInRecord
    = now + periodOf (CheckInParams.newCheckInPeriodDays params) (VaultStorage.config record)
            * unitSeconds (VaultConfig.checkInPeriodUnit (VaultStorage.config record)) /\
  (forall fw' clock claim from,
     SignedDelegation.delegation (ClaimParams.signedDelegation claim) = Some from ->
     storageKey from = storageKey (CheckInParams.vault params) ->
     ClaimClock.deadlineTest clock < CheckInRecord.newDeadline checkInRecord ->
     claimInheritance fw' clock claim st'
     = (Err (TooEarlyError (CheckInRecord.newDeadline checkInRecord
                            - ClaimClock.message clock)), st')) /\
  (forall later account,
     later < CheckInRecord.newDeadline checkInRecord ->
     canClaim later (CheckInParams.vault params) account st' <> inr tt).
Proof.
  intros Hload Hok.
  destruct (checkIn_Ok_load fw now recordedAt savedAt params st st' record checkInRecord
              Hload Hok) as (Hdeadline & _ & Hl).
  split; [rewrite Hdeadline; apply getDeadlineFromPeriod_unitSeconds|].
  rewrite Hdeadline. split.
  - intros fw' clock claim from Hfrom Hkey Hearly.
    rewrite <- (load_same_key _ _ st' Hkey) in Hl.
    exact (claimInheritance_too_early fw' clock claim st' from _ Hfrom Hl Hearly).
  - intros later account Hearly.
    exact (canClaim_before_deadline _ _ _ _ _ Hl Hearly).
Qed.

Lemma checkIn_postpones_claims_witness :
  let outcome :=
    checkIn (Sample.fw 100) 1290 1292 1292 (Sample.checkInWith None) Sample.funded in
  claimInheritance (Sample.fw 100) (Sample.clockAt 1400) Sample.bobClaim (snd outcome)
  = (Err (TooEarlyError 190), snd outcome).
Proof.
  intros outcome.
  destruct (checkIn_postpones_claims (Sample.fw 100) 1290 1292 1292 (Sample.checkInWith None)
              Sample.funded (snd outcome) Sample.fundedRecord (Sample.recordOf (fst outcome))
              sample_funded_load)
    as (_ & H & _); [vm_compute; reflexivity|].
  exact (H (Sample.fw 100) (Sample.clockAt 1400) Sample.bobClaim Sample.vault eq_refl eq_refl
           ltac:(vm_compute; reflexivity)).
Defined.

Lemma markClaimedFirst_others (address hash : string) (claimTimestamp : Z)
    (bs bs' : list Beneficiary.t) :
  markClaimedFirst address hash claimTimestamp bs = Some bs' ->
  map shareOf bs' = map shareOf bs /\
  forall other,
    eqIgnoreCase address other = false ->
    List.find (fun x => eqIgnoreCase (Beneficiary.address x) other) bs'
    = List.find (fun x => eqIgnoreCase (Beneficiary.address x) other) bs.
Proof.
  revert bs'. induction bs as [|x bs IH]; intros bs' H; cbn [markClaimedFirst] in H;
    [discriminate|].
  destruct (eqIgnoreCase (Beneficiary.address x) address) eqn:Hx.
  - injection H as <-. split; [reflexivity|].
    intros other Hother. cbn [List.find markClaimed Beneficiary.address].
    assert (Hxo : eqIgnoreCase (Beneficiary.address x) other = false).
    { apply eqIgnoreCase_eq in Hx. unfold eqIgnoreCase in *. rewrite Hx. exact Hother. }
    rewrite Hxo. reflexivity.
  - destruct (markClaimedFirst address hash claimTimestamp bs) as [rest|]; [|discriminate].
    injection H as <-. destruct (IH rest eq_refl) as [Hs Hf]. split.
    + cbn [map]. rewrite Hs. reflexivity.
    + intros other Hother. cbn [List.find]. rewrite (Hf other Hother). reflexivity.
Qed.

Lemma markClaimedFirst_None (address hash : string) (claimTimestamp : Z)
    (bs : list Beneficiary.t) :
  List.find (fun x => eqIgnoreCase (Beneficiary.address x) address) bs = None ->
  markClaimedFirst address hash claimTimestamp bs = None.
Proof.
  induction bs as [|x bs IH]; cbn [List.find markClaimedFirst]; [reflexivity|].
  destruct (eqIgnoreCase (Beneficiary.address x) address); [discriminate|].
  intros H. rewrite (IH H). reflexivity.
Qed.

(** X27.  A successful [claimInheritance] marks the claimant and nobody else.
    The object handed over carries [delegation.from], which names a
    stored vault kept under its own address.  When the vault does not
    list the address of the entry handed over, nothing is written.
    Otherwise the record after the claim has the same configuration,
    history and delegations, and the same beneficiaries with the same
    allocations in the same order; the first entry with that address is
    marked with the transaction and the clock reading made for it; the
    entry of every other address is untouched, and so is what [canClaim]
    and [getClaimStatus] say about it. *)
Theorem claim_marks_only_claimant (fw : Framework) (clock : ClaimClock.t)
    (params : ClaimParams.t) (st st' : Store) (from : string) (record : VaultStorage.t)
    (receipt : ClaimReceipt.t) :
  SignedDelegation.delegation (ClaimParams.signedDelegation params) = Some from ->
  loadVaultData from st = Some record ->
  storageKey (VaultConfig.vaultAddress (VaultStorage.config record)) = storageKey from ->
  claimInheritance fw clock params st = (Ok receipt, st') ->
  let account := Beneficiary.address (ClaimParams.beneficiary params) in
  (List.find (fun x => eqIgnoreCase (Beneficiary.address x) account)
     (VaultStorage.beneficiaries record) = None -> st' = st) /\
  (forall entry,
     List.find (fun x => eqIgnoreCase (Beneficiary.address x) account)
       (VaultStorage.beneficiaries record) = Some entry ->
     exists record',
       loadVaultData from st' = Some record' /\
       VaultStorage.config record' = VaultStorage.config record /\
       VaultStorage.checkIns record' = VaultStorage.checkIns record /\
       VaultStorage.delegations record' = VaultStorage.delegations record /\
       VaultStorage.lastUpdated record' = ClaimClock.lastUpdated clock /\
       map shareOf (VaultStorage.beneficiaries record')
         = map shareOf (VaultStorage.beneficiaries record) /\
       List.find (fun x => eqIgnoreCase (Beneficiary.address x) account)
         (VaultStorage.beneficiaries record')
       = Some (markClaimed (ClaimReceipt.txHash receipt) (ClaimClock.claimTimestamp clock)
                 entry) /\
       forall other,
         eqIgnoreCase account other = false ->
         List.find (fun x => eqIgnoreCase (Beneficiary.address x) other)
           (VaultStorage.beneficiaries record')
         = List.find (fun x => eqIgnoreCase (Beneficiary.address x) other)
             (VaultStorage.beneficiaries record)) /\
  (forall other,
     eqIgnoreCase account other = false ->
     (forall later, canClaim later from other st' = canClaim later from other st) /\
     getClaimStatus from other st' = getClaimStatus from other st).
Proof.
  intros Hfrom Hload Hkey Hok account.
  destruct (claimInheritance_Ok fw clock params st from record Hfrom Hload receipt st' Hok)
    as (_ & _ & _ & Hst).
  fold account in Hst.
  destruct (List.find (fun x => eqIgnoreCase (Beneficiary.address x) account)
              (VaultStorage.beneficiaries record)) as [entry|] eqn:Hentry.
  2:{ rewrite (markClaimedFirst_None _ _ _ _ Hentry) in Hst.
      split; [intros _; exact Hst|]. split; [discriminate|].
      intros other _. rewrite Hst. split; reflexivity. }
  destruct (markClaimedFirst_find account (ClaimReceipt.txHash receipt)
              (ClaimClock.claimTimestamp clock) _ _ Hentry) as (bs' & Hm & Hfind).
  rewrite Hm in Hst.
  destruct (markClaimedFirst_others _ _ _ _ _ Hm) as [Hshares Hothers].
  assert (Hl' : loadVaultData from st'
                = Some (VaultStorage.mk (VaultStorage.config record) bs'
                          (VaultStorage.delegations record) (VaultStorage.checkIns record)
                          (ClaimClock.lastUpdated clock))).
  { rewrite Hst, load_save. case_decide; [reflexivity | congruence]. }
  split; [discriminate|]. split.
  - intros ? [= <-]. eexists. split; [exact Hl'|].
    cbn [VaultStorage.config VaultStorage.checkIns VaultStorage.delegations
         VaultStorage.beneficiaries VaultStorage.lastUpdated].
    do 4 (split; [reflexivity|]). split; [exact Hshares|]. split; [exact Hfind|].
    exact Hothers.
  - intros other Hother. pose proof (Hothers other Hother) as Hfo. split.
    + intros later. unfold canClaim.
      rewrite !(getBeneficiaryDelegation_load _ _ _ _ Hl'),
              !(getBeneficiaryDelegation_load _ _ _ _ Hload), Hl', Hload.
      cbn [VaultStorage.beneficiaries VaultStorage.delegations VaultStorage.config].
      rewrite Hfo. reflexivity.
    + unfold getClaimStatus. rewrite Hl', Hload. cbn [VaultStorage.beneficiaries].
      rewrite Hfo. reflexivity.
Qed.

Lemma claim_marks_only_claimant_witness :
  canClaim 1400 Sample.vault "0xCA701" Sample.afterBobClaim = inr tt /\
  getClaimStatus Sample.vault "0xCA701" Sample.afterBobClaim
    = Some (ClaimStatus.mk false None None 60).
Proof.
  destruct (claim_marks_only_claimant (Sample.fw 100) (Sample.clockAt 1400) Sample.bobClaim
              Sample.funded Sample.afterBobClaim Sample.vault Sample.fundedRecord
              (ClaimReceipt.mk "0xclaim" 40 21000)
              eq_refl sample_funded_load eq_refl)
    as (_ & _ & Hother); [vm_compute; reflexivity|].
  destruct (Hother "0xCA701") as (Hcan & Hstatus); [vm_compute; reflexivity|].
  rewrite Hcan, Hstatus. split; vm_compute; reflexivity.
Defined.

(** ** From the composed validator to the setup ([validation.ts], [setup-beneficiaries.ts]) *)

Lemma fold_allocations_inputOfBeneficiary (bs : list Beneficiary.t) :
  fold_left (fun sum b => sum + BeneficiaryInput.allocation b) (map inputOfBeneficiary bs) 0
  = totalAllocationOf bs.
Proof.
  unfold totalAllocationOf.
  rewrite (fold_allocations_map BeneficiaryInput.allocation),
          (fold_allocations_map Beneficiary.allocation), map_map.
  reflexivity.
Qed.

(** X28.  What [validateVaultSetup] accepts, [setupBeneficiaries] accepts too,
    once the two things the validator leaves out hold: every beneficiary
    has a well-formed address and an accepted name.  With the balance the
    chain reports and every delegation signed, the setup of the validated
    beneficiaries succeeds and builds one entry for each, in order, with
    the same address, name and allocation.  The validator asks for more
    than the setup does: between 1 and 10 beneficiaries and a minimum
    balance. *)
Theorem validated_setup_succeeds (fw : Framework) (now : Z) (vaultAddress ownerAddress : string)
    (beneficiaries : list Beneficiary.t) (period : JSNumber) (unit : PeriodUnit)
    (deadline : Z) (st : Store) :
  ValidationResult.isValid
    (validateVaultSetup (isAddress fw) ownerAddress beneficiaries
       (getBalance fw vaultAddress) period unit) = true ->
  Forall (fun b => isAddress fw (Beneficiary.address b) = true /\
                   ValidationResult.isValid
                     (validateBeneficiaryName (Beneficiary.name b)) = true) beneficiaries ->
  Forall (fun b => is_Some (signDelegation fw
                              (buildDelegation vaultAddress deadline (inputOfBeneficiary b))))
         beneficiaries ->
  (exists created st',
     setupBeneficiaries fw now vaultAddress (map inputOfBeneficiary beneficiaries) deadline st
       = (Ok created, st') /\
     map shareOf created = map shareOf beneficiaries) /\
  (1 <= length beneficiaries <= 10)%nat /\
  MIN_BALANCE <= getBalance fw vaultAddress.
Proof.
  intros Hvalid Hentries Hsigned.
  rewrite validateVaultSetup_isValid, !andb_true_iff in Hvalid.
  destruct Hvalid as [[[[_ _] Hbalance] Halloc] Hdup].
  rewrite validateBeneficiaryAllocations_isValid, !andb_true_iff, !negb_true_iff in Halloc.
  destruct Halloc as [[[Hn0 Hn10] Htotal] Hpos].
  apply Nat.eqb_neq in Hn0. apply Nat.ltb_ge in Hn10.
  split; [|split; [lia|]].
  2:{ unfold validateVaultBalance in Hbalance.
      destruct (Z.ltb_spec (getBalance fw vaultAddress) MIN_BALANCE); [discriminate | lia]. }
  unfold setupBeneficiaries.
  assert (Haddr : map BeneficiaryInput.address (map inputOfBeneficiary beneficiaries)
                  = map Beneficiary.address beneficiaries)
    by (rewrite map_map; reflexivity).
  rewrite Haddr, (proj2 (thrownBy_None _) Hdup).
  assert (Heach : validateEach fw (map inputOfBeneficiary beneficiaries) = None).
  { apply validateEach_None. apply List.Forall_map.
    rewrite forallb_forall in Hpos. rewrite List.Forall_forall in Hentries |- *.
    intros b Hb. destruct (Hentries b Hb) as [Ha Hname]. specialize (Hpos b Hb).
    apply negb_true_iff, Z.leb_gt in Hpos. cbn. repeat split; assumption. }
  rewrite Heach, fold_allocations_inputOfBeneficiary, Htotal.
  assert (Hcreate : is_Some (createAll fw now vaultAddress (getBalance fw vaultAddress)
                               deadline (map inputOfBeneficiary beneficiaries))).
  { apply createAll_is_Some, List.Forall_map. exact Hsigned. }
  destruct Hcreate as [[bs sds] Hc]. rewrite Hc.
  pose proof (createAll_Some _ _ _ _ _ _ _ _ Hc) as (Hshares & _).
  rewrite shareOfInput_inputOfBeneficiary in Hshares.
  destruct (loadVaultData vaultAddress st); eexists _, _; split; (reflexivity || exact Hshares).
Qed.

Lemma validated_setup_succeeds_witness :
  exists created st',
    setupBeneficiaries (Sample.fw 2000000000000000000) 1001 Sample.vault
      (map inputOfBeneficiary [withName "Bob" Sample.nameless]) 1300 Sample.created
      = (Ok created, st') /\
    map shareOf created = [("0xB0B", "Bob", 1000000000000000000)].
Proof.
  destruct (validated_setup_succeeds (Sample.fw 2000000000000000000) 1001 Sample.vault
              "0xOwner" [withName "Bob" Sample.nameless] (Num 30) DAYS 1300 Sample.created)
    as [(created & st' & H & Hs) _].
  - vm_compute. reflexivity.
  - repeat constructor.
  - repeat constructor. cbn. eauto.
  - exists created, st'. split; [exact H | exact Hs].
Defined.
